(** * Auth-System-MERN: the backend authentication workflow

    A shallow embedding of [backend/src/controllers/auth.controller.js],
    [middlewares/verifyToken.js], [utils/generateTokenAndSetCookie.js],
    [mailtrap/emails.js] and [routes/auth.route.js], followed by the
    properties of the workflow that the specification states.

    Conventions of the embedding:
    - the MongoDB collection behind the [User] model is a list of documents in
      insertion order; [findOne] returns the first match;
    - an [async] controller is a computation over a [World] (collection,
      the response object under construction, console, outbox) that either
      completes normally or throws; state written before a throw stays
      written, as in JavaScript;
    - the clock, the random sources, the mail transport and [process.env]
      are read from an [Env] that is given per request;
    - [bcrypt] and [jsonwebtoken] are external libraries and are taken as
      parameters of the development;
    - request fields are absent or strings, as the client forms send them;
    - a console line is its text without the leading pictograph;
    - faults of the store itself (a rejected promise of the driver other
      than a duplicate key) are outside the model. *)

From Stdlib Require Import List String Ascii ZArith NArith Bool Arith Lia.
From Stdlib Require Import DecimalString.
Import ListNotations.

Open Scope string_scope.
Open Scope list_scope.
Open Scope Z_scope.

(** ** JavaScript values that occur in documents and response bodies *)

Definition ObjectId := N.

Inductive JsValue : Type :=
| JsUndefined
| JsBoolean (b : bool)
| JsNumber (z : Z)
| JsString (s : string)
| JsObjectId (i : ObjectId).

(** An object is its own-property list, in property order. *)
Definition JsObject := list (string * JsValue).

Definition is_undefined (v : JsValue) : bool :=
  match v with JsUndefined => true | _ => false end.

Fixpoint js_get (k : string) (o : JsObject) : JsValue :=
  match o with
  | [] => JsUndefined
  | (k', v) :: o' => if String.eqb k k' then v else js_get k o'
  end.

Fixpoint has_own_property (k : string) (o : JsObject) : bool :=
  match o with
  | [] => false
  | (k', _) :: o' => String.eqb k k' || has_own_property k o'
  end.

(** [{...o, k: v}]: an existing key keeps its place and takes the new value,
    a new key goes last. *)
Fixpoint js_set (k : string) (v : JsValue) (o : JsObject) : JsObject :=
  match o with
  | [] => [(k, v)]
  | (k', v') :: o' =>
      if String.eqb k k' then (k', v) :: o' else (k', v') :: js_set k v o'
  end.

(** [JSON.stringify] leaves out every property whose value is [undefined]. *)
Definition JSON_stringify (o : JsObject) : JsObject :=
  filter (fun kv => negb (is_undefined (snd kv))) o.

Definition js_optional {A : Type} (inj : A -> JsValue) (o : option A) : JsValue :=
  match o with Some a => inj a | None => JsUndefined end.

(** JavaScript truthiness of a request field: absent and the empty string
    are falsy. *)
Definition truthy (field : option string) : bool :=
  match field with
  | Some s => negb (String.eqb s "")
  | None => false
  end.

Definition field_string (field : option string) : string :=
  match field with Some s => s | None => "" end.

(** ** The User model *)

Module User.

(** Modelled from the spec: [models/user.model.js], the schema of the
    collection, is not among the sources. The fields are those of the
    data model: identity, credential, verification state, reset state and
    bookkeeping; [isVerified] defaults to [false] and email is unique. *)
Record Document : Type := mkDocument {
  _id : ObjectId;
  email : string;
  password : string;
  name : string;
  lastLogin : Z;
  isVerified : bool;
  resetPasswordToken : option string;
  resetPasswordExpiresAt : option Z;
  verificationToken : option string;
  verificationTokenExpiresAt : option Z;
  createdAt : Z
}.

(** [user._doc], also what [toJSON] gives for a document in an array. *)
Definition _doc (u : Document) : JsObject :=
  [ ("_id", JsObjectId (_id u));
    ("email", JsString (email u));
    ("password", JsString (password u));
    ("name", JsString (name u));
    ("lastLogin", JsNumber (lastLogin u));
    ("isVerified", JsBoolean (isVerified u));
    ("resetPasswordToken", js_optional JsString (resetPasswordToken u));
    ("resetPasswordExpiresAt", js_optional JsNumber (resetPasswordExpiresAt u));
    ("verificationToken", js_optional JsString (verificationToken u));
    ("verificationTokenExpiresAt",
      js_optional JsNumber (verificationTokenExpiresAt u));
    ("createdAt", JsNumber (createdAt u)) ].

(** The filters the controllers pass to [findOne], [find] and
    [deleteMany]; a filter object is the conjunction of its conditions. *)
Inductive Condition : Type :=
| EmailIs (e : option string)
| IsVerifiedIs (b : bool)
| VerificationTokenIs (code : option string)
| VerificationTokenExpiresAt_gt (t : Z)
| VerificationTokenExpiresAt_lt (t : Z)
| ResetPasswordTokenIs (token : option string)
| ResetPasswordExpiresAt_gt (t : Z).

Definition Filter := list Condition.

Definition option_string_eqb (a b : option string) : bool :=
  match a, b with
  | Some x, Some y => String.eqb x y
  | None, None => true
  | _, _ => false
  end.

(** A comparison operator never matches a missing field; an [undefined]
    filter value is sent as [null] and matches a missing field. *)
Definition holds (c : Condition) (u : Document) : bool :=
  match c with
  | EmailIs e =>
      match e with
      | Some e => String.eqb (email u) e
      | None => false
      end
  | IsVerifiedIs b => Bool.eqb (isVerified u) b
  | VerificationTokenIs code => option_string_eqb (verificationToken u) code
  | VerificationTokenExpiresAt_gt t =>
      match verificationTokenExpiresAt u with
      | Some e => t <? e
      | None => false
      end
  | VerificationTokenExpiresAt_lt t =>
      match verificationTokenExpiresAt u with
      | Some e => e <? t
      | None => false
      end
  | ResetPasswordTokenIs token => option_string_eqb (resetPasswordToken u) token
  | ResetPasswordExpiresAt_gt t =>
      match resetPasswordExpiresAt u with
      | Some e => t <? e
      | None => false
      end
  end.

Definition matches (q : Filter) (u : Document) : bool :=
  forallb (fun c => holds c u) q.

Definition Collection := list Document.

Definition find (q : Filter) (db : Collection) : list Document :=
  filter (matches q) db.

Definition findOne (q : Filter) (db : Collection) : option Document :=
  List.find (matches q) db.

Definition findById (i : ObjectId) (db : Collection) : option Document :=
  List.find (fun u => N.eqb (_id u) i) db.

Definition deleteMany (q : Filter) (db : Collection) : Collection :=
  filter (fun u => negb (matches q u)) db.

(** [User.create]: the insert is refused (duplicate key) when the
    identifier or the unique email is already in the collection. *)
Definition create (u : Document) (db : Collection) : option Collection :=
  if existsb (fun v => N.eqb (_id v) (_id u) || String.eqb (email v) (email u)) db
  then None
  else Some (db ++ [u]).

(** [user.save()]: one update of the document with the same [_id]. *)
Fixpoint save (u : Document) (db : Collection) : Collection :=
  match db with
  | [] => []
  | v :: db' => if N.eqb (_id v) (_id u) then u :: db' else v :: save u db'
  end.

End User.

(** ** Environment, world and the computation type of a controller *)

Record Env : Type := mkEnv {
  Date_now : Z;                 (* Date.now(), milliseconds *)
  Math_random : N;              (* the draw behind generateVerificationToken *)
  crypto_randomBytes : string;  (* crypto.randomBytes(20).toString("hex") *)
  bcrypt_salt : string;         (* the salt bcrypt.hash generates *)
  new_ObjectId : ObjectId;      (* the identifier of a created document *)
  mailtrap_up : bool;           (* does mailtrapClient.send resolve? *)
  limit_reached : bool;         (* has this client used up the route's window? *)
  NODE_ENV : string;
  CLIENT_URL : string
}.

Inductive Mail : Type :=
| VerificationMail (to code : string)
| WelcomeMail (to name : string)
| PasswordResetMail (to resetURL : string)
| PasswordResetSuccessMail (to : string).

Inductive ConsoleLine : Type :=
| console_log_line (text : string)
| console_error_line (text : string).

Record CookieOptions : Type := mkCookieOptions {
  httpOnly : bool;
  secure : bool;
  maxAge : option Z;
  sameSite : string
}.

Inductive CookieOp : Type :=
| SetCookie (name value : string) (options : CookieOptions)
| ClearCookie (name : string) (options : CookieOptions).

Record World : Type := mkWorld {
  db : User.Collection;       (* the users collection *)
  res_cookies : list CookieOp;(* cookie headers already put on [res] *)
  console : list ConsoleLine;
  outbox : list Mail
}.

Inductive Completion (A : Type) : Type :=
| Normal (a : A)
| Throw (error_message : string).

Arguments Normal {A} a.
Arguments Throw {A} error_message.

Definition Async (A : Type) : Type := World -> Completion A * World.

Definition ret {A : Type} (a : A) : Async A := fun w => (Normal a, w).

Definition bind {A B : Type} (m : Async A) (k : A -> Async B) : Async B :=
  fun w =>
    match m w with
    | (Normal a, w') => k a w'
    | (Throw e, w') => (Throw e, w')
    end.

Definition throw {A : Type} (e : string) : Async A := fun w => (Throw e, w).

Definition try_catch {A : Type} (body : Async A) (handler : string -> Async A)
  : Async A :=
  fun w =>
    match body w with
    | (Normal a, w') => (Normal a, w')
    | (Throw e, w') => handler e w'
    end.

Declare Scope async_scope.
Delimit Scope async_scope with async.
Notation "x <- m ;; k" := (bind m (fun x => k))
  (at level 100, m at next level, right associativity) : async_scope.
Notation "m ;; k" := (bind m (fun _ => k))
  (at level 100, right associativity) : async_scope.
Open Scope async_scope.

Definition query {A : Type} (f : User.Collection -> A) : Async A :=
  fun w => (Normal (f (db w)), w).

Definition update (f : User.Collection -> User.Collection) : Async unit :=
  fun w => (Normal tt,
            mkWorld (f (db w)) (res_cookies w) (console w) (outbox w)).

Definition console_log (text : string) : Async unit :=
  fun w => (Normal tt,
            mkWorld (db w) (res_cookies w)
                    (console w ++ [console_log_line text]) (outbox w)).

Definition console_error (text : string) : Async unit :=
  fun w => (Normal tt,
            mkWorld (db w) (res_cookies w)
                    (console w ++ [console_error_line text]) (outbox w)).

Definition res_cookie (c : CookieOp) : Async unit :=
  fun w => (Normal tt,
            mkWorld (db w) (res_cookies w ++ [c]) (console w) (outbox w)).

(** [mailtrapClient.send]: delivers, or rejects when the transport is down. *)
Definition mailtrapClient_send (env : Env) (m : Mail) : Async unit :=
  fun w =>
    if mailtrap_up env
    then (Normal tt,
          mkWorld (db w) (res_cookies w) (console w) (outbox w ++ [m]))
    else (Throw "mailtrap: request failed", w).

Definition User_create (u : User.Document) : Async User.Document :=
  fun w =>
    match User.create u (db w) with
    | Some db' =>
        (Normal u, mkWorld db' (res_cookies w) (console w) (outbox w))
    | None => (Throw "E11000 duplicate key error collection: users", w)
    end.

(** ** Response bodies *)

Inductive Payload : Type :=
| NoPayload
| UserPayload (user : JsObject)
| UsersPayload (count : nat) (users : list JsObject).

(** The envelope [{success, message, ...payload}] given to [res.json]. *)
Record Json : Type := mkJson {
  success : bool;
  message : string;
  payload : Payload
}.

(** [res.status(s).json(body)]. *)
Record Reply : Type := mkReply {
  status : Z;
  json : Json
}.

Definition failure (s : Z) (m : string) : Reply := mkReply s (mkJson false m NoPayload).

(** The user objects of a body as the client receives them, that is after
    [JSON.stringify]. *)
Definition users_on_the_wire (r : Reply) : list JsObject :=
  match payload (json r) with
  | NoPayload => []
  | UserPayload user => [JSON_stringify user]
  | UsersPayload _ users => map JSON_stringify users
  end.

(** ** utils/generateVerificationToken.js *)

(** Modelled from the spec: [generateVerificationToken] is not among the
    sources; the spec gives a 6-digit numeric value with no exclusions and
    no collision avoidance. The code is the decimal numeral of a number
    between 100000 and 999999 drawn from the random source. *)
Definition generateVerificationToken (env : Env) : string :=
  NilEmpty.string_of_uint (N.to_uint (100000 + Math_random env mod 900000)%N).

(** ** jsonwebtoken, bcrypt *)

Inductive JwtVerdict : Type :=
| Decoded (userId : ObjectId)
| JsonWebTokenError (reason : string)   (* malformed, bad signature *)
| TokenExpiredError.                    (* well signed, past its expiry *)

Definition seven_days : Z := 7 * 24 * 60 * 60 * 1000.

Section Controllers.

(** [bcrypt.hash(password, 12)] with the salt it drew, [bcrypt.compare],
    [jwt.sign({userId}, JWT_SECRET, {expiresIn: "7d"})] at a time of issue
    and [jwt.verify(token, JWT_SECRET)] at a time of check. *)
Variable bcrypt_hash : string -> string -> string.
Variable bcrypt_compare : string -> string -> bool.
Variable jwt_sign : ObjectId -> Z -> string.
Variable jwt_verify : string -> Z -> JwtVerdict.

(** *** utils/generateTokenAndSetCookie.js *)

Definition generateTokenAndSetCookie (env : Env) (userId : ObjectId)
  : Async string :=
  let token := jwt_sign userId (Date_now env) in
  res_cookie
    (SetCookie "token" token
       (mkCookieOptions true (String.eqb (NODE_ENV env) "production")
                        (Some seven_days) "strict")) ;;
  ret token.

(** *** mailtrap/emails.js *)

Definition sendVerificationEmail (env : Env) (email verificationToken : string)
  : Async unit :=
  try_catch
    (mailtrapClient_send env (VerificationMail email verificationToken) ;;
     console_log "Verification email sent successfully")
    (fun error =>
       console_error ("Error sending verification email: " ++ error) ;;
       throw "Failed to send verification email").

Definition sendWelcomeEmail (env : Env) (email name : string) : Async unit :=
  try_catch
    (mailtrapClient_send env (WelcomeMail email name) ;;
     console_log "Welcome email sent successfully")
    (fun error =>
       console_error ("Error sending welcome email: " ++ error) ;;
       throw "Failed to send welcome email").

Definition sendPasswordResetEmail (env : Env) (email resetURL : string)
  : Async unit :=
  try_catch
    (mailtrapClient_send env (PasswordResetMail email resetURL) ;;
     console_log "Password reset email sent successfully")
    (fun error =>
       console_error ("Error sending password reset email: " ++ error) ;;
       throw "Failed to send password reset email").

Definition sendPasswordResetSuccessEmail (env : Env) (email : string)
  : Async unit :=
  try_catch
    (mailtrapClient_send env (PasswordResetSuccessMail email) ;;
     console_log "Password reset success email sent successfully")
    (fun error =>
       console_error ("Error sending password reset success email: " ++ error) ;;
       throw "Failed to send password reset success email").

(** *** middlewares/verifyToken.js *)

Definition verifyToken (env : Env) (cookie_token : option string)
  (next : ObjectId -> Async Reply) : Async Reply :=
  if negb (truthy cookie_token) then
    ret (failure 401 "Unauthorized. Please login to continue.")
  else
    match jwt_verify (field_string cookie_token) (Date_now env) with
    | Decoded userId => next userId
    | JsonWebTokenError reason =>
        console_error ("Token verification error: " ++ reason) ;;
        ret (failure 401 "Invalid or expired token. Please login again.")
    | TokenExpiredError =>
        console_error "Token verification error: jwt expired" ;;
        ret (failure 401 "Invalid or expired token. Please login again.")
    end.

(** *** controllers/auth.controller.js *)

(** The callback of [setInterval], run every hour. *)
Definition sweep (env : Env) : Async unit :=
  try_catch
    (let now := Date_now env in
     expiredUsers <-
       query (User.find [User.IsVerifiedIs false;
                         User.VerificationTokenExpiresAt_lt now]) ;;
     if (0 <? List.length expiredUsers)%nat then
       update (User.deleteMany [User.IsVerifiedIs false;
                                User.VerificationTokenExpiresAt_lt now]) ;;
       console_log ("Deleted "
                    ++ NilZero.string_of_uint (Nat.to_uint (List.length expiredUsers))
                    ++ " expired unverified account(s).")
     else ret tt)
    (fun error =>
       console_error ("Error deleting expired unverified users: " ++ error)).

Definition getAllUsers : Async Reply :=
  try_catch
    (users <- query (User.find []) ;;
     ret (mkReply 200
            (mkJson true "Users fetched successfully"
                    (UsersPayload (List.length users) (map User._doc users)))))
    (fun error =>
       console_error ("Error fetching users: " ++ error) ;;
       ret (failure 500 "Server error while fetching users")).

Definition signup (env : Env) (email password name : option string)
  : Async Reply :=
  console_log "Signup request received" ;;
  try_catch
    (if negb (truthy email) || negb (truthy password) || negb (truthy name) then
       ret (failure 400 "All fields are required (email, password, name).")
     else if (String.length (field_string password) <? 8)%nat then
       ret (failure 400 "Password must be at least 8 characters long.")
     else
       existingUser <- query (User.findOne [User.EmailIs email]) ;;
       match existingUser with
       | Some _ => ret (failure 409 "A user with this email already exists.")
       | None =>
           let hashedPassword :=
             bcrypt_hash (field_string password) (bcrypt_salt env) in
           console_log "Password hashed" ;;
           let verificationToken := generateVerificationToken env in
           let verificationTokenExpiresAt :=
             Date_now env + 24 * 60 * 60 * 1000 in
           console_log "Verification token generated" ;;
           user <- User_create
                     (User.mkDocument (new_ObjectId env) (field_string email)
                        hashedPassword (field_string name) (Date_now env) false
                        None None (Some verificationToken)
                        (Some verificationTokenExpiresAt) (Date_now env)) ;;
           console_log "User created" ;;
           generateTokenAndSetCookie env (User._id user) ;;
           console_log "JWT cookie set" ;;
           sendVerificationEmail env (User.email user) verificationToken ;;
           console_log "Verification email sent" ;;
           ret (mkReply 201
                  (mkJson true
                     "User created successfully. Please check your email to verify your account."
                     (UserPayload
                        (js_set "password" JsUndefined (User._doc user)))))
       end)
    (fun error =>
       console_error ("Signup error: " ++ error) ;;
       ret (failure 500 ("Server error during signup: " ++ error))).

Definition login (env : Env) (email password : option string) : Async Reply :=
  try_catch
    (if negb (truthy email) || negb (truthy password) then
       ret (failure 400 "All fields are required (email and password).")
     else
       found <- query (User.findOne [User.EmailIs email]) ;;
       match found with
       | None => ret (failure 401 "Invalid email or password.")
       | Some user =>
           if negb (User.isVerified user) then
             ret (failure 403 "Please verify your email before logging in.")
           else
             let isMatch :=
               bcrypt_compare (field_string password) (User.password user) in
             if negb isMatch then
               ret (failure 401 "Invalid email or password.")
             else
               generateTokenAndSetCookie env (User._id user) ;;
               console_log "User logged in" ;;
               let user :=
                 User.mkDocument (User._id user) (User.email user)
                   (User.password user) (User.name user) (Date_now env)
                   (User.isVerified user) (User.resetPasswordToken user)
                   (User.resetPasswordExpiresAt user)
                   (User.verificationToken user)
                   (User.verificationTokenExpiresAt user)
                   (User.createdAt user) in
               update (User.save user) ;;
               ret (mkReply 200
                      (mkJson true "Logged in successfully"
                         (UserPayload
                            (js_set "password" JsUndefined (User._doc user)))))
       end)
    (fun error =>
       console_error ("Login error: " ++ error) ;;
       ret (failure 500 "Server error during login.")).

Definition logout (env : Env) : Async Reply :=
  try_catch
    (res_cookie
       (ClearCookie "token"
          (mkCookieOptions true (String.eqb (NODE_ENV env) "production")
                           None "strict")) ;;
     ret (mkReply 200 (mkJson true "Logged out successfully" NoPayload)))
    (fun error =>
       console_error ("Logout error: " ++ error) ;;
       ret (failure 500 "Server error during logout.")).

Definition verifyEmail (env : Env) (code : option string) : Async Reply :=
  try_catch
    (found <- query (User.findOne
                       [User.VerificationTokenIs code;
                        User.VerificationTokenExpiresAt_gt (Date_now env)]) ;;
     match found with
     | None => ret (failure 400 "Invalid or expired verification code.")
     | Some user =>
         let user :=
           User.mkDocument (User._id user) (User.email user)
             (User.password user) (User.name user) (User.lastLogin user)
             true (User.resetPasswordToken user)
             (User.resetPasswordExpiresAt user) None None
             (User.createdAt user) in
         update (User.save user) ;;
         console_log "User verified" ;;
         sendWelcomeEmail env (User.email user) (User.name user) ;;
         console_log "Welcome email sent" ;;
         generateTokenAndSetCookie env (User._id user) ;;
         ret (mkReply 200
                (mkJson true "Email verified successfully."
                   (UserPayload
                      [("_id", JsObjectId (User._id user));
                       ("name", JsString (User.name user));
                       ("email", JsString (User.email user));
                       ("isVerified", JsBoolean (User.isVerified user))])))
     end)
    (fun error =>
       console_error ("Email verification error: " ++ error) ;;
       ret (failure 500 "Server error during email verification.")).

Definition forgotPassword (env : Env) (email : option string) : Async Reply :=
  try_catch
    (found <- query (User.findOne [User.EmailIs email]) ;;
     match found with
     | None => ret (failure 404 "No User Found With This Email")
     | Some user =>
         let resetToken := crypto_randomBytes env in
         let resetTokenExpiresAt := Date_now env + 60 * 60 * 1000 in
         let user :=
           User.mkDocument (User._id user) (User.email user)
             (User.password user) (User.name user) (User.lastLogin user)
             (User.isVerified user) (Some resetToken)
             (Some resetTokenExpiresAt) (User.verificationToken user)
             (User.verificationTokenExpiresAt user) (User.createdAt user) in
         update (User.save user) ;;
         console_log resetToken ;;
         sendPasswordResetEmail env (User.email user)
           (CLIENT_URL env ++ "/reset-password/" ++ resetToken) ;;
         ret (mkReply 200
                (mkJson true "Reset password email sent successfully." NoPayload))
     end)
    (fun error =>
       console_error ("Forgot password error: " ++ error) ;;
       ret (failure 500 "Server error during forgot password.")).

Definition resetPassword (env : Env) (token : string) (password : option string)
  : Async Reply :=
  if negb (truthy password) then
    ret (failure 400 "Password is required")
  else if (String.length (field_string password) <? 8)%nat then
    ret (failure 400 "Password must be at least 8 characters long")
  else
    try_catch
      (found <- query (User.findOne
                         [User.ResetPasswordTokenIs (Some token);
                          User.ResetPasswordExpiresAt_gt (Date_now env)]) ;;
       match found with
       | None => ret (failure 400 "Invalid or expired reset token.")
       | Some user =>
           let hashedPassword :=
             bcrypt_hash (field_string password) (bcrypt_salt env) in
           let user :=
             User.mkDocument (User._id user) (User.email user)
               hashedPassword (User.name user) (User.lastLogin user)
               (User.isVerified user) None None (User.verificationToken user)
               (User.verificationTokenExpiresAt user) (User.createdAt user) in
           update (User.save user) ;;
           sendPasswordResetSuccessEmail env (User.email user) ;;
           console_log "Password reset email sent" ;;
           ret (mkReply 200 (mkJson true "Password reset successfully." NoPayload))
       end)
      (fun error =>
         console_error ("Reset password error: " ++ error) ;;
         ret (failure 500 "Server error during password reset.")).

Definition checkAuth (userId : ObjectId) : Async Reply :=
  try_catch
    (found <- query (User.findById userId) ;;
     match found with
     | None => ret (failure 401 "Unauthorized. Please login to continue.")
     | Some user =>
         ret (mkReply 200
                (mkJson true "User is authenticated"
                   (UserPayload
                      (js_set "password" JsUndefined (User._doc user)))))
     end)
    (fun error =>
       console_error ("Check auth error: " ++ error) ;;
       ret (failure 500 "Server error during check auth.")).

(** *** middlewares/rateLimit.js *)

(** A limiter of [express-rate-limit]: once the client has used up the
    window the configured message is sent with status 429 and the
    controller does not run. *)
Definition rateLimit (limit_message : string) (env : Env) (next : Async Reply)
  : Async Reply :=
  if limit_reached env then ret (failure 429 limit_message) else next.

Definition loginLimiter :=
  rateLimit "Too many login attempts. Please try again later.".

Definition signupLimiter :=
  rateLimit "Too many accounts created from this IP. Please try again later.".

Definition forgotPasswordLimiter :=
  rateLimit "Too many password reset requests. Please try again after 15 minutes.".

(** *** routes/auth.route.js *)

Inductive Request : Type :=
| GET_check_auth (cookie_token : option string)
| GET_root
| POST_signup (email password name : option string)
| POST_login (email password : option string)
| POST_logout
| POST_verify_email (code : option string)
| POST_forgot_password (email : option string)
| POST_reset_password (token : string) (password : option string).

(** The handler chain registered for a request; [GET /] is registered only
    outside production. *)
Definition router (env : Env) (req : Request) : option (Async Reply) :=
  match req with
  | GET_check_auth cookie_token =>
      Some (verifyToken env cookie_token checkAuth)
  | GET_root =>
      if String.eqb (NODE_ENV env) "production" then None else Some getAllUsers
  | POST_signup email password name =>
      Some (signupLimiter env (signup env email password name))
  | POST_login email password =>
      Some (loginLimiter env (login env email password))
  | POST_logout => Some (logout env)
  | POST_verify_email code => Some (verifyEmail env code)
  | POST_forgot_password email =>
      Some (forgotPasswordLimiter env (forgotPassword env email))
  | POST_reset_password token password =>
      Some (resetPassword env token password)
  end.

(** *** Running a controller and the system as a transition system *)

Definition fresh (users : User.Collection) : World := mkWorld users [] [] [].

(** A request runs its handler chain on a new response object. *)
Definition run {A : Type} (handler : Async A) (users : User.Collection)
  : Completion A * World :=
  handler (fresh users).

Definition reply_of {A : Type} (r : Completion A * World) : Completion A := fst r.
Definition users_after {A : Type} (r : Completion A * World) : User.Collection :=
  db (snd r).
Definition cookies_of {A : Type} (r : Completion A * World) : list CookieOp :=
  res_cookies (snd r).
Definition console_of {A : Type} (r : Completion A * World) : list ConsoleLine :=
  console (snd r).
Definition mails_of {A : Type} (r : Completion A * World) : list Mail :=
  outbox (snd r).

Inductive Operation : Type :=
| Handle (req : Request)
| Sweep.

(** The collection after one operation of the system. *)
Definition step (env : Env) (op : Operation) (users : User.Collection)
  : User.Collection :=
  match op with
  | Handle req =>
      match router env req with
      | Some handler => users_after (run handler users)
      | None => users
      end
  | Sweep => users_after (run (sweep env) users)
  end.

Fixpoint steps (trace : list (Env * Operation)) (users : User.Collection)
  : User.Collection :=
  match trace with
  | [] => users
  | (env, op) :: trace' => steps trace' (step env op users)
  end.

End Controllers.

Arguments generateVerificationToken : simpl never.

(** ** Stand-ins for the external libraries and sample data

    Small executable stand-ins for [bcrypt] and [jsonwebtoken], used where a
    controller is run on a concrete request. A digest is the cost prefix, the
    salt and the plaintext after a dot; a token is the decimal user
    identifier, a dot and the decimal expiry. *)

Module Sample.

Definition ends_with (suffix s : string) : bool :=
  (String.length suffix <=? String.length s)%nat &&
  String.eqb
    (substring (String.length s - String.length suffix) (String.length suffix) s)
    suffix.

Definition bcrypt_hash (password salt : string) : string :=
  "$2b$12$" ++ salt ++ "." ++ password.

Definition bcrypt_compare (password digest : string) : bool :=
  ends_with ("." ++ password) digest.

Definition decimal (n : N) : string := NilZero.string_of_uint (N.to_uint n).

Definition jwt_sign (userId : ObjectId) (issued_at : Z) : string :=
  decimal userId ++ "." ++ decimal (Z.to_N (issued_at + seven_days)).

Definition jwt_verify (token : string) (now : Z) : JwtVerdict :=
  match index 0 "." token with
  | None => JsonWebTokenError "jwt malformed"
  | Some i =>
      match NilZero.uint_of_string (substring 0 i token),
            NilZero.uint_of_string
              (substring (S i) (String.length token - S i) token) with
      | Some userId, Some expiry =>
          if now <? Z.of_N (N.of_uint expiry)
          then Decoded (N.of_uint userId)
          else TokenExpiredError
      | _, _ => JsonWebTokenError "invalid token"
      end
  end.

(** 2025-01-01T00:00:00Z in milliseconds. *)
Definition t0 : Z := 1735689600000.

Definition one_hour : Z := 60 * 60 * 1000.

Definition env_at (now : Z) (random : N) (id : ObjectId) (mail : bool) : Env :=
  mkEnv now random "5f4dcc3b5aa765d61d8327deb882cf99a1b2c3d4" "N9qo8uLOickgx2ZMRZoMye"
        id mail false "development" "http://localhost:5173".

(** A verified account, an unverified one whose code is still valid, and a
    verified one holding a reset token that expired an hour before [t0]. *)
Definition alice : User.Document :=
  User.mkDocument 1%N "alice@x.com" (bcrypt_hash "Passw0rd!" "saltsaltsaltsaltsalt22")
    "Alice" (t0 - one_hour) true None None None None (t0 - 48 * one_hour).

Definition bob : User.Document :=
  User.mkDocument 2%N "bob@x.com" (bcrypt_hash "hunter2hunter2" "pepperpepperpepper4422")
    "Bob" (t0 - one_hour) false None None (Some "482913")
    (Some (t0 + 23 * one_hour)) (t0 - one_hour).

Definition carol : User.Document :=
  User.mkDocument 3%N "carol@x.com" (bcrypt_hash "correct horse" "gingergingerginger2222")
    "Carol" (t0 - 3 * one_hour) true (Some "9f86d081884c7d659a2feaa0c55ad015a3bf4f1b")
    (Some (t0 - one_hour)) None None (t0 - 72 * one_hour).

Definition users : User.Collection := [alice; bob; carol].

End Sample.

(** ** Vocabulary of the statements *)

Section Vocabulary.

Variable bcrypt_hash : string -> string -> string.
Variable jwt_sign : ObjectId -> Z -> string.

(** The document [signup] hands to [User.create]. *)
Definition signup_document (env : Env) (email password name : string)
  : User.Document :=
  User.mkDocument (new_ObjectId env) email
    (bcrypt_hash password (bcrypt_salt env)) name (Date_now env) false
    None None (Some (generateVerificationToken env))
    (Some (Date_now env + 24 * 60 * 60 * 1000)) (Date_now env).

(** The cookie [generateTokenAndSetCookie] puts on the response. *)
Definition session_cookie (env : Env) (userId : ObjectId) : CookieOp :=
  SetCookie "token" (jwt_sign userId (Date_now env))
    (mkCookieOptions true (String.eqb (NODE_ENV env) "production")
                     (Some seven_days) "strict").

End Vocabulary.

(** The fields of a signup pass the two validation steps. *)
Definition valid_signup (email password name : option string) : Prop :=
  truthy email = true /\ truthy password = true /\ truthy name = true /\
  (8 <= String.length (field_string password))%nat.

(** The status of the answer of a run, if it answered. *)
Definition status_of (r : Completion Reply * World) : option Z :=
  match reply_of r with
  | Normal reply => Some (status reply)
  | Throw _ => None
  end.

(** The document [verifyEmail] saves for a user it found. *)
Definition verified_document (user : User.Document) : User.Document :=
  User.mkDocument (User._id user) (User.email user) (User.password user)
    (User.name user) (User.lastLogin user) true (User.resetPasswordToken user)
    (User.resetPasswordExpiresAt user) None None (User.createdAt user).

(** The document [resetPassword] saves for a user it found. *)
Definition reset_document (hashedPassword : string) (user : User.Document)
  : User.Document :=
  User.mkDocument (User._id user) (User.email user) hashedPassword
    (User.name user) (User.lastLogin user) (User.isVerified user) None None
    (User.verificationToken user) (User.verificationTokenExpiresAt user)
    (User.createdAt user).

(** The password of a reset passes the two validation steps. *)
Definition valid_password (password : option string) : Prop :=
  truthy password = true /\ (8 <= String.length (field_string password))%nat.

(** Both fields of a login are submitted, that is present and not empty. *)
Definition submitted (email password : option string) : Prop :=
  truthy email = true /\ truthy password = true.

(** The identifiers of a collection; [User.create] keeps them distinct. *)
Definition ids (users : User.Collection) : list ObjectId := map User._id users.

(** Every record of [users] is in [users'] under the same identifier with
    its flag unchanged or raised, or was unverified and is gone. *)
Definition flags_only_rise (users users' : User.Collection) : Prop :=
  forall u, In u users ->
    (exists u', In u' users' /\ User._id u' = User._id u /\
                (User.isVerified u' = User.isVerified u \/
                 User.isVerified u' = true)) \/
    (User.isVerified u = false /\ ~ In (User._id u) (ids users')).

(** ** Further vocabulary: the documents the other controllers save *)

(** The document [login] saves for a user it found. *)
Definition logged_in_document (now : Z) (user : User.Document) : User.Document :=
  User.mkDocument (User._id user) (User.email user) (User.password user)
    (User.name user) now (User.isVerified user) (User.resetPasswordToken user)
    (User.resetPasswordExpiresAt user) (User.verificationToken user)
    (User.verificationTokenExpiresAt user) (User.createdAt user).

(** The document [forgotPassword] saves for a user it found. *)
Definition forgot_document (resetToken : string) (resetTokenExpiresAt : Z)
  (user : User.Document) : User.Document :=
  User.mkDocument (User._id user) (User.email user) (User.password user)
    (User.name user) (User.lastLogin user) (User.isVerified user)
    (Some resetToken) (Some resetTokenExpiresAt) (User.verificationToken user)
    (User.verificationTokenExpiresAt user) (User.createdAt user).

(** The emails of a collection. *)
Definition emails (users : User.Collection) : list string := map User.email users.

(** What the controllers keep true of a stored record: a record is verified
    exactly when it holds no verification code; code and expiry are present
    or absent together, and so are the reset token and its expiry; an
    unverified record expires 24 hours after its creation; the stored
    credential is the hash of a password of at least 8 characters. *)
Definition wellformed (bcrypt_hash : string -> string -> string)
  (u : User.Document) : Prop :=
  (User.isVerified u = true <-> User.verificationToken u = None) /\
  (User.verificationToken u = None <-> User.verificationTokenExpiresAt u = None) /\
  (User.isVerified u = false ->
   User.verificationTokenExpiresAt u = Some (User.createdAt u + 86400000)) /\
  (User.resetPasswordToken u = None <-> User.resetPasswordExpiresAt u = None) /\
  (exists password salt,
     User.password u = bcrypt_hash password salt /\
     (8 <= String.length password)%nat).

(** A collection is consistent when identifiers and emails are unique and
    every record is well formed. *)
Definition consistent (bcrypt_hash : string -> string -> string)
  (users : User.Collection) : Prop :=
  NoDup (ids users) /\ NoDup (emails users) /\
  Forall (wellformed bcrypt_hash) users.

(** A sample run of the system: Dave signs up and verifies his email, the
    sweep runs on the next day, Dave asks for a reset link and logs in. *)
Definition sample_trace : list (Env * Operation) :=
  [(Sample.env_at Sample.t0 23456%N 4%N true,
    Handle (POST_signup (Some "dave@x.com") (Some "Passw0rd!") (Some "Dave")));
   (Sample.env_at (Sample.t0 + Sample.one_hour) 0%N 9%N true,
    Handle (POST_verify_email (Some "123456")));
   (Sample.env_at (Sample.t0 + 25 * Sample.one_hour) 0%N 9%N true, Sweep);
   (Sample.env_at (Sample.t0 + 26 * Sample.one_hour) 0%N 9%N true,
    Handle (POST_forgot_password (Some "dave@x.com")));
   (Sample.env_at (Sample.t0 + 27 * Sample.one_hour) 0%N 9%N true,
    Handle (POST_login (Some "dave@x.com") (Some "Passw0rd!")))].

(** The record of Dave at the end of the sample run. *)
Definition sample_dave : User.Document :=
  User.mkDocument 4%N "dave@x.com" "$2b$12$N9qo8uLOickgx2ZMRZoMye.Passw0rd!"
    "Dave" (Sample.t0 + 27 * Sample.one_hour) true
    (Some "5f4dcc3b5aa765d61d8327deb882cf99a1b2c3d4")
    (Some (Sample.t0 + 27 * Sample.one_hour)) None None Sample.t0.

(** * The client

    The React components and the store of the front end, as far as they
    compute: a string is its sequence of characters, one character per code
    unit, and a component is the function from its props or from the store
    state to what it shows. *)

(** ** components/PasswordStrengthMeter.jsx *)

Module PasswordStrengthMeter.

Definition between (lo hi c : ascii) : bool :=
  (N_of_ascii lo <=? N_of_ascii c)%N && (N_of_ascii c <=? N_of_ascii hi)%N.

(** [/[class]/.test(s)]: some character of [s] is in the class. *)
Fixpoint test (class : ascii -> bool) (s : string) : bool :=
  match s with
  | EmptyString => false
  | String c s' => class c || test class s'
  end.

Definition upper : ascii -> bool := between "A" "Z".
Definition lower : ascii -> bool := between "a" "z".
Definition digit : ascii -> bool := between "0" "9".

(** The class [[^A-Za-z0-9]] of [PasswordCriteria]. *)
Definition not_A_Za_z0_9 (c : ascii) : bool :=
  negb (upper c || lower c || digit c).

(** The class [[^a-zA-Z\d]] of [getStrength]. *)
Definition not_a_zA_Z_d (c : ascii) : bool :=
  negb (lower c || upper c || digit c).

(** The rules [PasswordCriteria] lists, each with whether it is met. *)
Definition criteria (password : string) : list (string * bool) :=
  [ ("At least 8 characters", (8 <=? String.length password)%nat);
    ("Contains uppercase letter", test upper password);
    ("Contains lowercase letter", test lower password);
    ("Contains a number", test digit password);
    ("Contains special character", test not_A_Za_z0_9 password) ].

Definition getStrength (password : string) : nat :=
  let strength := 0%nat in
  let strength :=
    if (8 <=? String.length password)%nat then S strength else strength in
  let strength :=
    if test lower password && test upper password then S strength else strength in
  let strength := if test digit password then S strength else strength in
  let strength :=
    if test not_a_zA_Z_d password then S strength else strength in
  strength.

Definition getColor (strength : nat) : string :=
  if (strength =? 0)%nat then "bg-red-500"
  else if (strength =? 1)%nat then "bg-red-400"
  else if (strength =? 2)%nat then "bg-yellow-500"
  else if (strength =? 3)%nat then "bg-yellow-400"
  else "bg-green-500".

Definition getStrengthText (strength : nat) : string :=
  if (strength =? 0)%nat then "Very Weak"
  else if (strength =? 1)%nat then "Weak"
  else if (strength =? 2)%nat then "Fair"
  else if (strength =? 3)%nat then "Good"
  else "Strong".

(** The colour classes of the four segments of the bar. *)
Definition segments (password : string) : list string :=
  let strength := getStrength password in
  map (fun index => if (index <? strength)%nat then getColor strength
                    else "bg-gray-600")
      [0; 1; 2; 3]%nat.

(** The label shown beside the bar. *)
Definition label (password : string) : string :=
  getStrengthText (getStrength password).

End PasswordStrengthMeter.

(** ** store/auth.store.js *)

Module AuthStore.

Record State : Type := mkState {
  user : option JsObject;
  error : option string;
  success : option bool;
  isAuthenticated : bool;
  isLoading : bool;
  isCheckingAuth : bool
}.

(** The state the store is created with. *)
Definition initial : State := mkState None None None false false true.

Inductive Toast : Type :=
| toast_success (text : string)
| toast_error (text : string).

(** [response.data] of a resolved request. *)
Record ResponseData : Type := mkResponseData {
  data_success : bool;
  data_message : string;
  data_user : option JsObject
}.

(** What [await axios...] gives: the response of a 2xx answer, or a thrown
    error with [error?.response?.data?.message], which is absent when the
    server did not answer or answered without a message. *)
Inductive Axios : Type :=
| Resolved (data : ResponseData)
| Rejected (response_message : option string).

(** [message || fallback]. *)
Definition or_else (message : option string) (fallback : string) : string :=
  if truthy message then field_string message else fallback.

Definition Outcome : Type := bool * State * list Toast.

Definition signUp (s : State) (response : Axios) : Outcome :=
  let s := mkState (user s) None (Some false) (isAuthenticated s) true
                   (isCheckingAuth s) in
  match response with
  | Resolved data =>
      let s := mkState (data_user data) None (Some (data_success data)) true false
                       (isCheckingAuth s) in
      (true, s,
       if data_success data
       then [toast_success "Signup successful. Please check your email."]
       else [])
  | Rejected response_message =>
      let message := or_else response_message "An unexpected error occurred." in
      if String.eqb message "Unauthorized. Please login to continue." then
        (false,
         mkState (user s) None (Some false) false false (isCheckingAuth s), [])
      else
        (false,
         mkState (user s) (Some message) (Some false) (isAuthenticated s) false
                 (isCheckingAuth s),
         [toast_error message])
  end.

Definition verifyEmail (s : State) (response : Axios) : Outcome :=
  let s := mkState (user s) None (Some false) (isAuthenticated s) true
                   (isCheckingAuth s) in
  match response with
  | Resolved data =>
      (true,
       mkState (data_user data) None (Some true) true false (isCheckingAuth s),
       [toast_success "Email verified successfully"])
  | Rejected response_message =>
      let message := or_else response_message "Email verification failed." in
      (false,
       mkState (user s) (Some message) (Some false) (isAuthenticated s) false
               (isCheckingAuth s),
       [toast_error message])
  end.

Definition login (s : State) (response : Axios) : Outcome :=
  let s := mkState (user s) None (Some false) (isAuthenticated s) true
                   (isCheckingAuth s) in
  match response with
  | Resolved data =>
      (true,
       mkState (data_user data) None (Some true) true false (isCheckingAuth s),
       [toast_success "Login successful"])
  | Rejected response_message =>
      let message := or_else response_message "Error logging in" in
      (false,
       mkState (user s) (Some message) (Some false) (isAuthenticated s) false
               (isCheckingAuth s),
       [toast_error message])
  end.

Definition logout (s : State) (response : Axios) : Outcome :=
  let s := mkState (user s) None (Some false) (isAuthenticated s) true
                   (isCheckingAuth s) in
  match response with
  | Resolved _ =>
      (true,
       mkState None None (Some true) false false (isCheckingAuth s),
       [toast_success "Logged out successfully"])
  | Rejected response_message =>
      let message := or_else response_message "Error logging out" in
      (false,
       mkState (user s) (Some message) (Some false) (isAuthenticated s) false
               (isCheckingAuth s),
       [toast_error message])
  end.

Definition checkAuth (s : State) (response : Axios) : Outcome :=
  let s := mkState (user s) None (Some false) (isAuthenticated s) (isLoading s)
                   true in
  match response with
  | Resolved data =>
      (true,
       mkState (data_user data) None (Some (data_success data)) true (isLoading s)
               false,
       [])
  | Rejected response_message =>
      let message := or_else response_message "An unexpected error occurred." in
      if String.eqb message "Unauthorized. Please login to continue." then
        (false, mkState (user s) None (Some false) false (isLoading s) false, [])
      else
        (false,
         mkState (user s) (Some message) (Some false) false (isLoading s) false,
         [toast_error message])
  end.

Definition forgotPassword (s : State) (response : Axios) : Outcome :=
  let s := mkState (user s) None (Some false) (isAuthenticated s) true
                   (isCheckingAuth s) in
  match response with
  | Resolved data =>
      (true,
       mkState (user s) None (Some (data_success data)) (isAuthenticated s) false
               (isCheckingAuth s),
       [toast_success "Password reset email sent successfully"])
  | Rejected response_message =>
      let message := or_else response_message "Failed to send reset email" in
      (false,
       mkState (user s) (Some message) (Some false) (isAuthenticated s) false
               (isCheckingAuth s),
       [toast_error message])
  end.

Definition resetPassword (s : State) (response : Axios) : Outcome :=
  let s := mkState (user s) None (Some false) (isAuthenticated s) true
                   (isCheckingAuth s) in
  match response with
  | Resolved data =>
      (true,
       mkState (user s) None (Some (data_success data)) (isAuthenticated s) false
               (isCheckingAuth s),
       [])
  | Rejected response_message =>
      let message := or_else response_message "Failed to reset password" in
      (false,
       mkState (user s) (Some message) (Some false) (isAuthenticated s) false
               (isCheckingAuth s),
       [toast_error message])
  end.

(** The actions of the store. *)
Inductive Action : Type :=
| SignUp | VerifyEmail | Login | Logout | CheckAuth | ForgotPassword
| ResetPassword.

Definition dispatch (a : Action) : State -> Axios -> Outcome :=
  match a with
  | SignUp => signUp
  | VerifyEmail => verifyEmail
  | Login => login
  | Logout => logout
  | CheckAuth => checkAuth
  | ForgotPassword => forgotPassword
  | ResetPassword => resetPassword
  end.

Definition state_of (o : Outcome) : State := snd (fst o).
Definition returned (o : Outcome) : bool := fst (fst o).
Definition toasts_of (o : Outcome) : list Toast := snd o.

End AuthStore.

(** What axios makes of an answer of the server: a status from 200 to 299
    resolves with the body, with [undefined] properties dropped; any other
    status throws with the body as [error.response.data]. *)
Definition axios (reply : Reply) : AuthStore.Axios :=
  if (200 <=? status reply) && (status reply <? 300) then
    AuthStore.Resolved
      (AuthStore.mkResponseData (success (json reply)) (message (json reply))
         match payload (json reply) with
         | UserPayload o => Some (JSON_stringify o)
         | _ => None
         end)
  else AuthStore.Rejected (Some (message (json reply))).

(** ** App.jsx: the route guards *)

Module App.

Inductive Path : Type :=
| Home            (* "/" *)
| SignUpPage      (* "/signup" *)
| LoginPage       (* "/login" *)
| EmailVerificationPage (* "/verify-email" *)
| ForgotPasswordPage    (* "/forgot-password" *)
| ResetPasswordPage (token : string). (* "/reset-password/:token" *)

Inductive Rendered : Type :=
| LoadingSpinner
| Navigate (to : Path)
| Page (page : Path).

(** JavaScript truthiness of a property value. *)
Definition js_truthy (v : JsValue) : bool :=
  match v with
  | JsUndefined => false
  | JsBoolean b => b
  | JsNumber z => negb (z =? 0)
  | JsString s => negb (String.eqb s "")
  | JsObjectId _ => true
  end.

(** [user?.isVerified]. *)
Definition user_isVerified (s : AuthStore.State) : bool :=
  match AuthStore.user s with
  | Some o => js_truthy (js_get "isVerified" o)
  | None => false
  end.

Definition ProtectedRoute (s : AuthStore.State) (children : Path) : Rendered :=
  if AuthStore.isCheckingAuth s then LoadingSpinner
  else if negb (AuthStore.isAuthenticated s) then Navigate LoginPage
  else if negb (user_isVerified s) then Navigate EmailVerificationPage
  else Page children.

Definition RedirectAuthenticatedUser (s : AuthStore.State) (children : Path)
  : Rendered :=
  if AuthStore.isAuthenticated s && user_isVerified s then Navigate Home
  else Page children.

(** What the application shows at a path. *)
Definition App (s : AuthStore.State) (path : Path) : Rendered :=
  if AuthStore.isCheckingAuth s then LoadingSpinner
  else
    match path with
    | Home => ProtectedRoute s Home
    | _ => RedirectAuthenticatedUser s path
    end.

End App.

(** The answer of a run as the client receives it; a handler that throws is
    answered 500 by the framework. *)
Definition answer (r : Completion Reply * World) : Reply :=
  match reply_of r with
  | Normal reply => reply
  | Throw error_message => failure 500 error_message
  end.

(** ** pages/EmailVerificationPage.jsx: the six boxes of the code *)

Module EmailVerificationPage.

(** An entry of the [code] array: a string, or nothing where an assignment
    beyond the end left a hole. *)
Definition Slot : Type := option string.

(** How [join] and the [value] of an input read an entry. *)
Definition text_of (d : Slot) : string :=
  match d with Some s => s | None => "" end.

(** [digit !== ""]. *)
Definition not_empty_string (d : Slot) : bool :=
  match d with Some s => negb (String.eqb s "") | None => true end.

(** [/^\d*$/.test(value)]. *)
Fixpoint all_digits (value : string) : bool :=
  match value with
  | EmptyString => true
  | String c value' => PasswordStrengthMeter.digit c && all_digits value'
  end.

(** [/^\d{6}$/.test(value)]. *)
Definition six_digits (value : string) : bool :=
  (String.length value =? 6)%nat && all_digits value.

(** [value.split("")]. *)
Fixpoint split (value : string) : list string :=
  match value with
  | EmptyString => []
  | String c value' => String c EmptyString :: split value'
  end.

(** [code.join("")]. *)
Fixpoint join (code : list Slot) : string :=
  match code with
  | [] => ""
  | d :: code' => text_of d ++ join code'
  end.

(** [a[i] = x]: within the array the entry is replaced; beyond its end the
    array grows up to [i] and the entries in between are holes. *)
Definition array_set (i : nat) (x : string) (a : list Slot) : list Slot :=
  if (i <? List.length a)%nat
  then firstn i a ++ Some x :: skipn (S i) a
  else a ++ repeat None (i - List.length a) ++ [Some x].

(** [a.findLastIndex(p)], with [None] for -1. *)
Fixpoint findLastIndex (p : Slot -> bool) (a : list Slot) : option nat :=
  match a with
  | [] => None
  | d :: a' =>
      match findLastIndex p a' with
      | Some i => Some (S i)
      | None => if p d then Some 0%nat else None
      end
  end.

Record State : Type := mkState {
  code : list Slot;
  err : option string
}.

Definition initial : State := mkState (repeat (Some "") 6) None.

(** [if (err) setErr(null)]. *)
Definition clear_err (err : option string) : option string :=
  if truthy err then None else err.

(** [handleChange(index, value)]: the next state and the box that is asked
    to take the focus, if any. *)
Definition handleChange (index : nat) (value : string) (s : State)
  : State * option nat :=
  if negb (all_digits value) then (s, None)
  else
    let err := clear_err (err s) in
    let newCode := code s in
    if (1 <? String.length value)%nat then
      let pasted := split (substring 0 6 value) in
      let newCode :=
        fold_left
          (fun newCode i =>
             array_set i
               (match nth_error pasted i with
                | Some d => if String.eqb d "" then "" else d
                | None => ""
                end)
               newCode)
          [0; 1; 2; 3; 4; 5]%nat newCode in
      let focusIndex :=
        match findLastIndex not_empty_string newCode with
        | Some lastFilledIndex =>
            if (lastFilledIndex <? 5)%nat then S lastFilledIndex else 5%nat
        | None => 0%nat
        end in
      (mkState newCode err, Some focusIndex)
    else
      let newCode := array_set index value newCode in
      (mkState newCode err,
       if negb (String.eqb value "") && (index <? 5)%nat then Some (S index)
       else None).

(** [handleKeyDown(index, e)] for the Backspace key: the box asked to take
    the focus, if any. *)
Definition handleKeyDown_Backspace (index : nat) (s : State) : option nat :=
  if negb (truthy (nth index (code s) None)) && (0 <? index)%nat
  then Some (index - 1)%nat
  else None.

(** [handlePaste(e)] for the clipboard text. *)
Definition handlePaste (clipboard : string) (s : State) : State * option nat :=
  let pastedData := substring 0 6 clipboard in
  if negb (six_digits pastedData) then (s, None)
  else (mkState (map Some (split pastedData)) (err s), Some 5%nat).

(** [code.every((digit) => digit)]: every box is filled. *)
Definition complete (s : State) : bool := forallb truthy (code s).

(** The code the page submits. *)
Definition verificationCode (s : State) : string := join (code s).

End EmailVerificationPage.

(** The boxes hold six entries, each empty or one digit. *)
Definition six_boxes (code : list EmailVerificationPage.Slot) : Prop :=
  List.length code = 6%nat /\
  Forall (fun d =>
            d = Some "" \/
            exists c, PasswordStrengthMeter.digit c = true /\
                      d = Some (String c EmptyString))
         code.

(** * Properties *)

(** ** The collection *)

Lemma findOne_Some (q : User.Filter) (users : User.Collection) (u : User.Document) :
  User.findOne q users = Some u -> In u users /\ User.matches q u = true.
Proof. unfold User.findOne. apply find_some. Qed.

Lemma findOne_None (q : User.Filter) (users : User.Collection) :
  User.findOne q users = None <->
  (forall u, In u users -> User.matches q u = false).
Proof.
  unfold User.findOne. split.
  - intros H u Hu. exact (find_none _ _ H u Hu).
  - induction users as [|v users IH]; intros H; simpl; [reflexivity|].
    rewrite (H v (or_introl eq_refl)). apply IH.
    intros u Hu. apply H. now right.
Qed.

Lemma findOne_exists (q : User.Filter) (users : User.Collection) (u : User.Document) :
  In u users -> User.matches q u = true -> exists v, User.findOne q users = Some v.
Proof.
  intros Hin Hm. destruct (User.findOne q users) as [v|] eqn:E.
  - now exists v.
  - rewrite findOne_None in E. rewrite (E u Hin) in Hm. discriminate.
Qed.

Lemma save_ids (u : User.Document) (users : User.Collection) :
  ids (User.save u users) = ids users.
Proof.
  unfold ids.
  induction users as [|v users IH]; simpl; [reflexivity|].
  destruct (N.eqb_spec (User._id v) (User._id u)) as [E|E]; simpl.
  - now rewrite E.
  - now rewrite IH.
Qed.

Lemma save_In (u : User.Document) (users : User.Collection) (w : User.Document) :
  In w (User.save u users) -> w = u \/ In w users.
Proof.
  induction users as [|v users IH]; simpl; [tauto|].
  destruct (N.eqb (User._id v) (User._id u)); simpl; intros [H|H]; auto.
  destruct (IH H); auto.
Qed.

Lemma save_In_other (u : User.Document) (users : User.Collection) (w : User.Document) :
  In w users -> User._id w <> User._id u -> In w (User.save u users).
Proof.
  induction users as [|v users IH]; simpl; [tauto|].
  intros [H|H] Hne.
  - subst v. destruct (N.eqb_spec (User._id w) (User._id u)); [contradiction|].
    now left.
  - destruct (N.eqb (User._id v) (User._id u)); simpl; auto.
Qed.

Lemma save_In_self (u : User.Document) (users : User.Collection) :
  In (User._id u) (ids users) -> In u (User.save u users).
Proof.
  induction users as [|v users IH]; simpl; [tauto|].
  destruct (N.eqb_spec (User._id v) (User._id u)) as [E|E]; simpl; [auto|].
  intros [H|H]; [contradiction|auto].
Qed.

Lemma In_ids (u : User.Document) (users : User.Collection) :
  In u users -> In (User._id u) (ids users).
Proof. apply in_map. Qed.

(** With unique identifiers, the documents of a saved collection that carry
    the saved identifier are the saved document. *)
Lemma save_In_same_id (u : User.Document) (users : User.Collection) (w : User.Document) :
  NoDup (ids users) -> In w (User.save u users) -> User._id w = User._id u -> w = u.
Proof.
  induction users as [|v users IH]; simpl; [tauto|].
  intros Hnd. inversion Hnd as [|? ? Hv Hnd']; subst.
  destruct (N.eqb_spec (User._id v) (User._id u)) as [E|E]; simpl.
  - intros [H|H] Hid; [now subst|].
    exfalso. apply Hv. rewrite E, <- Hid. now apply In_ids.
  - intros [H|H] Hid; [subst; contradiction|auto].
Qed.

Lemma findById_save (u : User.Document) (users : User.Collection) :
  In (User._id u) (ids users) ->
  User.findById (User._id u) (User.save u users) = Some u.
Proof.
  unfold User.findById.
  induction users as [|v users IH]; simpl; [tauto|].
  destruct (N.eqb_spec (User._id v) (User._id u)) as [E|E]; simpl.
  - now rewrite N.eqb_refl.
  - intros [H|H]; [contradiction|].
    destruct (N.eqb_spec (User._id v) (User._id u)); [contradiction|auto].
Qed.

Lemma create_accepts (u : User.Document) (users : User.Collection) :
  ~ In (User._id u) (ids users) ->
  User.findOne [User.EmailIs (Some (User.email u))] users = None ->
  User.create u users = Some (users ++ [u]).
Proof.
  intros Hid Hemail. unfold User.create.
  replace (existsb _ users) with false; [reflexivity|].
  symmetry. rewrite findOne_None in Hemail.
  induction users as [|v users IH]; simpl; [reflexivity|].
  rewrite IH.
  - assert (Hv := Hemail v (or_introl eq_refl)). simpl in Hv.
    rewrite andb_true_r in Hv. rewrite Hv, orb_false_r, orb_false_r.
    apply N.eqb_neq. intros E. apply Hid. simpl. now left.
  - intros H. apply Hid. simpl. now right.
  - intros w Hw. apply Hemail. now right.
Qed.

Lemma create_Some (u : User.Document) (users users' : User.Collection) :
  User.create u users = Some users' ->
  users' = users ++ [u] /\ ~ In (User._id u) (ids users).
Proof.
  unfold User.create. destruct (existsb _ users) eqn:E; [discriminate|].
  intros [= <-]. split; [reflexivity|].
  intros Hin. unfold ids in Hin. apply in_map_iff in Hin as [v [Hv Hin]].
  assert (H : existsb
                (fun v => N.eqb (User._id v) (User._id u)
                          || String.eqb (User.email v) (User.email u)) users = true).
  { apply existsb_exists. exists v. split; [assumption|].
    rewrite Hv, N.eqb_refl. reflexivity. }
  congruence.
Qed.

(** ** Running the controllers *)

Arguments User.create : simpl never.
Arguments User.save : simpl never.
Arguments User.findOne : simpl never.
Arguments User.findById : simpl never.
Arguments User.find : simpl never.
Arguments User.deleteMany : simpl never.

Ltac exec :=
  unfold run, reply_of, users_after, cookies_of, console_of, mails_of, fresh;
  repeat (unfold bind, try_catch, ret, throw, query, update, console_log,
            console_error, res_cookie, mailtrapClient_send, User_create,
            failure; simpl).

Ltac unfold_controllers :=
  unfold verifyToken, checkAuth, signupLimiter, loginLimiter,
    forgotPasswordLimiter, rateLimit, signup, login, logout, verifyEmail,
    forgotPassword, resetPassword, getAllUsers, sweep,
    generateTokenAndSetCookie, sendVerificationEmail, sendWelcomeEmail,
    sendPasswordResetEmail, sendPasswordResetSuccessEmail.

Ltac split_branches :=
  repeat match goal with
    | |- context [match ?x with _ => _ end] =>
        lazymatch x with
        | context [match _ with _ => _ end] => fail
        | _ => destruct x eqn:?; simpl
        end
    end.

Lemma truthy_Some (field : option string) :
  truthy field = true -> exists s, field = Some s /\ s <> "".
Proof.
  destruct field as [s|]; simpl; [|discriminate].
  intros H. exists s. split; [reflexivity|].
  intros ->. discriminate.
Qed.

(** ** Sanitized user objects (C1) *)

Lemma sanitized_omits_password (u : User.Document) :
  has_own_property "password"
    (JSON_stringify (js_set "password" JsUndefined (User._doc u))) = false.
Proof.
  unfold User._doc, JSON_stringify. simpl.
  destruct (User.resetPasswordToken u), (User.resetPasswordExpiresAt u),
    (User.verificationToken u), (User.verificationTokenExpiresAt u);
    reflexivity.
Qed.

Lemma raw_document_has_password (u : User.Document) :
  js_get "password" (JSON_stringify (User._doc u)) = JsString (User.password u) /\
  has_own_property "password" (JSON_stringify (User._doc u)) = true.
Proof. split; reflexivity. Qed.

Section Sanitizing.

Variable bcrypt_hash : string -> string -> string.
Variable bcrypt_compare : string -> string -> bool.
Variable jwt_sign : ObjectId -> Z -> string.
Variable jwt_verify : string -> Z -> JwtVerdict.


End Sanitizing.

(** [getAllUsers] answers 200 with every stored document as it is, so each
    user object on the wire carries the stored hash. *)
Lemma getAllUsers_exposes_every_hash (users : User.Collection) (u : User.Document) :
  In u users ->
  exists reply o,
    reply_of (run getAllUsers users) = Normal reply /\
    status reply = 200 /\
    In o (users_on_the_wire reply) /\
    js_get "password" o = JsString (User.password u).
Proof.
  intros Hin. unfold getAllUsers. exec.
  eexists. exists (JSON_stringify (User._doc u)).
  split; [reflexivity|]. split; [reflexivity|]. split.
  - unfold users_on_the_wire. simpl. unfold User.find. simpl.
    rewrite map_map. apply in_map_iff. exists u. split; [reflexivity|].
    apply filter_In. now split.
  - reflexivity.
Qed.

(** C1 (code defect). The claim asks that no user object of any response,
    the enumeration endpoint [GET /] included, carries the password hash.
    Run outside production on a collection holding one account,
    [getAllUsers] answers 200 and the single user object of the body has a
    [password] property whose value is the stored hash, while [checkAuth]
    for the same account sends the object without that property. *)
Theorem getAllUsers_sends_password_hash :
  router Sample.bcrypt_hash Sample.bcrypt_compare Sample.jwt_sign Sample.jwt_verify
         (Sample.env_at Sample.t0 0%N 9%N true) GET_root = Some getAllUsers /\
  exists reply o,
    reply_of (run getAllUsers [Sample.alice]) = Normal reply /\
    status reply = 200 /\
    users_on_the_wire reply = [o] /\
    has_own_property "password" o = true /\
    js_get "password" o = JsString (User.password Sample.alice) /\
    exists reply' o',
      reply_of (run (checkAuth 1%N) [Sample.alice]) = Normal reply' /\
      users_on_the_wire reply' = [o'] /\
      has_own_property "password" o' = false.
Proof.
  split; [reflexivity|].
  eexists. eexists. repeat split.
  eexists. eexists. repeat split.
Qed.

Arguments truthy : simpl never.

(** ** The session middleware (C2) *)

Section SessionMiddleware.

Variable jwt_verify : string -> Z -> JwtVerdict.

(** C2 (amended). A request without a token, one with a malformed token and
    one with an expired token are all rejected with status 401 and leave the
    collection as it was. The malformed and the expired token get the same
    message, "Invalid or expired token. Please login again."; the absent
    token gets another one, "Unauthorized. Please login to continue.". *)
Theorem verifyToken_rejections
  (env : Env) (absent malformed expired : option string) (reason : string)
  (next : ObjectId -> Async Reply) (users : User.Collection) :
  truthy absent = false ->
  truthy malformed = true ->
  jwt_verify (field_string malformed) (Date_now env) = JsonWebTokenError reason ->
  truthy expired = true ->
  jwt_verify (field_string expired) (Date_now env) = TokenExpiredError ->
  let on cookie := run (verifyToken jwt_verify env cookie next) users in
  reply_of (on absent)
    = Normal (failure 401 "Unauthorized. Please login to continue.") /\
  reply_of (on malformed)
    = Normal (failure 401 "Invalid or expired token. Please login again.") /\
  reply_of (on expired)
    = Normal (failure 401 "Invalid or expired token. Please login again.") /\
  users_after (on absent) = users /\
  users_after (on malformed) = users /\
  users_after (on expired) = users.
Proof.
  intros Ha Hm Hmv He Hev on. subst on. cbv beta.
  unfold verifyToken, run.
  rewrite Ha, Hm, He, Hmv, Hev. exec. repeat split.
Qed.

End SessionMiddleware.

Lemma verifyToken_rejections_witness :
  let env := Sample.env_at Sample.t0 0%N 9%N true in
  let on cookie := run (verifyToken Sample.jwt_verify env cookie checkAuth) Sample.users in
  reply_of (on None)
    = Normal (failure 401 "Unauthorized. Please login to continue.") /\
  reply_of (on (Some "not-a-jwt"))
    = Normal (failure 401 "Invalid or expired token. Please login again.") /\
  reply_of (on (Some (Sample.jwt_sign 1%N (Sample.t0 - 8 * 24 * Sample.one_hour))))
    = Normal (failure 401 "Invalid or expired token. Please login again.") /\
  users_after (on None) = Sample.users /\
  users_after (on (Some "not-a-jwt")) = Sample.users /\
  users_after (on (Some (Sample.jwt_sign 1%N (Sample.t0 - 8 * 24 * Sample.one_hour))))
    = Sample.users.
Proof.
  exact (verifyToken_rejections Sample.jwt_verify
           (Sample.env_at Sample.t0 0%N 9%N true) None (Some "not-a-jwt")
           (Some (Sample.jwt_sign 1%N (Sample.t0 - 8 * 24 * Sample.one_hour)))
           "jwt malformed" checkAuth Sample.users
           eq_refl eq_refl eq_refl eq_refl eq_refl).
Defined.

(** C2 (counterexample). With no cookie the middleware answers
    "Unauthorized. Please login to continue."; with a malformed token it
    answers "Invalid or expired token. Please login again.": the two
    rejections are told apart by their message. *)
Lemma absent_token_has_its_own_message :
  let env := Sample.env_at Sample.t0 0%N 9%N true in
  let absent :=
    reply_of (run (verifyToken Sample.jwt_verify env None checkAuth) Sample.users) in
  let malformed :=
    reply_of (run (verifyToken Sample.jwt_verify env (Some "not-a-jwt") checkAuth)
                  Sample.users) in
  absent = Normal (failure 401 "Unauthorized. Please login to continue.") /\
  malformed = Normal (failure 401 "Invalid or expired token. Please login again.") /\
  absent <> malformed.
Proof.
  split; [reflexivity|]. split; [reflexivity|]. discriminate.
Qed.

(** ** Signup (C3, C7) *)

Section Signup.

Variable bcrypt_hash : string -> string -> string.
Variable jwt_sign : ObjectId -> Z -> string.

(** A valid signup for a free email creates the record and sets the cookie
    before the mail is sent; the answer depends on the transport. *)
Lemma signup_creates (env : Env) (email password name : option string)
  (users : User.Collection) :
  valid_signup email password name ->
  User.findOne [User.EmailIs email] users = None ->
  ~ In (new_ObjectId env) (ids users) ->
  let r := run (signup bcrypt_hash jwt_sign env email password name) users in
  let user := signup_document bcrypt_hash env (field_string email)
                (field_string password) (field_string name) in
  users_after r = users ++ [user] /\
  cookies_of r = [session_cookie jwt_sign env (new_ObjectId env)] /\
  reply_of r =
    if mailtrap_up env
    then Normal (mkReply 201
                   (mkJson true
                      "User created successfully. Please check your email to verify your account."
                      (UserPayload (js_set "password" JsUndefined (User._doc user)))))
    else Normal (failure 500
                   "Server error during signup: Failed to send verification email").
Proof.
  intros (He & Hp & Hn & Hlen) Hfree Hid r user. subst r.
  unfold signup, run, generateTokenAndSetCookie, sendVerificationEmail.
  rewrite He, Hp, Hn. apply Nat.ltb_ge in Hlen. simpl negb. simpl orb. cbv iota.
  rewrite Hlen.
  destruct (truthy_Some _ He) as [e [-> _]].
  exec. rewrite Hfree. exec.
  erewrite create_accepts; [| exact Hid | exact Hfree].
  exec. destruct (mailtrap_up env); exec; repeat split.
Qed.

(** C3 (amended). A valid signup for a free email creates the record and sets
    the session cookie, then awaits the verification mail; when the dispatch
    fails, the failure is logged by [sendVerificationEmail] and thrown again,
    and the controller logs it and answers 500 with the message "Server error
    during signup: Failed to send verification email". The record stays
    created, the cookie stays set and no mail has left. *)
Theorem signup_mail_failure_answers_500
  (env : Env) (email password name : option string) (users : User.Collection) :
  valid_signup email password name ->
  User.findOne [User.EmailIs email] users = None ->
  ~ In (new_ObjectId env) (ids users) ->
  mailtrap_up env = false ->
  let r := run (signup bcrypt_hash jwt_sign env email password name) users in
  reply_of r =
    Normal (failure 500
              "Server error during signup: Failed to send verification email") /\
  users_after r =
    users ++ [signup_document bcrypt_hash env (field_string email)
                (field_string password) (field_string name)] /\
  cookies_of r = [session_cookie jwt_sign env (new_ObjectId env)] /\
  mails_of r = [] /\
  console_of r =
    [console_log_line "Signup request received";
     console_log_line "Password hashed";
     console_log_line "Verification token generated";
     console_log_line "User created";
     console_log_line "JWT cookie set";
     console_error_line
       "Error sending verification email: mailtrap: request failed";
     console_error_line "Signup error: Failed to send verification email"].
Proof.
  intros (He & Hp & Hn & Hlen) Hfree Hid Hmail r. subst r.
  unfold signup, run, generateTokenAndSetCookie, sendVerificationEmail.
  rewrite He, Hp, Hn. apply Nat.ltb_ge in Hlen. simpl negb. simpl orb. cbv iota.
  rewrite Hlen.
  destruct (truthy_Some _ He) as [e [-> _]].
  exec. rewrite Hfree. exec.
  erewrite create_accepts; [| exact Hid | exact Hfree].
  exec. rewrite Hmail. exec. repeat split.
Qed.

End Signup.

Lemma signup_mail_failure_answers_500_witness :
  let env := Sample.env_at Sample.t0 382913%N 4%N false in
  let r := run (signup Sample.bcrypt_hash Sample.jwt_sign env
                  (Some "dave@x.com") (Some "Passw0rd!") (Some "Dave"))
               Sample.users in
  reply_of r =
    Normal (failure 500
              "Server error during signup: Failed to send verification email") /\
  users_after r =
    Sample.users ++
      [signup_document Sample.bcrypt_hash env "dave@x.com" "Passw0rd!" "Dave"] /\
  cookies_of r = [session_cookie Sample.jwt_sign env 4%N] /\
  mails_of r = [] /\
  console_of r =
    [console_log_line "Signup request received";
     console_log_line "Password hashed";
     console_log_line "Verification token generated";
     console_log_line "User created";
     console_log_line "JWT cookie set";
     console_error_line
       "Error sending verification email: mailtrap: request failed";
     console_error_line "Signup error: Failed to send verification email"].
Proof.
  apply (signup_mail_failure_answers_500 Sample.bcrypt_hash Sample.jwt_sign
           (Sample.env_at Sample.t0 382913%N 4%N false)
           (Some "dave@x.com") (Some "Passw0rd!") (Some "Dave") Sample.users).
  - repeat split. simpl. lia.
  - reflexivity.
  - simpl. intros [H|[H|[H|[]]]]; discriminate.
  - reflexivity.
Defined.

(** C3 (counterexample). The transport is down while a new account signs up
    on an empty collection: the answer is 500 with [success] false, not 201,
    although the record has been created and the cookie set. *)
Lemma signup_mail_failure_is_not_201 :
  let env := Sample.env_at Sample.t0 382913%N 4%N false in
  let r := run (signup Sample.bcrypt_hash Sample.jwt_sign env
                  (Some "dave@x.com") (Some "Passw0rd!") (Some "Dave")) [] in
  reply_of r =
    Normal (mkReply 500
              (mkJson false
                 "Server error during signup: Failed to send verification email"
                 NoPayload)) /\
  users_after r =
    [User.mkDocument 4%N "dave@x.com" "$2b$12$N9qo8uLOickgx2ZMRZoMye.Passw0rd!"
       "Dave" Sample.t0 false None None (Some "482913")
       (Some (Sample.t0 + 24 * Sample.one_hour)) Sample.t0] /\
  cookies_of r <> [].
Proof.
  split; [reflexivity|]. split; [reflexivity|]. discriminate.
Qed.

(** ** Login (C4, C9) *)

Section Login.

Variable bcrypt_compare : string -> string -> bool.
Variable jwt_sign : ObjectId -> Z -> string.

Lemma login_unknown_email (env : Env) (email password : option string)
  (users : User.Collection) :
  submitted email password ->
  User.findOne [User.EmailIs email] users = None ->
  run (login bcrypt_compare jwt_sign env email password) users =
    (Normal (failure 401 "Invalid email or password."), fresh users).
Proof.
  intros [He Hp] Hnone. unfold login, run. rewrite He, Hp. exec.
  rewrite Hnone. reflexivity.
Qed.

Lemma login_wrong_password (env : Env) (email password : option string)
  (users : User.Collection) (user : User.Document) :
  submitted email password ->
  User.findOne [User.EmailIs email] users = Some user ->
  User.isVerified user = true ->
  bcrypt_compare (field_string password) (User.password user) = false ->
  run (login bcrypt_compare jwt_sign env email password) users =
    (Normal (failure 401 "Invalid email or password."), fresh users).
Proof.
  intros [He Hp] Hsome Hv Hc. unfold login, run. rewrite He, Hp. exec.
  rewrite Hsome. exec. rewrite Hv. exec. rewrite Hc. reflexivity.
Qed.

Lemma login_unverified (env : Env) (email password : option string)
  (users : User.Collection) (user : User.Document) :
  submitted email password ->
  User.findOne [User.EmailIs email] users = Some user ->
  User.isVerified user = false ->
  run (login bcrypt_compare jwt_sign env email password) users =
    (Normal (failure 403 "Please verify your email before logging in."),
     fresh users).
Proof.
  intros [He Hp] Hsome Hv. unfold login, run. rewrite He, Hp. exec.
  rewrite Hsome. exec. rewrite Hv. reflexivity.
Qed.

(** C4 (amended). With both fields submitted, a login for an email that
    belongs to no registered user and a login with a wrong password for a
    registered and verified user are the same run: status 401, the message
    "Invalid email or password.", no cookie, nothing logged, nothing
    written. *)
Theorem login_failures_identical
  (env env' : Env) (email password email' password' : option string)
  (users : User.Collection) (user : User.Document) :
  submitted email password ->
  User.findOne [User.EmailIs email] users = None ->
  submitted email' password' ->
  User.findOne [User.EmailIs email'] users = Some user ->
  User.isVerified user = true ->
  bcrypt_compare (field_string password') (User.password user) = false ->
  let unknown := run (login bcrypt_compare jwt_sign env email password) users in
  let wrong := run (login bcrypt_compare jwt_sign env' email' password') users in
  unknown = wrong /\
  reply_of unknown = Normal (failure 401 "Invalid email or password.") /\
  cookies_of unknown = [] /\
  users_after unknown = users.
Proof.
  intros Hs Hnone Hs' Hsome Hv Hc unknown wrong. subst unknown wrong.
  rewrite (login_unknown_email env _ _ _ Hs Hnone).
  rewrite (login_wrong_password env' _ _ _ _ Hs' Hsome Hv Hc).
  repeat split.
Qed.

End Login.

Section LoginUnverified.

Variable jwt_sign : ObjectId -> Z -> string.

(** C9. For a registered but unverified user every login that submits both
    fields is answered 403 "Please verify your email before logging in.",
    whatever the submitted password and whatever [bcrypt.compare] would say
    about it: the run is the same for any two passwords and any two
    comparison functions, so the comparison has no part in it. The answer
    differs from the 401 given for an email that is not registered. *)
Theorem login_unverified_ignores_password
  (compare compare' : string -> string -> bool)
  (env : Env) (email password password' unknown : option string)
  (users : User.Collection) (user : User.Document) :
  submitted email password ->
  submitted email password' ->
  User.findOne [User.EmailIs email] users = Some user ->
  User.isVerified user = false ->
  submitted unknown password ->
  User.findOne [User.EmailIs unknown] users = None ->
  let r := run (login compare jwt_sign env email password) users in
  reply_of r = Normal (failure 403 "Please verify your email before logging in.") /\
  r = run (login compare' jwt_sign env email password') users /\
  users_after r = users /\
  cookies_of r = [] /\
  reply_of (run (login compare jwt_sign env unknown password) users)
    = Normal (failure 401 "Invalid email or password.") /\
  reply_of r <> reply_of (run (login compare jwt_sign env unknown password) users).
Proof.
  intros Hs Hs' Hsome Hv Hu Hnone r. subst r.
  rewrite (login_unverified compare jwt_sign env _ _ _ _ Hs Hsome Hv).
  rewrite (login_unverified compare' jwt_sign env _ _ _ _ Hs' Hsome Hv).
  rewrite (login_unknown_email compare jwt_sign env _ _ _ Hu Hnone).
  repeat split. discriminate.
Qed.

End LoginUnverified.

Lemma login_failures_identical_witness :
  let env := Sample.env_at Sample.t0 0%N 9%N true in
  let unknown :=
    run (login Sample.bcrypt_compare Sample.jwt_sign env
           (Some "mallory@x.com") (Some "Passw0rd!")) Sample.users in
  let wrong :=
    run (login Sample.bcrypt_compare Sample.jwt_sign env
           (Some "alice@x.com") (Some "Passw0rd?")) Sample.users in
  unknown = wrong /\
  reply_of unknown = Normal (failure 401 "Invalid email or password.") /\
  cookies_of unknown = [] /\
  users_after unknown = Sample.users.
Proof.
  apply (login_failures_identical Sample.bcrypt_compare Sample.jwt_sign
           (Sample.env_at Sample.t0 0%N 9%N true)
           (Sample.env_at Sample.t0 0%N 9%N true)
           (Some "mallory@x.com") (Some "Passw0rd!")
           (Some "alice@x.com") (Some "Passw0rd?")
           Sample.users Sample.alice).
  - split; reflexivity.
  - reflexivity.
  - split; reflexivity.
  - reflexivity.
  - reflexivity.
  - reflexivity.
Defined.

(** C4 (counterexample). Bob is registered but has not verified his email.
    A login with an unregistered email is answered 401 "Invalid email or
    password."; a login with a wrong password for Bob is answered 403
    "Please verify your email before logging in.". *)
Lemma login_wrong_password_unverified_is_403 :
  let env := Sample.env_at Sample.t0 0%N 9%N true in
  let unknown :=
    reply_of (run (login Sample.bcrypt_compare Sample.jwt_sign env
                     (Some "mallory@x.com") (Some "not-the-password"))
                  Sample.users) in
  let wrong :=
    reply_of (run (login Sample.bcrypt_compare Sample.jwt_sign env
                     (Some "bob@x.com") (Some "not-the-password"))
                  Sample.users) in
  User.findOne [User.EmailIs (Some "bob@x.com")] Sample.users = Some Sample.bob /\
  Sample.bcrypt_compare "not-the-password" (User.password Sample.bob) = false /\
  unknown = Normal (failure 401 "Invalid email or password.") /\
  wrong = Normal (failure 403 "Please verify your email before logging in.") /\
  unknown <> wrong.
Proof.
  repeat (split; [vm_compute; reflexivity|]). vm_compute. discriminate.
Qed.

Lemma login_unverified_ignores_password_witness :
  let env := Sample.env_at Sample.t0 0%N 9%N true in
  let r := run (login Sample.bcrypt_compare Sample.jwt_sign env
                  (Some "bob@x.com") (Some "hunter2hunter2")) Sample.users in
  reply_of r = Normal (failure 403 "Please verify your email before logging in.") /\
  r = run (login (fun _ _ => true) Sample.jwt_sign env
             (Some "bob@x.com") (Some "not-the-password")) Sample.users /\
  users_after r = Sample.users /\
  cookies_of r = [] /\
  reply_of (run (login Sample.bcrypt_compare Sample.jwt_sign env
                   (Some "mallory@x.com") (Some "hunter2hunter2")) Sample.users)
    = Normal (failure 401 "Invalid email or password.") /\
  reply_of r <>
  reply_of (run (login Sample.bcrypt_compare Sample.jwt_sign env
                   (Some "mallory@x.com") (Some "hunter2hunter2")) Sample.users).
Proof.
  apply (login_unverified_ignores_password Sample.jwt_sign
           Sample.bcrypt_compare (fun _ _ => true)
           (Sample.env_at Sample.t0 0%N 9%N true)
           (Some "bob@x.com") (Some "hunter2hunter2") (Some "not-the-password")
           (Some "mallory@x.com") Sample.users Sample.bob).
  - split; reflexivity.
  - split; reflexivity.
  - reflexivity.
  - reflexivity.
  - split; reflexivity.
  - reflexivity.
Defined.

(** ** Reset password (C6, C10) *)

Lemma option_string_eqb_eq (a b : option string) :
  User.option_string_eqb a b = true <-> a = b.
Proof.
  destruct a as [x|], b as [y|]; simpl; split; try congruence.
  - intros H. apply String.eqb_eq in H. now subst.
  - intros [= ->]. apply String.eqb_refl.
Qed.

Lemma same_id_same_document (users : User.Collection) (u v : User.Document) :
  NoDup (ids users) -> In u users -> In v users -> User._id u = User._id v -> u = v.
Proof.
  induction users as [|w users IH]; simpl; [tauto|].
  intros Hnd. inversion Hnd as [|? ? Hw Hnd']; subst.
  intros [Hu|Hu] [Hv|Hv] E; subst; auto.
  - exfalso. apply Hw. rewrite E. now apply In_ids.
  - exfalso. apply Hw. rewrite <- E. now apply In_ids.
Qed.

Section ResetPassword.

Variable bcrypt_hash : string -> string -> string.

Lemma resetPassword_no_match (env : Env) (token : string) (password : option string)
  (users : User.Collection) :
  valid_password password ->
  User.findOne [User.ResetPasswordTokenIs (Some token);
                User.ResetPasswordExpiresAt_gt (Date_now env)] users = None ->
  run (resetPassword bcrypt_hash env token password) users =
    (Normal (failure 400 "Invalid or expired reset token."), fresh users).
Proof.
  intros [Hp Hlen] Hnone. apply Nat.ltb_ge in Hlen.
  unfold resetPassword, run. rewrite Hp, Hlen. exec. rewrite Hnone. reflexivity.
Qed.

Lemma resetPassword_match (env : Env) (token : string) (password : option string)
  (users : User.Collection) (user : User.Document) :
  valid_password password ->
  User.findOne [User.ResetPasswordTokenIs (Some token);
                User.ResetPasswordExpiresAt_gt (Date_now env)] users = Some user ->
  let r := run (resetPassword bcrypt_hash env token password) users in
  users_after r =
    User.save (reset_document
                 (bcrypt_hash (field_string password) (bcrypt_salt env)) user)
              users /\
  cookies_of r = [] /\
  reply_of r =
    if mailtrap_up env
    then Normal (mkReply 200 (mkJson true "Password reset successfully." NoPayload))
    else Normal (failure 500 "Server error during password reset.").
Proof.
  intros [Hp Hlen] Hsome. apply Nat.ltb_ge in Hlen.
  unfold resetPassword, run, sendPasswordResetSuccessEmail.
  rewrite Hp, Hlen. exec. rewrite Hsome. exec.
  destruct (mailtrap_up env); exec; repeat split.
Qed.

(** No record holds [token] with an expiry later than [now]. *)
Lemma stale_reset_token_not_found (now : Z) (token : string) (users : User.Collection) :
  (forall u, In u users -> User.resetPasswordToken u = Some token ->
             forall e, User.resetPasswordExpiresAt u = Some e -> e <= now) ->
  User.findOne [User.ResetPasswordTokenIs (Some token);
                User.ResetPasswordExpiresAt_gt now] users = None.
Proof.
  intros H. apply findOne_None. intros u Hu. simpl.
  destruct (User.option_string_eqb (User.resetPasswordToken u) (Some token)) eqn:E;
    [|reflexivity].
  apply option_string_eqb_eq in E. simpl.
  destruct (User.resetPasswordExpiresAt u) as [e|] eqn:Ee; [|reflexivity].
  rewrite andb_true_r. apply Z.ltb_ge. exact (H u Hu E e Ee).
Qed.

(** C6 (amended). A reset-password request whose token is held by no record
    with an expiry later than now is answered with status 400 and leaves the
    collection, hence every stored password hash, as it was. When the
    submitted password has at least 8 characters the message is "Invalid or
    expired reset token."; a missing or shorter password is refused by the
    validation steps before the token is looked up. *)
Theorem resetPassword_stale_token
  (env : Env) (token : string) (password : option string)
  (users : User.Collection) :
  (forall u, In u users -> User.resetPasswordToken u = Some token ->
             forall e, User.resetPasswordExpiresAt u = Some e -> e <= Date_now env) ->
  let r := run (resetPassword bcrypt_hash env token password) users in
  users_after r = users /\
  (exists reply, reply_of r = Normal reply /\ status reply = 400 /\
                 success (json reply) = false) /\
  (valid_password password ->
   reply_of r = Normal (failure 400 "Invalid or expired reset token.")) /\
  (valid_password password \/
   reply_of r = Normal (failure 400 "Password is required") \/
   reply_of r = Normal (failure 400 "Password must be at least 8 characters long")).
Proof.
  intros Hstale r. subst r.
  apply stale_reset_token_not_found in Hstale.
  destruct (truthy password) eqn:Hp.
  - destruct (String.length (field_string password) <? 8)%nat eqn:Hlen.
    + unfold resetPassword, run. rewrite Hp, Hlen. exec.
      repeat split; eauto.
      intros [_ H]. apply Nat.ltb_lt in Hlen. lia.
    + assert (Hv : valid_password password)
        by (split; [assumption | now apply Nat.ltb_ge]).
      rewrite (resetPassword_no_match env token _ _ Hv Hstale).
      exec. repeat split; eauto.
  - unfold resetPassword, run. rewrite Hp. exec.
    repeat split; eauto.
    intros [H _]. congruence.
Qed.

(** C10. The password is valid, the token is found and the confirmation mail
    cannot be sent: the controller answers 500 "Server error during password
    reset.", and the collection holds the user's record with the hash of the
    new password and both reset fields cleared, so the collection is not the
    one the request started from. *)
Theorem resetPassword_mail_failure_keeps_the_change
  (env : Env) (token : string) (password : option string)
  (users : User.Collection) (user : User.Document) :
  valid_password password ->
  User.findOne [User.ResetPasswordTokenIs (Some token);
                User.ResetPasswordExpiresAt_gt (Date_now env)] users = Some user ->
  mailtrap_up env = false ->
  NoDup (ids users) ->
  let r := run (resetPassword bcrypt_hash env token password) users in
  let hashedPassword := bcrypt_hash (field_string password) (bcrypt_salt env) in
  reply_of r = Normal (failure 500 "Server error during password reset.") /\
  users_after r = User.save (reset_document hashedPassword user) users /\
  (exists user',
     User.findById (User._id user) (users_after r) = Some user' /\
     User.password user' = hashedPassword /\
     User.resetPasswordToken user' = None /\
     User.resetPasswordExpiresAt user' = None) /\
  User.findById (User._id user) users <> User.findById (User._id user) (users_after r) /\
  users_after r <> users.
Proof.
  intros Hv Hsome Hmail Hnd r hashedPassword.
  destruct (resetPassword_match env token _ _ _ Hv Hsome) as (Hdb & _ & Hreply).
  fold r in Hdb, Hreply. rewrite Hmail in Hreply.
  fold hashedPassword in Hdb.
  destruct (findOne_Some _ _ _ Hsome) as [Hin Hm].
  assert (Hfind : User.findById (User._id user) (users_after r)
                  = Some (reset_document hashedPassword user)).
  { rewrite Hdb.
    apply (findById_save (reset_document hashedPassword user) users).
    simpl. now apply In_ids. }
  assert (Hdiff : User.findById (User._id user) users
                  <> User.findById (User._id user) (users_after r)).
  { rewrite Hfind. intros E.
    unfold User.findById in E. apply find_some in E as [Hin' _].
    assert (Heq := same_id_same_document users _ _ Hnd Hin' Hin eq_refl).
    simpl in Hm. rewrite <- Heq in Hm. simpl in Hm. discriminate. }
  split; [exact Hreply|]. split; [exact Hdb|]. split.
  - exists (reset_document hashedPassword user). repeat split. exact Hfind.
  - split; [exact Hdiff|]. intros E. apply Hdiff. now rewrite E.
Qed.

End ResetPassword.

Lemma resetPassword_stale_token_witness :
  let env := Sample.env_at Sample.t0 0%N 9%N true in
  let r := run (resetPassword Sample.bcrypt_hash env
                  "9f86d081884c7d659a2feaa0c55ad015a3bf4f1b" (Some "new-Passw0rd"))
               Sample.users in
  users_after r = Sample.users /\
  (exists reply, reply_of r = Normal reply /\ status reply = 400 /\
                 success (json reply) = false) /\
  (valid_password (Some "new-Passw0rd") ->
   reply_of r = Normal (failure 400 "Invalid or expired reset token.")) /\
  (valid_password (Some "new-Passw0rd") \/
   reply_of r = Normal (failure 400 "Password is required") \/
   reply_of r = Normal (failure 400 "Password must be at least 8 characters long")).
Proof.
  apply (resetPassword_stale_token Sample.bcrypt_hash
           (Sample.env_at Sample.t0 0%N 9%N true)
           "9f86d081884c7d659a2feaa0c55ad015a3bf4f1b" (Some "new-Passw0rd")
           Sample.users).
  intros u [<-|[<-|[<-|[]]]]; simpl; try discriminate.
  intros _ e [= <-]. vm_compute. discriminate.
Defined.

(** C6 (counterexample). Carol's reset token expired an hour ago and the
    request carries a 5-character password: the answer is 400 "Password must
    be at least 8 characters long", not "Invalid or expired reset token.". *)
Lemma resetPassword_stale_token_short_password :
  let env := Sample.env_at Sample.t0 0%N 9%N true in
  let r := run (resetPassword Sample.bcrypt_hash env
                  "9f86d081884c7d659a2feaa0c55ad015a3bf4f1b" (Some "short"))
               Sample.users in
  User.resetPasswordToken Sample.carol
    = Some "9f86d081884c7d659a2feaa0c55ad015a3bf4f1b" /\
  User.resetPasswordExpiresAt Sample.carol = Some (Date_now env - Sample.one_hour) /\
  reply_of r = Normal (failure 400 "Password must be at least 8 characters long") /\
  reply_of r <> Normal (failure 400 "Invalid or expired reset token.").
Proof.
  repeat (split; [vm_compute; reflexivity|]). vm_compute. discriminate.
Qed.

Lemma resetPassword_mail_failure_keeps_the_change_witness :
  let env := Sample.env_at (Sample.t0 - 2 * Sample.one_hour) 0%N 9%N false in
  let r := run (resetPassword Sample.bcrypt_hash env
                  "9f86d081884c7d659a2feaa0c55ad015a3bf4f1b" (Some "new-Passw0rd"))
               Sample.users in
  let hashedPassword := Sample.bcrypt_hash "new-Passw0rd" (bcrypt_salt env) in
  reply_of r = Normal (failure 500 "Server error during password reset.") /\
  users_after r = User.save (reset_document hashedPassword Sample.carol) Sample.users /\
  (exists user',
     User.findById 3%N (users_after r) = Some user' /\
     User.password user' = hashedPassword /\
     User.resetPasswordToken user' = None /\
     User.resetPasswordExpiresAt user' = None) /\
  User.findById 3%N Sample.users <> User.findById 3%N (users_after r) /\
  users_after r <> Sample.users.
Proof.
  apply (resetPassword_mail_failure_keeps_the_change Sample.bcrypt_hash
           (Sample.env_at (Sample.t0 - 2 * Sample.one_hour) 0%N 9%N false)
           "9f86d081884c7d659a2feaa0c55ad015a3bf4f1b" (Some "new-Passw0rd")
           Sample.users Sample.carol).
  - split; [reflexivity | simpl; lia].
  - reflexivity.
  - reflexivity.
  - repeat constructor; simpl; intuition discriminate.
Defined.

(** ** One-time codes (C5) *)

Lemma unheld_verification_code_not_found (now : Z) (code : string)
  (users : User.Collection) :
  (forall v, In v users -> User.verificationToken v <> Some code) ->
  User.findOne [User.VerificationTokenIs (Some code);
                User.VerificationTokenExpiresAt_gt now] users = None.
Proof.
  intros H. apply findOne_None. intros v Hv. simpl.
  destruct (User.option_string_eqb (User.verificationToken v) (Some code)) eqn:E;
    [|reflexivity].
  apply option_string_eqb_eq in E. now apply H in E.
Qed.

Lemma unheld_reset_token_not_found (now : Z) (token : string)
  (users : User.Collection) :
  (forall v, In v users -> User.resetPasswordToken v <> Some token) ->
  User.findOne [User.ResetPasswordTokenIs (Some token);
                User.ResetPasswordExpiresAt_gt now] users = None.
Proof.
  intros H. apply stale_reset_token_not_found.
  intros u Hu E. now apply H in E.
Qed.

(** After the holder's record is saved without the code, no record holds it,
    as long as the holder was the only one. *)
Lemma save_clears_the_code (field : User.Document -> option string) (code : string)
  (users : User.Collection) (user user' : User.Document) :
  NoDup (ids users) ->
  In user users ->
  User._id user' = User._id user ->
  field user' = None ->
  (forall v, In v users -> field v = Some code -> v = user) ->
  forall v, In v (User.save user' users) -> field v <> Some code.
Proof.
  intros Hnd Hin Hid Hclear Honly v Hv Hheld.
  destruct (save_In _ _ _ Hv) as [->|Hold]; [congruence|].
  assert (v = user) by auto. subst v.
  assert (user = user').
  { apply (save_In_same_id user' users user Hnd Hv). now symmetry. }
  congruence.
Qed.

Section Verification.

Variable jwt_sign : ObjectId -> Z -> string.

Lemma verifyEmail_no_match (env : Env) (code : option string)
  (users : User.Collection) :
  User.findOne [User.VerificationTokenIs code;
                User.VerificationTokenExpiresAt_gt (Date_now env)] users = None ->
  run (verifyEmail jwt_sign env code) users =
    (Normal (failure 400 "Invalid or expired verification code."), fresh users).
Proof.
  intros Hnone. unfold verifyEmail, run. exec. rewrite Hnone. reflexivity.
Qed.

Lemma verifyEmail_match (env : Env) (code : option string)
  (users : User.Collection) (user : User.Document) :
  User.findOne [User.VerificationTokenIs code;
                User.VerificationTokenExpiresAt_gt (Date_now env)] users = Some user ->
  let r := run (verifyEmail jwt_sign env code) users in
  users_after r = User.save (verified_document user) users /\
  reply_of r =
    if mailtrap_up env
    then Normal (mkReply 200
                   (mkJson true "Email verified successfully."
                      (UserPayload
                         [("_id", JsObjectId (User._id user));
                          ("name", JsString (User.name user));
                          ("email", JsString (User.email user));
                          ("isVerified", JsBoolean true)])))
    else Normal (failure 500 "Server error during email verification.").
Proof.
  intros Hsome.
  unfold verifyEmail, run, sendWelcomeEmail, generateTokenAndSetCookie.
  exec. rewrite Hsome. exec.
  destruct (mailtrap_up env); exec; repeat split.
Qed.

End Verification.

Section OneTimeCodes.

Variable bcrypt_hash : string -> string -> string.
Variable jwt_sign : ObjectId -> Z -> string.

(** C5 (amended). A verify-email request whose code is found saves the
    holder's record with [isVerified] set and the code and its expiry cleared
    in one write; a reset-password request whose token is found saves the
    record with the new hash and the token and its expiry cleared in one
    write. Provided no other record held the same code (token), any later
    request presenting it is answered 400 "Invalid or expired verification
    code." ("Invalid or expired reset token."), writes nothing, and gets the
    very answer given for a code that no record ever held. *)
Theorem one_time_codes_are_single_use :
  (forall (env env' : Env) (code : string) (users : User.Collection)
          (user : User.Document),
     NoDup (ids users) ->
     User.findOne [User.VerificationTokenIs (Some code);
                   User.VerificationTokenExpiresAt_gt (Date_now env)] users
       = Some user ->
     (forall v, In v users -> User.verificationToken v = Some code -> v = user) ->
     let first := run (verifyEmail jwt_sign env (Some code)) users in
     let users' := users_after first in
     let second := run (verifyEmail jwt_sign env' (Some code)) users' in
     users' = User.save (verified_document user) users /\
     User.findById (User._id user) users' = Some (verified_document user) /\
     (mailtrap_up env = true -> status_of first = Some 200) /\
     reply_of second
       = Normal (failure 400 "Invalid or expired verification code.") /\
     users_after second = users' /\
     forall (users0 : User.Collection) (code0 : string),
       (forall v, In v users0 -> User.verificationToken v <> Some code0) ->
       reply_of (run (verifyEmail jwt_sign env' (Some code0)) users0)
         = reply_of second)
  /\
  (forall (env env' : Env) (token : string) (password password' : option string)
          (users : User.Collection) (user : User.Document),
     NoDup (ids users) ->
     valid_password password ->
     valid_password password' ->
     User.findOne [User.ResetPasswordTokenIs (Some token);
                   User.ResetPasswordExpiresAt_gt (Date_now env)] users
       = Some user ->
     (forall v, In v users -> User.resetPasswordToken v = Some token -> v = user) ->
     let first := run (resetPassword bcrypt_hash env token password) users in
     let users' := users_after first in
     let saved :=
       reset_document (bcrypt_hash (field_string password) (bcrypt_salt env)) user in
     let second := run (resetPassword bcrypt_hash env' token password') users' in
     users' = User.save saved users /\
     User.findById (User._id user) users' = Some saved /\
     (mailtrap_up env = true -> status_of first = Some 200) /\
     reply_of second = Normal (failure 400 "Invalid or expired reset token.") /\
     users_after second = users' /\
     forall (users0 : User.Collection) (token0 : string),
       (forall v, In v users0 -> User.resetPasswordToken v <> Some token0) ->
       reply_of (run (resetPassword bcrypt_hash env' token0 password') users0)
         = reply_of second).
Proof.
  split.
  - intros env env' code users user Hnd Hsome Honly first users' second.
    destruct (findOne_Some _ _ _ Hsome) as [Hin _].
    destruct (verifyEmail_match jwt_sign env _ _ _ Hsome) as [Hdb Hreply].
    fold first in Hdb, Hreply. fold users' in Hdb.
    assert (Hgone : User.findOne
                      [User.VerificationTokenIs (Some code);
                       User.VerificationTokenExpiresAt_gt (Date_now env')] users'
                    = None).
    { apply unheld_verification_code_not_found. rewrite Hdb.
      apply (save_clears_the_code User.verificationToken code users user
               (verified_document user) Hnd Hin eq_refl eq_refl Honly). }
    subst second. rewrite (verifyEmail_no_match jwt_sign env' _ _ Hgone).
    split; [exact Hdb|]. split.
    { rewrite Hdb.
      apply (findById_save (verified_document user) users). simpl.
      now apply In_ids. }
    split.
    { intros Hup. unfold status_of. rewrite Hreply, Hup. reflexivity. }
    split; [reflexivity|]. split; [reflexivity|].
    intros users0 code0 H0.
    rewrite (verifyEmail_no_match jwt_sign env' _ _
               (unheld_verification_code_not_found (Date_now env') code0 users0 H0)).
    reflexivity.
  - intros env env' token password password' users user Hnd Hv Hv' Hsome Honly
      first users' saved second.
    destruct (findOne_Some _ _ _ Hsome) as [Hin _].
    destruct (resetPassword_match bcrypt_hash env token _ _ _ Hv Hsome)
      as (Hdb & _ & Hreply).
    fold first in Hdb, Hreply. fold users' in Hdb. fold saved in Hdb.
    assert (Hgone : User.findOne
                      [User.ResetPasswordTokenIs (Some token);
                       User.ResetPasswordExpiresAt_gt (Date_now env')] users'
                    = None).
    { apply unheld_reset_token_not_found. rewrite Hdb.
      apply (save_clears_the_code User.resetPasswordToken token users user
               saved Hnd Hin eq_refl eq_refl Honly). }
    subst second.
    rewrite (resetPassword_no_match bcrypt_hash env' token _ _ Hv' Hgone).
    split; [exact Hdb|]. split.
    { rewrite Hdb. apply (findById_save saved users). simpl. now apply In_ids. }
    split.
    { intros Hup. unfold status_of. rewrite Hreply, Hup. reflexivity. }
    split; [reflexivity|]. split; [reflexivity|].
    intros users0 token0 H0.
    rewrite (resetPassword_no_match bcrypt_hash env' token0 _ _ Hv'
               (unheld_reset_token_not_found (Date_now env') token0 users0 H0)).
    reflexivity.
Qed.

End OneTimeCodes.

Lemma sample_users_have_unique_ids : NoDup (ids Sample.users).
Proof. repeat constructor; simpl; intuition discriminate. Qed.

Lemma one_time_codes_are_single_use_witness :
  let env := Sample.env_at Sample.t0 0%N 9%N true in
  let later := Sample.env_at (Sample.t0 + Sample.one_hour) 0%N 9%N true in
  let verified := users_after (run (verifyEmail Sample.jwt_sign env (Some "482913"))
                                   Sample.users) in
  let earlier := Sample.env_at (Sample.t0 - 2 * Sample.one_hour) 0%N 9%N true in
  let token := "9f86d081884c7d659a2feaa0c55ad015a3bf4f1b" in
  let reset := users_after (run (resetPassword Sample.bcrypt_hash earlier token
                                   (Some "new-Passw0rd")) Sample.users) in
  (User.findById 2%N verified = Some (verified_document Sample.bob) /\
   reply_of (run (verifyEmail Sample.jwt_sign later (Some "482913")) verified)
     = Normal (failure 400 "Invalid or expired verification code.")) /\
  (User.resetPasswordToken
     (reset_document (Sample.bcrypt_hash "new-Passw0rd" (bcrypt_salt earlier))
                     Sample.carol) = None /\
   reply_of (run (resetPassword Sample.bcrypt_hash earlier token
                    (Some "another-Passw0rd")) reset)
     = Normal (failure 400 "Invalid or expired reset token.")).
Proof.
  split.
  - destruct (proj1 (one_time_codes_are_single_use Sample.bcrypt_hash Sample.jwt_sign)
                (Sample.env_at Sample.t0 0%N 9%N true)
                (Sample.env_at (Sample.t0 + Sample.one_hour) 0%N 9%N true)
                "482913" Sample.users Sample.bob
                sample_users_have_unique_ids eq_refl)
      as (_ & Hfind & _ & Hsecond & _).
    + intros v [<-|[<-|[<-|[]]]]; simpl; intros [=]; reflexivity.
    + split; [exact Hfind | exact Hsecond].
  - destruct (proj2 (one_time_codes_are_single_use Sample.bcrypt_hash Sample.jwt_sign)
                (Sample.env_at (Sample.t0 - 2 * Sample.one_hour) 0%N 9%N true)
                (Sample.env_at (Sample.t0 - 2 * Sample.one_hour) 0%N 9%N true)
                "9f86d081884c7d659a2feaa0c55ad015a3bf4f1b"
                (Some "new-Passw0rd") (Some "another-Passw0rd")
                Sample.users Sample.carol
                sample_users_have_unique_ids)
      as (_ & _ & _ & Hsecond & _).
    + split; [reflexivity | simpl; lia].
    + split; [reflexivity | simpl; lia].
    + reflexivity.
    + intros v [<-|[<-|[<-|[]]]]; simpl; intros [=]; reflexivity.
    + split; [reflexivity | exact Hsecond].
Defined.

(** C5 (counterexample). Two accounts sign up and the generator draws the
    same 6-digit code for both. The first verify-email request with that
    code verifies the first account and clears its code; the second request
    presenting the same code is answered 200 again, verifying the other
    account, where the claim expects 400. *)
Lemma verification_code_accepted_twice :
  let signup1 :=
    run (signup Sample.bcrypt_hash Sample.jwt_sign
           (Sample.env_at Sample.t0 382913%N 4%N true)
           (Some "dave@x.com") (Some "Passw0rd!") (Some "Dave")) [] in
  let signup2 :=
    run (signup Sample.bcrypt_hash Sample.jwt_sign
           (Sample.env_at (Sample.t0 + 1) 382913%N 5%N true)
           (Some "erin@x.com") (Some "s3cret-s3cret") (Some "Erin"))
        (users_after signup1) in
  let later := Sample.env_at (Sample.t0 + Sample.one_hour) 0%N 9%N true in
  let verify1 :=
    run (verifyEmail Sample.jwt_sign later (Some "482913")) (users_after signup2) in
  let verify2 :=
    run (verifyEmail Sample.jwt_sign later (Some "482913")) (users_after verify1) in
  status_of signup1 = Some 201 /\
  status_of signup2 = Some 201 /\
  map User.verificationToken (users_after signup2) = [Some "482913"; Some "482913"] /\
  status_of verify1 = Some 200 /\
  map User.verificationToken (users_after verify1) = [None; Some "482913"] /\
  reply_of verify2 =
    Normal (mkReply 200
              (mkJson true "Email verified successfully."
                 (UserPayload
                    [("_id", JsObjectId 5%N); ("name", JsString "Erin");
                     ("email", JsString "erin@x.com");
                     ("isVerified", JsBoolean true)]))) /\
  map User.isVerified (users_after verify2) = [true; true] /\
  reply_of verify2 <> Normal (failure 400 "Invalid or expired verification code.").
Proof.
  repeat (split; [vm_compute; reflexivity|]). vm_compute. discriminate.
Qed.

(** ** The verified flag over the operations of the system (C8) *)

Lemma NoDup_ids_filter (keep : User.Document -> bool) (users : User.Collection) :
  NoDup (ids users) -> NoDup (ids (filter keep users)).
Proof.
  unfold ids. induction users as [|v users IH]; simpl; [auto|].
  intros Hnd. inversion Hnd as [|? ? Hv Hnd']; subst.
  destruct (keep v); simpl; [|auto].
  constructor; [|auto].
  intros Hin. apply Hv. apply in_map_iff in Hin as [w [Hw Hin]].
  apply filter_In in Hin as [Hin _]. rewrite <- Hw. now apply in_map.
Qed.

Lemma NoDup_ids_app (users : User.Collection) (d : User.Document) :
  NoDup (ids users) -> ~ In (User._id d) (ids users) -> NoDup (ids (users ++ [d])).
Proof.
  intros Hnd Hfresh. unfold ids in *. rewrite map_app. simpl.
  apply NoDup_app; [assumption | repeat constructor; simpl; tauto |].
  intros i Hi [<-|[]]. contradiction.
Qed.

Lemma filter_none_keeps_rest {A : Type} (p : A -> bool) (l : list A) :
  filter p l = [] -> filter (fun x => negb (p x)) l = l.
Proof.
  induction l as [|x l IH]; simpl; [reflexivity|].
  destruct (p x); simpl; [discriminate|]. intros H. now rewrite IH.
Qed.

(** What the hourly callback does to the collection. *)
Lemma sweep_deletes (env : Env) (users : User.Collection) :
  users_after (run (sweep env) users) =
    User.deleteMany [User.IsVerifiedIs false;
                     User.VerificationTokenExpiresAt_lt (Date_now env)] users.
Proof.
  unfold sweep. exec.
  destruct (User.find _ users) as [|x l] eqn:E; simpl.
  - unfold User.deleteMany. unfold User.find in E.
    now rewrite (filter_none_keeps_rest _ _ E).
  - reflexivity.
Qed.


Lemma unchanged_flags (users : User.Collection) : flags_only_rise users users.
Proof. intros u Hu. left. exists u. auto. Qed.

Lemma save_flags (users : User.Collection) (u0 u0' : User.Document) :
  NoDup (ids users) ->
  In u0 users ->
  User._id u0' = User._id u0 ->
  (User.isVerified u0' = User.isVerified u0 \/ User.isVerified u0' = true) ->
  flags_only_rise users (User.save u0' users).
Proof.
  intros Hnd Hin0 Hid Hflag u Hu. left.
  destruct (N.eq_dec (User._id u) (User._id u0)) as [E|E].
  - assert (u = u0) by (apply (same_id_same_document users); auto). subst u.
    exists u0'. split; [|auto].
    apply save_In_self. rewrite Hid. now apply In_ids.
  - exists u. split; [|auto].
    apply save_In_other; [assumption | congruence].
Qed.

Lemma create_flags (users : User.Collection) (d : User.Document) :
  flags_only_rise users (users ++ [d]).
Proof.
  intros u Hu. left. exists u. split; [|auto]. apply in_or_app. now left.
Qed.

Lemma deleteMany_flags (now : Z) (users : User.Collection) :
  NoDup (ids users) ->
  flags_only_rise users
    (User.deleteMany [User.IsVerifiedIs false;
                      User.VerificationTokenExpiresAt_lt now] users).
Proof.
  intros Hnd u Hu. unfold User.deleteMany.
  destruct (User.matches [User.IsVerifiedIs false;
                          User.VerificationTokenExpiresAt_lt now] u) eqn:Hm.
  - right. split.
    + simpl in Hm. apply andb_prop in Hm as [Hm _].
      destruct (User.isVerified u); [discriminate | reflexivity].
    + intros Hin. unfold ids in Hin. apply in_map_iff in Hin as [w [Hw Hin]].
      apply filter_In in Hin as [Hin Hkeep].
      assert (w = u) by (apply (same_id_same_document users); auto). subst w.
      rewrite Hm in Hkeep. discriminate.
  - left. exists u. split; [|auto]. apply filter_In. split; [assumption|].
    now rewrite Hm.
Qed.

Section Invariant.

Variable bcrypt_hash : string -> string -> string.
Variable bcrypt_compare : string -> string -> bool.
Variable jwt_sign : ObjectId -> Z -> string.
Variable jwt_verify : string -> Z -> JwtVerdict.

Let run_step := step bcrypt_hash bcrypt_compare jwt_sign jwt_verify.
Let run_steps := steps bcrypt_hash bcrypt_compare jwt_sign jwt_verify.

(** A request leaves the collection as it is, saves one found record under
    its identifier and email with the flag unchanged or raised, or appends
    one unverified record under a new identifier. *)
Lemma request_changes (env : Env) (req : Request) (handler : Async Reply)
  (users : User.Collection) :
  router bcrypt_hash bcrypt_compare jwt_sign jwt_verify env req = Some handler ->
  let users' := users_after (run handler users) in
  users' = users \/
  (exists u u', In u users /\ User._id u' = User._id u /\
                User.email u' = User.email u /\
                (User.isVerified u' = User.isVerified u \/
                 User.isVerified u' = true) /\
                users' = User.save u' users) \/
  (exists d, ~ In (User._id d) (ids users) /\ User.isVerified d = false /\
             users' = users ++ [d]).
Proof.
  intros Hr.
  destruct req; simpl in Hr; try (destruct (String.eqb _ _)); try congruence;
    injection Hr as <-;
    unfold_controllers; exec; split_branches;
    try (left; reflexivity).
  all: try (right; left;
      match goal with
      | H : User.findOne _ _ = Some ?u |- _ =>
          exists u; eexists; split; [exact (proj1 (findOne_Some _ _ _ H))|];
          split; [|split; [|split; [|reflexivity]]]; simpl; auto
      end).
  all: right; right;
      match goal with
      | H : User.create ?d _ = Some _ |- _ =>
          exists d; destruct (create_Some _ _ _ H) as [-> Hfresh];
          split; [exact Hfresh|]; split; reflexivity
      end.
Qed.

Lemma step_keeps_ids_unique (env : Env) (op : Operation) (users : User.Collection) :
  NoDup (ids users) -> NoDup (ids (run_step env op users)).
Proof.
  intros Hnd. destruct op as [req|]; unfold run_step, step.
  - destruct (router _ _ _ _ env req) as [handler|] eqn:Hr; [|assumption].
    destruct (request_changes env req handler users Hr)
      as [->|[(u & u' & _ & _ & _ & _ & ->)|(d & Hfresh & _ & ->)]].
    + assumption.
    + now rewrite save_ids.
    + now apply NoDup_ids_app.
  - rewrite sweep_deletes. now apply NoDup_ids_filter.
Qed.

Lemma step_flags (env : Env) (op : Operation) (users : User.Collection) :
  NoDup (ids users) -> flags_only_rise users (run_step env op users).
Proof.
  intros Hnd. destruct op as [req|]; unfold run_step, step.
  - destruct (router _ _ _ _ env req) as [handler|] eqn:Hr;
      [|apply unchanged_flags].
    destruct (request_changes env req handler users Hr)
      as [->|[(u & u' & Hin & Hid & _ & Hflag & ->)|(d & _ & _ & ->)]].
    + apply unchanged_flags.
    + now apply save_flags with (u0 := u).
    + apply create_flags.
  - rewrite sweep_deletes. now apply deleteMany_flags.
Qed.

Lemma steps_keep_ids_unique (trace : list (Env * Operation)) (users : User.Collection) :
  NoDup (ids users) -> NoDup (ids (run_steps trace users)).
Proof.
  revert users. induction trace as [|[env op] trace IH]; intros users Hnd; simpl.
  - assumption.
  - apply IH. now apply step_keeps_ids_unique.
Qed.

(** A verified record stays, and stays verified, over one operation. *)
Lemma step_keeps_verified (env : Env) (op : Operation) (users : User.Collection)
  (u : User.Document) :
  NoDup (ids users) -> In u users -> User.isVerified u = true ->
  exists u', In u' (run_step env op users) /\ User._id u' = User._id u /\
             User.isVerified u' = true.
Proof.
  intros Hnd Hin Hv.
  destruct (step_flags env op users Hnd u Hin)
    as [(u' & Hin' & Hid & [Hf|Hf])|[Hf _]].
  - exists u'. repeat split; congruence.
  - exists u'. repeat split; congruence.
  - congruence.
Qed.

Lemma steps_keep_verified (trace : list (Env * Operation)) (users : User.Collection)
  (u : User.Document) :
  NoDup (ids users) -> In u users -> User.isVerified u = true ->
  exists u', In u' (run_steps trace users) /\ User._id u' = User._id u /\
             User.isVerified u' = true.
Proof.
  revert users u.
  induction trace as [|[env op] trace IH]; intros users u Hnd Hin Hv; simpl.
  - exists u. auto.
  - destruct (step_keeps_verified env op users u Hnd Hin Hv) as (u1 & Hin1 & Hid1 & Hv1).
    destruct (IH (run_step env op users) u1 (step_keeps_ids_unique env op users Hnd) Hin1 Hv1)
      as (u' & Hin' & Hid' & Hv').
    exists u'. split; [exact Hin'|]. split; congruence.
Qed.

(** C8. Over any one operation of the system (a request to any route, or the
    hourly sweep) run on a collection with unique identifiers, every record
    is still there under its identifier with [isVerified] unchanged or set to
    [true], or it was unverified and has been deleted. Hence in every run of
    the system from the empty collection a record that is verified at some
    point is in every later collection, and every later record under its
    identifier is verified: the flag never goes back to [false]. *)
Theorem isVerified_is_never_reverted :
  (forall (env : Env) (op : Operation) (users : User.Collection),
     NoDup (ids users) ->
     NoDup (ids (run_step env op users)) /\
     flags_only_rise users (run_step env op users))
  /\
  (forall (history trace : list (Env * Operation)) (u : User.Document),
     let before := run_steps history [] in
     let after := run_steps trace before in
     In u before ->
     User.isVerified u = true ->
     (exists u', In u' after /\ User._id u' = User._id u) /\
     (forall u', In u' after -> User._id u' = User._id u ->
                 User.isVerified u' = true)).
Proof.
  split.
  - intros env op users Hnd. split.
    + now apply step_keeps_ids_unique.
    + now apply step_flags.
  - intros history trace u before after Hin Hv.
    assert (Hnd : NoDup (ids before))
      by (apply steps_keep_ids_unique; constructor).
    destruct (steps_keep_verified trace before u Hnd Hin Hv)
      as (u1 & Hin1 & Hid1 & Hv1).
    split.
    + exists u1. auto.
    + intros u' Hin' Hid'.
      assert (Hnd' : NoDup (ids after))
        by (now apply steps_keep_ids_unique).
      assert (u' = u1)
        by (apply (same_id_same_document after); auto; congruence).
      congruence.
Qed.

End Invariant.

Lemma isVerified_is_never_reverted_witness :
  let step := step Sample.bcrypt_hash Sample.bcrypt_compare Sample.jwt_sign
                   Sample.jwt_verify in
  let steps := steps Sample.bcrypt_hash Sample.bcrypt_compare Sample.jwt_sign
                     Sample.jwt_verify in
  let history :=
    [(Sample.env_at Sample.t0 382913%N 4%N true,
      Handle (POST_signup (Some "dave@x.com") (Some "Passw0rd!") (Some "Dave")));
     (Sample.env_at (Sample.t0 + Sample.one_hour) 0%N 9%N true,
      Handle (POST_verify_email (Some "482913")))] in
  let trace :=
    [(Sample.env_at (Sample.t0 + 25 * Sample.one_hour) 0%N 9%N true, Sweep);
     (Sample.env_at (Sample.t0 + 26 * Sample.one_hour) 0%N 9%N true,
      Handle (POST_forgot_password (Some "dave@x.com")));
     (Sample.env_at (Sample.t0 + 27 * Sample.one_hour) 0%N 9%N true,
      Handle (POST_login (Some "dave@x.com") (Some "Passw0rd!")))] in
  flags_only_rise Sample.users
    (step (Sample.env_at (Sample.t0 + 25 * Sample.one_hour) 0%N 9%N true) Sweep
          Sample.users) /\
  map User.isVerified (steps history []) = [true] /\
  forall u', In u' (steps trace (steps history [])) -> User._id u' = 4%N ->
             User.isVerified u' = true.
Proof.
  intros step steps history trace.
  split.
  - apply (proj1 (isVerified_is_never_reverted Sample.bcrypt_hash
                    Sample.bcrypt_compare Sample.jwt_sign Sample.jwt_verify)
             (Sample.env_at (Sample.t0 + 25 * Sample.one_hour) 0%N 9%N true)
             Sweep Sample.users sample_users_have_unique_ids).
  - split; [vm_compute; reflexivity|].
    apply (proj2 (isVerified_is_never_reverted Sample.bcrypt_hash
                    Sample.bcrypt_compare Sample.jwt_sign Sample.jwt_verify)
             history trace
             (User.mkDocument 4%N "dave@x.com"
                "$2b$12$N9qo8uLOickgx2ZMRZoMye.Passw0rd!" "Dave" Sample.t0 true
                None None None None Sample.t0)).
    + vm_compute. left. reflexivity.
    + reflexivity.
Defined.

(** ** Duplicate email at signup (C7) *)

Section DuplicateEmail.

Variable bcrypt_hash : string -> string -> string.
Variable jwt_sign : ObjectId -> Z -> string.

Lemma signup_known_email (env : Env) (email password name : option string)
  (users : User.Collection) (u : User.Document) :
  In u users ->
  email = Some (User.email u) ->
  let r := run (signup bcrypt_hash jwt_sign env email password name) users in
  snd r = mkWorld users [] [console_log_line "Signup request received"] [] /\
  (status_of r = Some 409 \/ status_of r = Some 400) /\
  (valid_signup email password name ->
   reply_of r = Normal (failure 409 "A user with this email already exists.")).
Proof.
  intros Hin -> r. subst r.
  assert (Hfound : exists v, User.findOne [User.EmailIs (Some (User.email u))] users
                             = Some v).
  { apply (findOne_exists _ users u Hin). simpl. now rewrite String.eqb_refl. }
  destruct Hfound as [v Hv].
  unfold signup, status_of. exec.
  destruct (negb (truthy (Some (User.email u))) || negb (truthy password)
            || negb (truthy name)) eqn:Hfields; simpl.
  - repeat split; auto.
    intros (He & Hp & Hn & _). rewrite He, Hp, Hn in Hfields. discriminate.
  - destruct (String.length (field_string password) <? 8)%nat eqn:Hlen; simpl.
    + repeat split; auto.
      intros (_ & _ & _ & H). apply Nat.ltb_lt in Hlen. lia.
    + rewrite Hv. simpl. repeat split; auto.
Qed.

Lemma signup_201_records_email (env : Env) (email password name : option string)
  (users : User.Collection) :
  status_of (run (signup bcrypt_hash jwt_sign env email password name) users)
    = Some 201 ->
  exists u,
    In u (users_after (run (signup bcrypt_hash jwt_sign env email password name)
                           users)) /\
    email = Some (User.email u).
Proof.
  unfold status_of, signup, generateTokenAndSetCookie, sendVerificationEmail.
  exec. split_branches; try discriminate. intros _.
  match goal with
  | H : User.create ?d _ = Some _ |- _ =>
      exists d; destruct (create_Some _ _ _ H) as [-> _]
  end.
  split; [apply in_or_app; right; now left|].
  destruct email as [e|]; [reflexivity|discriminate].
Qed.

(** C7 (amended). A signup whose email already belongs to a record writes
    nothing: the collection is the same, no cookie is set, no mail is sent
    and the console shows that the run stopped before the password was
    hashed. The answer is a rejection, 409 "A user with this email already
    exists." when the fields pass validation and 400 from the validation
    steps otherwise. A signup answered 201 leaves a record with its email in
    the collection, so a second signup with the same email on that
    collection is not answered 201. *)
Theorem signup_existing_email_is_rejected :
  (forall (env : Env) (email password name : option string)
          (users : User.Collection) (u : User.Document),
     In u users ->
     email = Some (User.email u) ->
     let r := run (signup bcrypt_hash jwt_sign env email password name) users in
     users_after r = users /\
     cookies_of r = [] /\
     mails_of r = [] /\
     console_of r = [console_log_line "Signup request received"] /\
     (status_of r = Some 409 \/ status_of r = Some 400) /\
     (valid_signup email password name ->
      reply_of r = Normal (failure 409 "A user with this email already exists.")))
  /\
  (forall (env env' : Env) (email password name password' name' : option string)
          (users : User.Collection),
     let first := run (signup bcrypt_hash jwt_sign env email password name) users in
     let second := run (signup bcrypt_hash jwt_sign env' email password' name')
                       (users_after first) in
     status_of first = Some 201 ->
     (exists u, In u (users_after first) /\ email = Some (User.email u)) /\
     status_of second <> Some 201 /\
     users_after second = users_after first).
Proof.
  split.
  - intros env email password name users u Hin He r.
    destruct (signup_known_email env email password name users u Hin He)
      as (Hw & Hs & Hv).
    fold r in Hw, Hs, Hv.
    unfold users_after, cookies_of, mails_of, console_of. rewrite Hw. simpl.
    repeat split; assumption.
  - intros env env' email password name password' name' users first second H201.
    destruct (signup_201_records_email env email password name users H201)
      as (u & Hin & He).
    fold first in Hin.
    destruct (signup_known_email env' email password' name' (users_after first)
                u Hin He) as (Hw & Hs & _).
    fold second in Hw, Hs.
    split; [now exists u|]. split.
    + destruct Hs as [Hs|Hs]; rewrite Hs; discriminate.
    + unfold users_after at 1. now rewrite Hw.
Qed.

End DuplicateEmail.

Lemma signup_existing_email_is_rejected_witness :
  let env := Sample.env_at Sample.t0 382913%N 4%N true in
  let again :=
    run (signup Sample.bcrypt_hash Sample.jwt_sign env
           (Some "alice@x.com") (Some "another-Passw0rd") (Some "Alice II"))
        Sample.users in
  let first :=
    run (signup Sample.bcrypt_hash Sample.jwt_sign env
           (Some "dave@x.com") (Some "Passw0rd!") (Some "Dave")) Sample.users in
  let second :=
    run (signup Sample.bcrypt_hash Sample.jwt_sign
           (Sample.env_at (Sample.t0 + 1) 7%N 5%N true)
           (Some "dave@x.com") (Some "Passw0rd!!") (Some "David"))
        (users_after first) in
  (users_after again = Sample.users /\
   reply_of again = Normal (failure 409 "A user with this email already exists.")) /\
  (status_of second <> Some 201 /\ users_after second = users_after first).
Proof.
  intros env again first second. split.
  - destruct (proj1 (signup_existing_email_is_rejected Sample.bcrypt_hash
                       Sample.jwt_sign)
                env (Some "alice@x.com") (Some "another-Passw0rd")
                (Some "Alice II") Sample.users Sample.alice)
      as (Hdb & _ & _ & _ & _ & Hreply).
    + left. reflexivity.
    + reflexivity.
    + split; [exact Hdb|]. apply Hreply. repeat split. simpl. lia.
  - destruct (proj2 (signup_existing_email_is_rejected Sample.bcrypt_hash
                       Sample.jwt_sign)
                env (Sample.env_at (Sample.t0 + 1) 7%N 5%N true)
                (Some "dave@x.com") (Some "Passw0rd!") (Some "Dave")
                (Some "Passw0rd!!") (Some "David") Sample.users)
      as (_ & Hs & Hdb).
    + vm_compute. reflexivity.
    + split; [exact Hs | exact Hdb].
Defined.

(** C7 (counterexample). First, a signup with Alice's registered email and a
    5-character password is answered 400 by the length check, not 409.
    Second, Dave signs up and never verifies; 25 hours later the sweep
    deletes his record, and a second signup with the same email is answered
    201 like the first. *)
Lemma signup_same_email_twice :
  let short :=
    run (signup Sample.bcrypt_hash Sample.jwt_sign
           (Sample.env_at Sample.t0 382913%N 4%N true)
           (Some "alice@x.com") (Some "short") (Some "Alice")) Sample.users in
  let first :=
    run (signup Sample.bcrypt_hash Sample.jwt_sign
           (Sample.env_at Sample.t0 382913%N 4%N true)
           (Some "dave@x.com") (Some "Passw0rd!") (Some "Dave")) [] in
  let swept :=
    users_after (run (sweep (Sample.env_at (Sample.t0 + 25 * Sample.one_hour)
                                           0%N 9%N true))
                     (users_after first)) in
  let second :=
    run (signup Sample.bcrypt_hash Sample.jwt_sign
           (Sample.env_at (Sample.t0 + 26 * Sample.one_hour) 7%N 5%N true)
           (Some "dave@x.com") (Some "Passw0rd!") (Some "Dave")) swept in
  reply_of short
    = Normal (failure 400 "Password must be at least 8 characters long.") /\
  status_of first = Some 201 /\
  map User.email (users_after first) = ["dave@x.com"] /\
  swept = [] /\
  status_of second = Some 201 /\
  map User.email (users_after second) = ["dave@x.com"].
Proof.
  repeat (split; [vm_compute; reflexivity|]). vm_compute. reflexivity.
Qed.


(** * Further properties of the controllers *)

(** ** Logout *)

Section Logout.

Variable jwt_sign : ObjectId -> Z -> string.
Variable jwt_verify : string -> Z -> JwtVerdict.

(** X1. Logout always answers 200, writes nothing and sends nothing; it
    clears the cookie that [generateTokenAndSetCookie] sets, under the same
    name and with the same [httpOnly], [secure] and [sameSite] attributes.
    Since nothing is written, a check-auth request carrying a token issued
    earlier is answered after the logout as it was before. On the client,
    the store's logout therefore succeeds whenever the server is reached:
    the stored user is dropped, the visitor is no longer authenticated, the
    home path redirects to the login page and the login page is shown. *)
Theorem logout_only_clears_the_cookie
  (env env' : Env) (userId : ObjectId) (cookie_token : option string)
  (users : User.Collection) (s : AuthStore.State) :
  AuthStore.isCheckingAuth s = false ->
  let r := run (logout env) users in
  reply_of r = Normal (mkReply 200 (mkJson true "Logged out successfully" NoPayload)) /\
  users_after r = users /\
  mails_of r = [] /\
  (exists cleared value set,
     cookies_of r = [ClearCookie "token" cleared] /\
     cookies_of (run (generateTokenAndSetCookie jwt_sign env userId) users)
       = [SetCookie "token" value set] /\
     httpOnly cleared = httpOnly set /\
     secure cleared = secure set /\
     sameSite cleared = sameSite set) /\
  reply_of (run (verifyToken jwt_verify env' cookie_token checkAuth) (users_after r))
    = reply_of (run (verifyToken jwt_verify env' cookie_token checkAuth) users) /\
  (let o := AuthStore.logout s (axios (answer r)) in
   let s' := AuthStore.state_of o in
   AuthStore.returned o = true /\
   AuthStore.user s' = None /\
   AuthStore.isAuthenticated s' = false /\
   App.App s' App.Home = App.Navigate App.LoginPage /\
   App.App s' App.LoginPage = App.Page App.LoginPage).
Proof.
  intros Hc r. subst r. unfold logout, generateTokenAndSetCookie. exec.
  split; [reflexivity|]. split; [reflexivity|]. split; [reflexivity|].
  split; [do 3 eexists; repeat split|]. split; [reflexivity|].
  unfold AuthStore.logout, axios, answer, App.App, App.ProtectedRoute,
    App.RedirectAuthenticatedUser. simpl. rewrite Hc. repeat split.
Qed.

End Logout.

Lemma logout_only_clears_the_cookie_witness :
  let env := Sample.env_at Sample.t0 0%N 9%N true in
  let s := AuthStore.mkState (Some [("isVerified", JsBoolean true)]) None (Some true)
                             true false false in
  users_after (run (logout env) Sample.users) = Sample.users /\
  App.App (AuthStore.state_of
             (AuthStore.logout s (axios (answer (run (logout env) Sample.users)))))
          App.Home
    = App.Navigate App.LoginPage.
Proof.
  intros env s.
  destruct (logout_only_clears_the_cookie Sample.jwt_sign Sample.jwt_verify
              env env 1%N None Sample.users s eq_refl)
    as (_ & Hdb & _ & _ & _ & _ & _ & _ & Hhome & _).
  split; [exact Hdb | exact Hhome].
Defined.

(** ** Login *)

Section LoginSuccess.

Variable bcrypt_compare : string -> string -> bool.
Variable jwt_sign : ObjectId -> Z -> string.

(** The whole run of an accepted login. *)
Lemma login_accepted
  (env : Env) (email password : option string)
  (users : User.Collection) (user : User.Document) :
  submitted email password ->
  User.findOne [User.EmailIs email] users = Some user ->
  User.isVerified user = true ->
  bcrypt_compare (field_string password) (User.password user) = true ->
  run (login bcrypt_compare jwt_sign env email password) users =
    (Normal (mkReply 200
               (mkJson true "Logged in successfully"
                  (UserPayload
                     (js_set "password" JsUndefined
                        (User._doc (logged_in_document (Date_now env) user)))))),
     mkWorld (User.save (logged_in_document (Date_now env) user) users)
             [session_cookie jwt_sign env (User._id user)]
             [console_log_line "User logged in"] []).
Proof.
  intros [He Hp] Hsome Hv Hc.
  unfold login, run, generateTokenAndSetCookie. rewrite He, Hp. exec.
  rewrite Hsome. exec. rewrite Hv. exec. rewrite Hc. exec.
  unfold logged_in_document. rewrite Hv. reflexivity.
Qed.

(** X2. A login that submits both fields for a registered and verified user
    with a password that [bcrypt.compare] accepts answers 200 with the
    user object without its password, sets the session cookie for that
    user's identifier, sends no mail, and saves the record with [lastLogin]
    set to the time of the request and every other field as it was. *)
Theorem login_success
  (env : Env) (email password : option string)
  (users : User.Collection) (user : User.Document) :
  submitted email password ->
  User.findOne [User.EmailIs email] users = Some user ->
  User.isVerified user = true ->
  bcrypt_compare (field_string password) (User.password user) = true ->
  let r := run (login bcrypt_compare jwt_sign env email password) users in
  let user' := logged_in_document (Date_now env) user in
  reply_of r =
    Normal (mkReply 200
              (mkJson true "Logged in successfully"
                 (UserPayload (js_set "password" JsUndefined (User._doc user'))))) /\
  has_own_property "password"
    (JSON_stringify (js_set "password" JsUndefined (User._doc user'))) = false /\
  users_after r = User.save user' users /\
  cookies_of r = [session_cookie jwt_sign env (User._id user)] /\
  mails_of r = [] /\
  User.findById (User._id user) (users_after r) = Some user' /\
  User.lastLogin user' = Date_now env /\
  User.password user' = User.password user /\
  User.isVerified user' = User.isVerified user /\
  User.email user' = User.email user /\
  User.resetPasswordToken user' = User.resetPasswordToken user /\
  User.verificationToken user' = User.verificationToken user.
Proof.
  intros Hs Hsome Hv Hc r user'. subst r.
  rewrite (login_accepted env email password users user Hs Hsome Hv Hc).
  split; [reflexivity|]. split; [apply sanitized_omits_password|].
  split; [reflexivity|]. split; [reflexivity|]. split; [reflexivity|].
  split; [|repeat split].
  apply (findById_save user' users).
  simpl. apply In_ids. exact (proj1 (findOne_Some _ _ _ Hsome)).
Qed.


End LoginSuccess.

Lemma login_success_witness :
  let env := Sample.env_at Sample.t0 0%N 9%N true in
  let r := run (login Sample.bcrypt_compare Sample.jwt_sign env
                  (Some "alice@x.com") (Some "Passw0rd!")) Sample.users in
  status_of r = Some 200 /\
  users_after r = User.save (logged_in_document Sample.t0 Sample.alice) Sample.users /\
  cookies_of r = [session_cookie Sample.jwt_sign env 1%N].
Proof.
  destruct (login_success Sample.bcrypt_compare Sample.jwt_sign
              (Sample.env_at Sample.t0 0%N 9%N true)
              (Some "alice@x.com") (Some "Passw0rd!") Sample.users Sample.alice)
    as (Hreply & _ & Hdb & Hcookie & _).
  - split; reflexivity.
  - reflexivity.
  - reflexivity.
  - vm_compute. reflexivity.
  - split; [|split; [exact Hdb | exact Hcookie]].
    unfold status_of. rewrite Hreply. reflexivity.
Defined.


(** ** Collections that grow by one record *)

Lemma findOne_app (q : User.Filter) (users : User.Collection) (d : User.Document) :
  User.findOne q (users ++ [d]) =
    match User.findOne q users with
    | Some u => Some u
    | None => if User.matches q d then Some d else None
    end.
Proof.
  unfold User.findOne. induction users as [|v users IH]; simpl.
  - reflexivity.
  - destruct (User.matches q v); [reflexivity | exact IH].
Qed.

Lemma save_last (u d : User.Document) (users : User.Collection) :
  User._id u = User._id d ->
  ~ In (User._id d) (ids users) ->
  User.save u (users ++ [d]) = users ++ [u].
Proof.
  intros Hid Hfresh. induction users as [|v users IH]; simpl.
  - unfold User.save. rewrite Hid, N.eqb_refl. reflexivity.
  - unfold User.save. fold User.save.
    destruct (N.eqb_spec (User._id v) (User._id u)) as [E|E].
    + exfalso. apply Hfresh. simpl. left. congruence.
    + f_equal. apply IH. intros H. apply Hfresh. simpl. now right.
Qed.

(** ** Signup, then verification, then login *)

Section Registration.

Variable bcrypt_hash : string -> string -> string.
Variable bcrypt_compare : string -> string -> bool.
Variable jwt_sign : ObjectId -> Z -> string.

(** X4. A valid signup for a free email, with the mail transport up, answers
    201 with the new user object without its password, appends one record
    that is unverified, holds the hash of the submitted password and a code
    expiring 24 hours later, sets the session cookie for the new identifier,
    and sends exactly one mail: the verification mail, to the submitted
    address, carrying the code that is stored in the record. *)
Theorem signup_success
  (env : Env) (email password name : option string) (users : User.Collection) :
  valid_signup email password name ->
  User.findOne [User.EmailIs email] users = None ->
  ~ In (new_ObjectId env) (ids users) ->
  mailtrap_up env = true ->
  let r := run (signup bcrypt_hash jwt_sign env email password name) users in
  let user := signup_document bcrypt_hash env (field_string email)
                (field_string password) (field_string name) in
  reply_of r =
    Normal (mkReply 201
              (mkJson true
                 "User created successfully. Please check your email to verify your account."
                 (UserPayload (js_set "password" JsUndefined (User._doc user))))) /\
  users_after r = users ++ [user] /\
  cookies_of r = [session_cookie jwt_sign env (new_ObjectId env)] /\
  mails_of r = [VerificationMail (field_string email) (generateVerificationToken env)] /\
  User.verificationToken user = Some (generateVerificationToken env) /\
  User.verificationTokenExpiresAt user = Some (Date_now env + 86400000) /\
  User.isVerified user = false /\
  User.password user = bcrypt_hash (field_string password) (bcrypt_salt env).
Proof.
  intros (He & Hp & Hn & Hlen) Hfree Hid Hmail r user. subst r.
  unfold signup, run, generateTokenAndSetCookie, sendVerificationEmail.
  rewrite He, Hp, Hn. apply Nat.ltb_ge in Hlen. simpl negb. simpl orb. cbv iota.
  rewrite Hlen.
  destruct (truthy_Some _ He) as [e [-> _]].
  exec. rewrite Hfree. exec.
  erewrite create_accepts; [| exact Hid | exact Hfree].
  exec. rewrite Hmail. exec. repeat split.
Qed.

Lemma signup_registers (env : Env) (email password name : option string)
  (users : User.Collection) :
  valid_signup email password name ->
  User.findOne [User.EmailIs email] users = None ->
  ~ In (new_ObjectId env) (ids users) ->
  users_after (run (signup bcrypt_hash jwt_sign env email password name) users)
    = users ++ [signup_document bcrypt_hash env (field_string email)
                  (field_string password) (field_string name)].
Proof.
  intros Hv Hfree Hid.
  exact (proj1 (signup_creates bcrypt_hash jwt_sign env email password name users
                  Hv Hfree Hid)).
Qed.

Lemma new_code_lookup (env later : Env) (email password name : string)
  (users : User.Collection) :
  (forall v, In v users ->
             User.verificationToken v <> Some (generateVerificationToken env)) ->
  User.findOne
    [User.VerificationTokenIs (Some (generateVerificationToken env));
     User.VerificationTokenExpiresAt_gt (Date_now later)]
    (users ++ [signup_document bcrypt_hash env email password name])
  = if Date_now later <? Date_now env + 86400000
    then Some (signup_document bcrypt_hash env email password name)
    else None.
Proof.
  intros Hunheld. rewrite findOne_app.
  rewrite (unheld_verification_code_not_found (Date_now later) _ users Hunheld).
  simpl. rewrite String.eqb_refl. simpl. rewrite andb_true_r.
  change (24 * 60 * 60 * 1000) with 86400000. reflexivity.
Qed.

(** A verify-email request with the new code, on the collection a signup
    left, before the deadline. *)
Lemma new_account_verified (env later : Env) (email password name : string)
  (users : User.Collection) :
  ~ In (new_ObjectId env) (ids users) ->
  (forall v, In v users ->
             User.verificationToken v <> Some (generateVerificationToken env)) ->
  Date_now later < Date_now env + 86400000 ->
  let user := signup_document bcrypt_hash env email password name in
  let r := run (verifyEmail jwt_sign later (Some (generateVerificationToken env)))
               (users ++ [user]) in
  users_after r = users ++ [verified_document user] /\
  (mailtrap_up later = true -> status_of r = Some 200).
Proof.
  intros Hid Hunheld Htime user r.
  assert (Hfind := new_code_lookup env later email password name users Hunheld).
  apply Z.ltb_lt in Htime. rewrite Htime in Hfind.
  destruct (verifyEmail_match jwt_sign later _ _ _ Hfind) as [Hdb Hreply].
  fold user in Hdb, Hreply. fold r in Hdb, Hreply. split.
  - rewrite Hdb. apply save_last; [reflexivity | exact Hid].
  - intros Hup. unfold status_of. rewrite Hreply, Hup. reflexivity.
Qed.

(** X5. The code mailed at signup verifies the new account during the
    24 hours after the signup and not afterwards. Before the deadline a
    verify-email request with the code turns the new record into a verified
    one without code or expiry (other records are untouched) and answers 200
    when the welcome mail can be sent; from the deadline on the same request
    is answered 400 "Invalid or expired verification code." and writes
    nothing. No earlier record may hold the same code. *)
Theorem verification_code_works_for_24_hours
  (env later : Env) (email password name : option string)
  (users : User.Collection) :
  valid_signup email password name ->
  User.findOne [User.EmailIs email] users = None ->
  ~ In (new_ObjectId env) (ids users) ->
  (forall v, In v users ->
             User.verificationToken v <> Some (generateVerificationToken env)) ->
  let user := signup_document bcrypt_hash env (field_string email)
                (field_string password) (field_string name) in
  let registered :=
    users_after (run (signup bcrypt_hash jwt_sign env email password name) users) in
  let r := run (verifyEmail jwt_sign later (Some (generateVerificationToken env)))
               registered in
  (Date_now later < Date_now env + 86400000 ->
   users_after r = users ++ [verified_document user] /\
   (mailtrap_up later = true -> status_of r = Some 200)) /\
  (Date_now env + 86400000 <= Date_now later ->
   reply_of r = Normal (failure 400 "Invalid or expired verification code.") /\
   users_after r = registered).
Proof.
  intros Hv Hfree Hid Hunheld user registered r.
  assert (Hreg : registered = users ++ [user])
    by (apply signup_registers; assumption).
  assert (Hfind := new_code_lookup env later (field_string email)
                     (field_string password) (field_string name) users Hunheld).
  fold user in Hfind. rewrite <- Hreg in Hfind.
  split; intros Htime.
  - subst r. rewrite Hreg.
    exact (new_account_verified env later _ _ _ users Hid Hunheld Htime).
  - apply Z.ltb_ge in Htime. rewrite Htime in Hfind.
    subst r. rewrite (verifyEmail_no_match jwt_sign later _ _ Hfind).
    split; reflexivity.
Qed.

(** X6. The account created by a signup cannot log in with its own password
    before it is verified (403) and can afterwards: once the mailed code has
    been accepted, a login with the signup email and password is answered
    200 and gets the session cookie of the new account, given that
    [bcrypt.compare] accepts the password against the hash made of it. *)
Theorem registration_then_login
  (env later env' : Env) (email password name : option string)
  (users : User.Collection) :
  valid_signup email password name ->
  User.findOne [User.EmailIs email] users = None ->
  ~ In (new_ObjectId env) (ids users) ->
  (forall v, In v users ->
             User.verificationToken v <> Some (generateVerificationToken env)) ->
  Date_now later < Date_now env + 86400000 ->
  bcrypt_compare (field_string password)
    (bcrypt_hash (field_string password) (bcrypt_salt env)) = true ->
  let registered :=
    users_after (run (signup bcrypt_hash jwt_sign env email password name) users) in
  let verified :=
    users_after (run (verifyEmail jwt_sign later
                        (Some (generateVerificationToken env))) registered) in
  reply_of (run (login bcrypt_compare jwt_sign env' email password) registered)
    = Normal (failure 403 "Please verify your email before logging in.") /\
  status_of (run (login bcrypt_compare jwt_sign env' email password) verified)
    = Some 200 /\
  cookies_of (run (login bcrypt_compare jwt_sign env' email password) verified)
    = [session_cookie jwt_sign env' (new_ObjectId env)].
Proof.
  intros Hv Hfree Hid Hunheld Htime Hcompare registered verified.
  pose (user := signup_document bcrypt_hash env (field_string email)
                  (field_string password) (field_string name)).
  assert (Hreg : registered = users ++ [user])
    by (apply signup_registers; assumption).
  assert (Hver : verified = users ++ [verified_document user]).
  { subst verified. rewrite Hreg.
    exact (proj1 (new_account_verified env later _ _ _ users Hid Hunheld Htime)). }
  destruct Hv as (He & Hp & Hn & Hlen).
  assert (Hs : submitted email password) by (split; assumption).
  destruct (truthy_Some _ He) as [e [-> _]].
  assert (Hfind : forall d, User.email d = e ->
            User.findOne [User.EmailIs (Some e)] (users ++ [d]) = Some d).
  { intros d Hd. rewrite findOne_app, Hfree. simpl.
    rewrite Hd, String.eqb_refl. reflexivity. }
  split.
  - rewrite Hreg.
    rewrite (login_unverified bcrypt_compare jwt_sign env' _ _ _ user Hs
               (Hfind user eq_refl) eq_refl).
    reflexivity.
  - rewrite Hver.
    rewrite (login_accepted bcrypt_compare jwt_sign env' (Some e) password
               (users ++ [verified_document user]) (verified_document user) Hs
               (Hfind (verified_document user) eq_refl) eq_refl Hcompare).
    split; reflexivity.
Qed.

End Registration.

Lemma sample_free_id (i : ObjectId) :
  (3 < i)%N -> ~ In i (ids Sample.users).
Proof.
  intros Hi [H|[H|[H|[]]]]; simpl in H; subst i; vm_compute in Hi; discriminate.
Qed.

Lemma sample_code_unheld (code : string) :
  code <> "482913" ->
  forall v, In v Sample.users -> User.verificationToken v <> Some code.
Proof.
  intros Hc v [<-|[<-|[<-|[]]]]; simpl; congruence.
Qed.

Lemma signup_success_witness :
  let env := Sample.env_at Sample.t0 23456%N 4%N true in
  let r := run (signup Sample.bcrypt_hash Sample.jwt_sign env
                  (Some "dave@x.com") (Some "Passw0rd!") (Some "Dave"))
               Sample.users in
  status_of r = Some 201 /\
  mails_of r = [VerificationMail "dave@x.com" "123456"] /\
  map User.email (users_after r)
    = ["alice@x.com"; "bob@x.com"; "carol@x.com"; "dave@x.com"].
Proof.
  destruct (signup_success Sample.bcrypt_hash Sample.jwt_sign
              (Sample.env_at Sample.t0 23456%N 4%N true)
              (Some "dave@x.com") (Some "Passw0rd!") (Some "Dave") Sample.users)
    as (Hreply & Hdb & _ & Hmail & _).
  - repeat split. simpl. lia.
  - reflexivity.
  - apply sample_free_id. reflexivity.
  - reflexivity.
  - split; [unfold status_of; rewrite Hreply; reflexivity|].
    split; [exact Hmail|]. rewrite Hdb. reflexivity.
Defined.

Lemma verification_code_works_for_24_hours_witness :
  let env := Sample.env_at Sample.t0 23456%N 4%N true in
  let registered :=
    users_after (run (signup Sample.bcrypt_hash Sample.jwt_sign env
                        (Some "dave@x.com") (Some "Passw0rd!") (Some "Dave"))
                     Sample.users) in
  let verify now :=
    run (verifyEmail Sample.jwt_sign (Sample.env_at now 0%N 9%N true)
           (Some "123456")) registered in
  map User.isVerified (users_after (verify (Sample.t0 + 23 * Sample.one_hour)))
    = [true; false; true; true] /\
  status_of (verify (Sample.t0 + 23 * Sample.one_hour)) = Some 200 /\
  reply_of (verify (Sample.t0 + 24 * Sample.one_hour))
    = Normal (failure 400 "Invalid or expired verification code.").
Proof.
  intros env registered verify.
  assert (Hvalid : valid_signup (Some "dave@x.com") (Some "Passw0rd!") (Some "Dave"))
    by (repeat split; simpl; lia).
  assert (Hcode : "123456" <> "482913") by discriminate.
  destruct (verification_code_works_for_24_hours Sample.bcrypt_hash Sample.jwt_sign
              env (Sample.env_at (Sample.t0 + 23 * Sample.one_hour) 0%N 9%N true)
              (Some "dave@x.com") (Some "Passw0rd!") (Some "Dave") Sample.users
              Hvalid eq_refl (sample_free_id 4%N eq_refl)
              (sample_code_unheld "123456" Hcode)) as [Hbefore _].
  destruct (verification_code_works_for_24_hours Sample.bcrypt_hash Sample.jwt_sign
              env (Sample.env_at (Sample.t0 + 24 * Sample.one_hour) 0%N 9%N true)
              (Some "dave@x.com") (Some "Passw0rd!") (Some "Dave") Sample.users
              Hvalid eq_refl (sample_free_id 4%N eq_refl)
              (sample_code_unheld "123456" Hcode)) as [_ Hafter].
  destruct Hbefore as [Hdb Hstatus]; [vm_compute; reflexivity|].
  destruct Hafter as [Hreply _]; [vm_compute; discriminate|].
  split; [|split].
  - refine (eq_trans (f_equal (map User.isVerified) Hdb) _).
    vm_compute. reflexivity.
  - exact (Hstatus eq_refl).
  - exact Hreply.
Defined.

Lemma registration_then_login_witness :
  let env := Sample.env_at Sample.t0 23456%N 4%N true in
  let later := Sample.env_at (Sample.t0 + Sample.one_hour) 0%N 9%N true in
  let registered :=
    users_after (run (signup Sample.bcrypt_hash Sample.jwt_sign env
                        (Some "dave@x.com") (Some "Passw0rd!") (Some "Dave"))
                     Sample.users) in
  let verified :=
    users_after (run (verifyEmail Sample.jwt_sign later (Some "123456"))
                     registered) in
  let attempt users :=
    run (login Sample.bcrypt_compare Sample.jwt_sign later
           (Some "dave@x.com") (Some "Passw0rd!")) users in
  reply_of (attempt registered)
    = Normal (failure 403 "Please verify your email before logging in.") /\
  status_of (attempt verified) = Some 200 /\
  cookies_of (attempt verified) = [session_cookie Sample.jwt_sign later 4%N].
Proof.
  apply (registration_then_login Sample.bcrypt_hash Sample.bcrypt_compare
           Sample.jwt_sign
           (Sample.env_at Sample.t0 23456%N 4%N true)
           (Sample.env_at (Sample.t0 + Sample.one_hour) 0%N 9%N true)
           (Sample.env_at (Sample.t0 + Sample.one_hour) 0%N 9%N true)
           (Some "dave@x.com") (Some "Passw0rd!") (Some "Dave") Sample.users).
  - repeat split. simpl. lia.
  - reflexivity.
  - apply sample_free_id. reflexivity.
  - apply sample_code_unheld. discriminate.
  - vm_compute. reflexivity.
  - vm_compute. reflexivity.
Defined.

(** ** Saving a record and finding it again *)

Lemma findOne_save_only (q : User.Filter) (u : User.Document)
  (users : User.Collection) :
  NoDup (ids users) ->
  In (User._id u) (ids users) ->
  (forall v, In v users -> User._id v <> User._id u -> User.matches q v = false) ->
  User.findOne q (User.save u users) = if User.matches q u then Some u else None.
Proof.
  unfold User.findOne.
  induction users as [|v users IH]; simpl; [tauto|].
  intros Hnd Hin Hothers. inversion Hnd as [|? ? Hv Hnd']; subst.
  unfold User.save. fold User.save.
  destruct (N.eqb_spec (User._id v) (User._id u)) as [E|E]; simpl.
  - destruct (User.matches q u); [reflexivity|].
    apply (proj2 (findOne_None q users)). intros w Hw. apply Hothers; [now right|].
    intros Hid. apply Hv. rewrite E, <- Hid. now apply In_ids.
  - rewrite (Hothers v (or_introl eq_refl) E).
    apply IH; [assumption| |].
    + destruct Hin as [Hin|Hin]; [contradiction|assumption].
    + intros w Hw. apply Hothers. now right.
Qed.

Lemma findOne_email_save (e : option string) (u u' : User.Document)
  (users : User.Collection) :
  NoDup (ids users) ->
  User.findOne [User.EmailIs e] users = Some u ->
  User._id u' = User._id u ->
  User.email u' = User.email u ->
  User.findOne [User.EmailIs e] (User.save u' users) = Some u'.
Proof.
  unfold User.findOne.
  induction users as [|v users IH]; cbn [List.find]; [discriminate|].
  intros Hnd Hfound Hid Hemail. inversion Hnd as [|? ? Hv Hnd']; subst.
  unfold User.save. fold User.save.
  destruct (User.matches [User.EmailIs e] v) eqn:Hm.
  - injection Hfound as ->. rewrite Hid, N.eqb_refl. cbn [List.find].
    replace (User.matches [User.EmailIs e] u') with true; [reflexivity|].
    rewrite <- Hm. unfold User.matches. simpl. now rewrite Hemail.
  - destruct (N.eqb_spec (User._id v) (User._id u')) as [E|E]; cbn [List.find].
    + exfalso. apply Hv. unfold ids in *. cbn [map] in *. rewrite E, Hid.
      apply In_ids. exact (proj1 (find_some _ _ Hfound)).
    + rewrite Hm. now apply IH.
Qed.

Lemma save_save (u u' : User.Document) (users : User.Collection) :
  User._id u' = User._id u ->
  User.save u' (User.save u users) = User.save u' users.
Proof.
  intros Hid. induction users as [|v users IH]; [reflexivity|].
  unfold User.save. fold User.save. rewrite Hid.
  destruct (N.eqb_spec (User._id v) (User._id u)) as [E|E].
  - unfold User.save. fold User.save. rewrite Hid, N.eqb_refl. reflexivity.
  - unfold User.save. fold User.save. rewrite Hid.
    destruct (N.eqb_spec (User._id v) (User._id u)); [contradiction|].
    f_equal. exact IH.
Qed.

(** ** Verification and the welcome mail *)

Section VerifyEmail.

Variable jwt_sign : ObjectId -> Z -> string.

(** The whole run of a verify-email request whose code is found. *)
Lemma verifyEmail_found (env : Env) (code : option string)
  (users : User.Collection) (user : User.Document) :
  User.findOne [User.VerificationTokenIs code;
                User.VerificationTokenExpiresAt_gt (Date_now env)] users = Some user ->
  run (verifyEmail jwt_sign env code) users =
    if mailtrap_up env
    then (Normal (mkReply 200
                    (mkJson true "Email verified successfully."
                       (UserPayload
                          [("_id", JsObjectId (User._id user));
                           ("name", JsString (User.name user));
                           ("email", JsString (User.email user));
                           ("isVerified", JsBoolean true)]))),
          mkWorld (User.save (verified_document user) users)
                  [session_cookie jwt_sign env (User._id user)]
                  [console_log_line "User verified";
                   console_log_line "Welcome email sent successfully";
                   console_log_line "Welcome email sent"]
                  [WelcomeMail (User.email user) (User.name user)])
    else (Normal (failure 500 "Server error during email verification."),
          mkWorld (User.save (verified_document user) users) []
                  [console_log_line "User verified";
                   console_error_line
                     "Error sending welcome email: mailtrap: request failed";
                   console_error_line
                     "Email verification error: Failed to send welcome email"]
                  []).
Proof.
  intros Hsome.
  unfold verifyEmail, run, sendWelcomeEmail, generateTokenAndSetCookie.
  exec. rewrite Hsome. exec.
  destruct (mailtrap_up env); exec; reflexivity.
Qed.

(** X7. When the code of a verify-email request is found but the welcome
    mail cannot be sent, the answer is 500 and no session cookie is set,
    yet the record has already been saved as verified with its code and
    expiry cleared, so the code cannot be used again to obtain the cookie.
    With the transport up the answer is 200, the cookie is set for the
    verified user and one welcome mail goes to the user's address. *)
Theorem verifyEmail_welcome_mail_failure
  (env : Env) (code : option string) (users : User.Collection)
  (user : User.Document) :
  User.findOne [User.VerificationTokenIs code;
                User.VerificationTokenExpiresAt_gt (Date_now env)] users = Some user ->
  let r := run (verifyEmail jwt_sign env code) users in
  users_after r = User.save (verified_document user) users /\
  User.findById (User._id user) (users_after r) = Some (verified_document user) /\
  (mailtrap_up env = false ->
   reply_of r = Normal (failure 500 "Server error during email verification.") /\
   cookies_of r = [] /\ mails_of r = []) /\
  (mailtrap_up env = true ->
   status_of r = Some 200 /\
   cookies_of r = [session_cookie jwt_sign env (User._id user)] /\
   mails_of r = [WelcomeMail (User.email user) (User.name user)]).
Proof.
  intros Hsome r. subst r. rewrite (verifyEmail_found env code users user Hsome).
  assert (Hin : In (User._id (verified_document user)) (ids users)).
  { simpl. apply In_ids. exact (proj1 (findOne_Some _ _ _ Hsome)). }
  destruct (mailtrap_up env); (split; [reflexivity|]);
    (split; [exact (findById_save (verified_document user) users Hin)|]);
    split; intros H; try discriminate; repeat split.
Qed.

End VerifyEmail.

Lemma verifyEmail_welcome_mail_failure_witness :
  let env := Sample.env_at Sample.t0 0%N 9%N false in
  let r := run (verifyEmail Sample.jwt_sign env (Some "482913")) Sample.users in
  reply_of r = Normal (failure 500 "Server error during email verification.") /\
  cookies_of r = [] /\
  User.findById 2%N (users_after r) = Some (verified_document Sample.bob).
Proof.
  destruct (verifyEmail_welcome_mail_failure Sample.jwt_sign
              (Sample.env_at Sample.t0 0%N 9%N false) (Some "482913")
              Sample.users Sample.bob eq_refl) as (_ & Hfind & Hdown & _).
  destruct (Hdown eq_refl) as (Hreply & Hcookie & _).
  split; [exact Hreply|]. split; [exact Hcookie | exact Hfind].
Defined.

(** ** Password recovery *)

Section Recovery.

Variable bcrypt_hash : string -> string -> string.
Variable bcrypt_compare : string -> string -> bool.
Variable jwt_sign : ObjectId -> Z -> string.

(** The whole run of a forgot-password request for a known email. *)
Lemma forgotPassword_found (env : Env) (email : option string)
  (users : User.Collection) (user : User.Document) :
  User.findOne [User.EmailIs email] users = Some user ->
  let saved := forgot_document (crypto_randomBytes env)
                 (Date_now env + 3600000) user in
  run (forgotPassword env email) users =
    if mailtrap_up env
    then (Normal (mkReply 200
                    (mkJson true "Reset password email sent successfully."
                            NoPayload)),
          mkWorld (User.save saved users) []
                  [console_log_line (crypto_randomBytes env);
                   console_log_line "Password reset email sent successfully"]
                  [PasswordResetMail (User.email user)
                     (CLIENT_URL env ++ "/reset-password/" ++ crypto_randomBytes env)])
    else (Normal (failure 500 "Server error during forgot password."),
          mkWorld (User.save saved users) []
                  [console_log_line (crypto_randomBytes env);
                   console_error_line
                     "Error sending password reset email: mailtrap: request failed";
                   console_error_line
                     "Forgot password error: Failed to send password reset email"]
                  []).
Proof.
  intros Hsome saved. subst saved.
  unfold forgotPassword, run, sendPasswordResetEmail.
  exec. rewrite Hsome. exec.
  destruct (mailtrap_up env); exec; reflexivity.
Qed.

(** X8. Forgot-password answers 404 "No User Found With This Email" for an
    email that belongs to no record, writing and sending nothing. For a
    known email it saves a reset token that expires one hour later and
    leaves the rest of the record as it was; the body of the answer carries
    no payload, so the token is never returned to the caller, whether the
    mail could be sent (200) or not (500). The token goes out only in the
    link of the one reset mail, and is printed on the server console. *)
Theorem forgotPassword_behaviour
  (env : Env) (email : option string) (users : User.Collection) :
  let r := run (forgotPassword env email) users in
  (User.findOne [User.EmailIs email] users = None ->
   r = (Normal (failure 404 "No User Found With This Email"), fresh users)) /\
  (forall user,
     User.findOne [User.EmailIs email] users = Some user ->
     let saved := forgot_document (crypto_randomBytes env)
                    (Date_now env + 3600000) user in
     users_after r = User.save saved users /\
     User.findById (User._id user) (users_after r) = Some saved /\
     User.password saved = User.password user /\
     User.isVerified saved = User.isVerified user /\
     (exists reply, reply_of r = Normal reply /\ payload (json reply) = NoPayload /\
                    status reply = if mailtrap_up env then 200 else 500) /\
     cookies_of r = [] /\
     mails_of r =
       (if mailtrap_up env
        then [PasswordResetMail (User.email user)
                (CLIENT_URL env ++ "/reset-password/" ++ crypto_randomBytes env)]
        else []) /\
     In (console_log_line (crypto_randomBytes env)) (console_of r)).
Proof.
  intros r. subst r. split.
  - intros Hnone. unfold forgotPassword, run. exec. rewrite Hnone. reflexivity.
  - intros user Hsome saved.
    rewrite (forgotPassword_found env email users user Hsome). fold saved.
    assert (Hin : In (User._id saved) (ids users)).
    { simpl. apply In_ids. exact (proj1 (findOne_Some _ _ _ Hsome)). }
    destruct (mailtrap_up env);
      (split; [reflexivity|]);
      (split; [exact (findById_save saved users Hin)|]);
      (split; [reflexivity|]); (split; [reflexivity|]);
      (split; [eexists; repeat split|]);
      (split; [reflexivity|]); (split; [reflexivity|]); simpl; auto.
Qed.

(** The lookup of the token just issued, in the collection forgot-password
    left. *)
Lemma new_token_lookup (env later : Env) (users : User.Collection)
  (user : User.Document) :
  NoDup (ids users) ->
  In user users ->
  (forall v, In v users -> User.resetPasswordToken v <> Some (crypto_randomBytes env)) ->
  let saved := forgot_document (crypto_randomBytes env)
                 (Date_now env + 3600000) user in
  User.findOne [User.ResetPasswordTokenIs (Some (crypto_randomBytes env));
                User.ResetPasswordExpiresAt_gt (Date_now later)]
               (User.save saved users)
  = if Date_now later <? Date_now env + 3600000 then Some saved else None.
Proof.
  intros Hnd Hin Hunheld saved.
  rewrite (findOne_save_only _ saved users Hnd).
  - unfold User.matches. simpl. rewrite String.eqb_refl. simpl.
    now rewrite andb_true_r.
  - simpl. now apply In_ids.
  - intros v Hv _. unfold User.matches. simpl.
    destruct (User.option_string_eqb (User.resetPasswordToken v)
                (Some (crypto_randomBytes env))) eqn:E; [|reflexivity].
    apply option_string_eqb_eq in E. now apply Hunheld in E.
Qed.

(** The collection after forgot-password and then reset-password with the
    issued token, before the deadline. *)
Lemma recovered (env later : Env) (email password : option string)
  (users : User.Collection) (user : User.Document) :
  NoDup (ids users) ->
  User.findOne [User.EmailIs email] users = Some user ->
  (forall v, In v users -> User.resetPasswordToken v <> Some (crypto_randomBytes env)) ->
  valid_password password ->
  Date_now later < Date_now env + 3600000 ->
  let requested := users_after (run (forgotPassword env email) users) in
  let r := run (resetPassword bcrypt_hash later (crypto_randomBytes env) password)
               requested in
  let saved :=
    reset_document (bcrypt_hash (field_string password) (bcrypt_salt later)) user in
  users_after r = User.save saved users /\
  reply_of r =
    if mailtrap_up later
    then Normal (mkReply 200 (mkJson true "Password reset successfully." NoPayload))
    else Normal (failure 500 "Server error during password reset.").
Proof.
  intros Hnd Hsome Hunheld Hv Htime requested r saved.
  destruct (findOne_Some _ _ _ Hsome) as [Hin _].
  assert (Hreq : requested =
                 User.save (forgot_document (crypto_randomBytes env)
                              (Date_now env + 3600000) user) users).
  { subst requested. rewrite (forgotPassword_found env email users user Hsome).
    destruct (mailtrap_up env); reflexivity. }
  assert (Hfind := new_token_lookup env later users user Hnd Hin Hunheld).
  cbv zeta in Hfind. apply Z.ltb_lt in Htime. rewrite Htime, <- Hreq in Hfind.
  destruct (resetPassword_match bcrypt_hash later _ _ _ _ Hv Hfind)
    as (Hdb & _ & Hreply).
  fold r in Hdb, Hreply. split; [|exact Hreply].
  rewrite Hdb, Hreq. apply save_save. reflexivity.
Qed.

(** X9. The token issued by forgot-password resets the password during the
    hour after the request and not afterwards. Before the deadline a
    reset-password request with the token and a valid password replaces the
    stored hash of that account by the hash of the new password, clears the
    token and its expiry and leaves verification state, email and name as
    they were; from the deadline on the request is answered 400 "Invalid or
    expired reset token." and writes nothing. No other record may hold the
    same token. *)
Theorem reset_token_works_for_one_hour
  (env later : Env) (email password : option string)
  (users : User.Collection) (user : User.Document) :
  NoDup (ids users) ->
  User.findOne [User.EmailIs email] users = Some user ->
  (forall v, In v users -> User.resetPasswordToken v <> Some (crypto_randomBytes env)) ->
  valid_password password ->
  let requested := users_after (run (forgotPassword env email) users) in
  let r := run (resetPassword bcrypt_hash later (crypto_randomBytes env) password)
               requested in
  (Date_now later < Date_now env + 3600000 ->
   exists saved,
     User.findById (User._id user) (users_after r) = Some saved /\
     User.password saved = bcrypt_hash (field_string password) (bcrypt_salt later) /\
     User.resetPasswordToken saved = None /\
     User.resetPasswordExpiresAt saved = None /\
     User.isVerified saved = User.isVerified user /\
     User.email saved = User.email user /\
     User.name saved = User.name user /\
     (mailtrap_up later = true -> status_of r = Some 200)) /\
  (Date_now env + 3600000 <= Date_now later ->
   reply_of r = Normal (failure 400 "Invalid or expired reset token.") /\
   users_after r = requested).
Proof.
  intros Hnd Hsome Hunheld Hv requested r.
  destruct (findOne_Some _ _ _ Hsome) as [Hin _].
  split; intros Htime.
  - destruct (recovered env later email password users user Hnd Hsome Hunheld Hv
                Htime) as [Hdb Hreply].
    fold requested in Hdb, Hreply. fold r in Hdb, Hreply.
    eexists. split.
    + rewrite Hdb.
      apply (findById_save
               (reset_document (bcrypt_hash (field_string password)
                                  (bcrypt_salt later)) user) users).
      simpl. now apply In_ids.
    + repeat split. intros Hup. unfold status_of. rewrite Hreply, Hup. reflexivity.
  - assert (Hreq : requested =
                   User.save (forgot_document (crypto_randomBytes env)
                                (Date_now env + 3600000) user) users).
    { subst requested. rewrite (forgotPassword_found env email users user Hsome).
      destruct (mailtrap_up env); reflexivity. }
    assert (Hfind := new_token_lookup env later users user Hnd Hin Hunheld).
    cbv zeta in Hfind. apply Z.ltb_ge in Htime. rewrite Htime, <- Hreq in Hfind.
    subst r. rewrite (resetPassword_no_match bcrypt_hash later _ _ _ Hv Hfind).
    split; reflexivity.
Qed.

(** X10. After a password has been reset through forgot-password and
    reset-password, a verified account logs in with the new password
    (given that [bcrypt.compare] accepts it against the hash made of it)
    and is refused with 401 "Invalid email or password." for any password
    that [bcrypt.compare] rejects against the new hash, the old one
    included. *)
Theorem recovered_account_logs_in_with_new_password
  (env later env' : Env) (email password attempt : option string)
  (users : User.Collection) (user : User.Document) :
  NoDup (ids users) ->
  User.findOne [User.EmailIs email] users = Some user ->
  User.isVerified user = true ->
  (forall v, In v users -> User.resetPasswordToken v <> Some (crypto_randomBytes env)) ->
  valid_password password ->
  Date_now later < Date_now env + 3600000 ->
  truthy email = true ->
  truthy attempt = true ->
  let hashedPassword := bcrypt_hash (field_string password) (bcrypt_salt later) in
  bcrypt_compare (field_string password) hashedPassword = true ->
  bcrypt_compare (field_string attempt) hashedPassword = false ->
  let requested := users_after (run (forgotPassword env email) users) in
  let recovered_users :=
    users_after (run (resetPassword bcrypt_hash later (crypto_randomBytes env)
                        password) requested) in
  status_of (run (login bcrypt_compare jwt_sign env' email password) recovered_users)
    = Some 200 /\
  reply_of (run (login bcrypt_compare jwt_sign env' email attempt) recovered_users)
    = Normal (failure 401 "Invalid email or password.").
Proof.
  intros Hnd Hsome Hver Hunheld Hv Htime He Ha hashedPassword Hnew Hold
    requested recovered_users.
  assert (Hdb : recovered_users = User.save (reset_document hashedPassword user) users).
  { exact (proj1 (recovered env later email password users user Hnd Hsome Hunheld
                    Hv Htime)). }
  assert (Hfind : User.findOne [User.EmailIs email] recovered_users
                  = Some (reset_document hashedPassword user)).
  { rewrite Hdb. apply (findOne_email_save email user); auto. }
  split.
  - rewrite (login_accepted bcrypt_compare jwt_sign env' email password
               recovered_users (reset_document hashedPassword user)
               (conj He (proj1 Hv)) Hfind Hver Hnew).
    reflexivity.
  - rewrite (login_wrong_password bcrypt_compare jwt_sign env' email attempt
               recovered_users (reset_document hashedPassword user)
               (conj He Ha) Hfind Hver Hold).
    reflexivity.
Qed.

End Recovery.

Lemma sample_token_unheld (token : string) :
  token <> "9f86d081884c7d659a2feaa0c55ad015a3bf4f1b" ->
  forall v, In v Sample.users -> User.resetPasswordToken v <> Some token.
Proof.
  intros Hc v [<-|[<-|[<-|[]]]]; simpl; congruence.
Qed.

Lemma forgotPassword_behaviour_witness :
  let env := Sample.env_at Sample.t0 0%N 9%N true in
  run (forgotPassword env (Some "mallory@x.com")) Sample.users
    = (Normal (failure 404 "No User Found With This Email"), fresh Sample.users) /\
  mails_of (run (forgotPassword env (Some "alice@x.com")) Sample.users)
    = [PasswordResetMail "alice@x.com"
         "http://localhost:5173/reset-password/5f4dcc3b5aa765d61d8327deb882cf99a1b2c3d4"].
Proof.
  split.
  - apply (proj1 (forgotPassword_behaviour (Sample.env_at Sample.t0 0%N 9%N true)
                    (Some "mallory@x.com") Sample.users)).
    reflexivity.
  - destruct (proj2 (forgotPassword_behaviour (Sample.env_at Sample.t0 0%N 9%N true)
                       (Some "alice@x.com") Sample.users) Sample.alice eq_refl)
      as (_ & _ & _ & _ & _ & _ & Hmail & _).
    exact Hmail.
Defined.

Lemma reset_token_works_for_one_hour_witness :
  let env := Sample.env_at Sample.t0 0%N 9%N true in
  let requested :=
    users_after (run (forgotPassword env (Some "alice@x.com")) Sample.users) in
  let reset now :=
    run (resetPassword Sample.bcrypt_hash (Sample.env_at now 0%N 9%N true)
           "5f4dcc3b5aa765d61d8327deb882cf99a1b2c3d4" (Some "new-Passw0rd"))
        requested in
  (exists saved,
     User.findById 1%N (users_after (reset (Sample.t0 + 59 * 60 * 1000))) = Some saved /\
     User.password saved = "$2b$12$N9qo8uLOickgx2ZMRZoMye.new-Passw0rd") /\
  reply_of (reset (Sample.t0 + Sample.one_hour))
    = Normal (failure 400 "Invalid or expired reset token.").
Proof.
  intros env requested reset.
  assert (Htoken : "5f4dcc3b5aa765d61d8327deb882cf99a1b2c3d4"
                   <> "9f86d081884c7d659a2feaa0c55ad015a3bf4f1b") by discriminate.
  assert (Hvalid : valid_password (Some "new-Passw0rd"))
    by (split; [reflexivity | simpl; lia]).
  split.
  - destruct (proj1 (reset_token_works_for_one_hour Sample.bcrypt_hash env
                       (Sample.env_at (Sample.t0 + 59 * 60 * 1000) 0%N 9%N true)
                       (Some "alice@x.com") (Some "new-Passw0rd")
                       Sample.users Sample.alice sample_users_have_unique_ids
                       eq_refl (sample_token_unheld _ Htoken) Hvalid))
      as (saved & Hfind & Hpw & _).
    + vm_compute. reflexivity.
    + exists saved. split; [exact Hfind | exact Hpw].
  - apply (proj2 (reset_token_works_for_one_hour Sample.bcrypt_hash env
                    (Sample.env_at (Sample.t0 + Sample.one_hour) 0%N 9%N true)
                    (Some "alice@x.com") (Some "new-Passw0rd")
                    Sample.users Sample.alice sample_users_have_unique_ids
                    eq_refl (sample_token_unheld _ Htoken) Hvalid)).
    vm_compute. discriminate.
Defined.

Lemma recovered_account_logs_in_with_new_password_witness :
  let env := Sample.env_at Sample.t0 0%N 9%N true in
  let later := Sample.env_at (Sample.t0 + 59 * 60 * 1000) 0%N 9%N true in
  let requested :=
    users_after (run (forgotPassword env (Some "alice@x.com")) Sample.users) in
  let recovered_users :=
    users_after (run (resetPassword Sample.bcrypt_hash later
                        "5f4dcc3b5aa765d61d8327deb882cf99a1b2c3d4"
                        (Some "new-Passw0rd")) requested) in
  status_of (run (login Sample.bcrypt_compare Sample.jwt_sign later
                    (Some "alice@x.com") (Some "new-Passw0rd")) recovered_users)
    = Some 200 /\
  reply_of (run (login Sample.bcrypt_compare Sample.jwt_sign later
                   (Some "alice@x.com") (Some "Passw0rd!")) recovered_users)
    = Normal (failure 401 "Invalid email or password.").
Proof.
  assert (Htoken : "5f4dcc3b5aa765d61d8327deb882cf99a1b2c3d4"
                   <> "9f86d081884c7d659a2feaa0c55ad015a3bf4f1b") by discriminate.
  apply (recovered_account_logs_in_with_new_password Sample.bcrypt_hash
           Sample.bcrypt_compare Sample.jwt_sign
           (Sample.env_at Sample.t0 0%N 9%N true)
           (Sample.env_at (Sample.t0 + 59 * 60 * 1000) 0%N 9%N true)
           (Sample.env_at (Sample.t0 + 59 * 60 * 1000) 0%N 9%N true)
           (Some "alice@x.com") (Some "new-Passw0rd") (Some "Passw0rd!")
           Sample.users Sample.alice sample_users_have_unique_ids eq_refl eq_refl
           (sample_token_unheld _ Htoken)).
  - split; [reflexivity | simpl; lia].
  - vm_compute. reflexivity.
  - reflexivity.
  - reflexivity.
  - vm_compute. reflexivity.
  - vm_compute. reflexivity.
Defined.

(** ** The hourly sweep *)

Lemma expired_unverified_spec (now : Z) (u : User.Document) :
  User.matches [User.IsVerifiedIs false; User.VerificationTokenExpiresAt_lt now] u
    = true <->
  User.isVerified u = false /\
  exists e, User.verificationTokenExpiresAt u = Some e /\ e < now.
Proof.
  unfold User.matches. simpl. rewrite andb_true_r, andb_true_iff. split.
  - intros [Hv He]. split.
    + destruct (User.isVerified u); [discriminate | reflexivity].
    + destruct (User.verificationTokenExpiresAt u) as [e|]; [|discriminate].
      exists e. split; [reflexivity | now apply Z.ltb_lt].
  - intros [Hv (e & He & Hlt)]. rewrite Hv, He. split; [reflexivity|].
    now apply Z.ltb_lt.
Qed.

Lemma filter_filter_weaker {A : Type} (p q : A -> bool) (l : list A) :
  (forall x, q x = true -> p x = true) ->
  filter q (filter p l) = filter q l.
Proof.
  intros H. induction l as [|x l IH]; simpl; [reflexivity|].
  destruct (p x) eqn:Hp; simpl.
  - now rewrite IH.
  - destruct (q x) eqn:Hq; [|exact IH].
    apply H in Hq. congruence.
Qed.

(** X11. The sweep removes exactly the records that are unverified and whose
    verification expiry lies before the time of the sweep: every other
    record, in particular every verified one and every record without an
    expiry, stays as it is. Sweeping twice at the same time changes nothing
    more, and a sweep followed by a later sweep leaves what the later sweep
    alone would leave. The sweep sets no cookie and sends no mail. *)
Theorem sweep_removes_exactly_the_expired_unverified
  (env later : Env) (users : User.Collection) :
  let swept := users_after (run (sweep env) users) in
  (forall u,
     In u swept <->
     In u users /\
     ~ (User.isVerified u = false /\
        exists e, User.verificationTokenExpiresAt u = Some e /\ e < Date_now env)) /\
  users_after (run (sweep env) swept) = swept /\
  (Date_now env <= Date_now later ->
   users_after (run (sweep later) swept) = users_after (run (sweep later) users)) /\
  cookies_of (run (sweep env) users) = [] /\
  mails_of (run (sweep env) users) = [].
Proof.
  intros swept. subst swept. rewrite !sweep_deletes.
  split; [|split; [|split]].
  - intros u. unfold User.deleteMany. rewrite filter_In.
    rewrite <- expired_unverified_spec.
    destruct (User.matches _ u); simpl; split; intros [H1 H2]; split; auto;
      try discriminate.
  - unfold User.deleteMany.
    apply filter_filter_weaker. auto.
  - intros Htime. unfold User.deleteMany.
    apply filter_filter_weaker. intros u Hlater.
    apply negb_true_iff. apply negb_true_iff in Hlater.
    destruct (User.matches [User.IsVerifiedIs false;
                            User.VerificationTokenExpiresAt_lt (Date_now env)] u)
      eqn:Hnow; [|reflexivity].
    apply expired_unverified_spec in Hnow as [Hv (e & He & Hlt)].
    assert (Hm : User.matches [User.IsVerifiedIs false;
                               User.VerificationTokenExpiresAt_lt (Date_now later)] u
                 = true).
    { apply expired_unverified_spec. split; [assumption|]. exists e. split; [assumption|lia]. }
    congruence.
  - unfold sweep. exec.
    destruct (User.find _ users); simpl; split; reflexivity.
Qed.

Lemma sweep_removes_exactly_the_expired_unverified_witness :
  let env := Sample.env_at (Sample.t0 + 24 * Sample.one_hour) 0%N 9%N true in
  let later := Sample.env_at (Sample.t0 + 48 * Sample.one_hour) 0%N 9%N true in
  let swept := users_after (run (sweep env) Sample.users) in
  In Sample.alice swept /\
  users_after (run (sweep later) swept) = users_after (run (sweep later) Sample.users).
Proof.
  intros env later swept.
  destruct (sweep_removes_exactly_the_expired_unverified env later Sample.users)
    as (Hin & _ & Hlater & _).
  split.
  - apply Hin. split; [now left|]. intros [H _]. discriminate.
  - apply Hlater. vm_compute. discriminate.
Defined.

(** ** The session check *)

Section CheckAuth.

Variable bcrypt_compare : string -> string -> bool.
Variable jwt_sign : ObjectId -> Z -> string.
Variable jwt_verify : string -> Z -> JwtVerdict.

Lemma checkAuth_decoded (env : Env) (cookie_token : option string)
  (userId : ObjectId) (users : User.Collection) :
  truthy cookie_token = true ->
  jwt_verify (field_string cookie_token) (Date_now env) = Decoded userId ->
  run (verifyToken jwt_verify env cookie_token checkAuth) users =
    (match User.findById userId users with
     | Some user =>
         Normal (mkReply 200
                   (mkJson true "User is authenticated"
                      (UserPayload (js_set "password" JsUndefined (User._doc user)))))
     | None => Normal (failure 401 "Unauthorized. Please login to continue.")
     end, fresh users).
Proof.
  intros Ht Hd. unfold verifyToken, checkAuth, run. rewrite Ht, Hd. exec.
  destruct (User.findById userId users); reflexivity.
Qed.

(** X12. A check-auth request whose token decodes to a user identifier never
    writes, sets no cookie and sends no mail. When a record with that
    identifier exists the answer is 200 with that record's fields as stored
    and without the password; when none exists (the account was deleted
    after the token was issued) the answer is 401 "Unauthorized. Please
    login to continue.", the same answer as for a request without token. *)
Theorem checkAuth_reports_the_stored_record
  (env : Env) (cookie_token : option string) (userId : ObjectId)
  (users : User.Collection) :
  truthy cookie_token = true ->
  jwt_verify (field_string cookie_token) (Date_now env) = Decoded userId ->
  let r := run (verifyToken jwt_verify env cookie_token checkAuth) users in
  users_after r = users /\ cookies_of r = [] /\ mails_of r = [] /\
  (User.findById userId users = None ->
   reply_of r = reply_of (run (verifyToken jwt_verify env None checkAuth) users) /\
   reply_of r = Normal (failure 401 "Unauthorized. Please login to continue.")) /\
  (forall user,
     User.findById userId users = Some user ->
     exists o,
       reply_of r = Normal (mkReply 200 (mkJson true "User is authenticated"
                                           (UserPayload o))) /\
       User._id user = userId /\
       js_get "_id" (JSON_stringify o) = JsObjectId userId /\
       js_get "email" (JSON_stringify o) = JsString (User.email user) /\
       js_get "name" (JSON_stringify o) = JsString (User.name user) /\
       js_get "isVerified" (JSON_stringify o) = JsBoolean (User.isVerified user) /\
       has_own_property "password" (JSON_stringify o) = false).
Proof.
  intros Ht Hd r. subst r. rewrite (checkAuth_decoded env _ userId users Ht Hd).
  split; [reflexivity|]. split; [reflexivity|]. split; [reflexivity|]. split.
  - intros Hnone. rewrite Hnone. split; reflexivity.
  - intros user Hsome. rewrite Hsome. eexists. split; [reflexivity|].
    assert (Hid : User._id user = userId).
    { unfold User.findById in Hsome. apply find_some in Hsome as [_ H].
      now apply N.eqb_eq in H. }
    split; [exact Hid|]. rewrite <- Hid.
    repeat split; try reflexivity.
    apply sanitized_omits_password.
Qed.

(** X13. The token of an account that the sweep has deleted is still
    accepted by the middleware but no longer opens a session: when an
    unverified record whose expiry has passed is swept, a check-auth request
    with a token for its identifier is answered 401 afterwards. *)
Theorem swept_account_token_is_refused
  (env later : Env) (cookie_token : option string) (users : User.Collection)
  (user : User.Document) :
  NoDup (ids users) ->
  In user users ->
  User.isVerified user = false ->
  (exists e, User.verificationTokenExpiresAt user = Some e /\ e < Date_now env) ->
  truthy cookie_token = true ->
  jwt_verify (field_string cookie_token) (Date_now later) = Decoded (User._id user) ->
  let swept := users_after (run (sweep env) users) in
  status_of (run (verifyToken jwt_verify later cookie_token checkAuth) users)
    = Some 200 /\
  reply_of (run (verifyToken jwt_verify later cookie_token checkAuth) swept)
    = Normal (failure 401 "Unauthorized. Please login to continue.").
Proof.
  intros Hnd Hin Hv Hexp Ht Hd swept.
  rewrite !(checkAuth_decoded later _ (User._id user) _ Ht Hd).
  split.
  - destruct (User.findById (User._id user) users) as [w|] eqn:E; [reflexivity|].
    unfold User.findById in E.
    assert (H := find_none _ _ E user Hin). simpl in H.
    rewrite N.eqb_refl in H. discriminate.
  - destruct (User.findById (User._id user) swept) as [w|] eqn:E; [|reflexivity].
    exfalso. unfold User.findById in E. apply find_some in E as [Hw Hid].
    apply N.eqb_eq in Hid. subst swept. rewrite sweep_deletes in Hw.
    unfold User.deleteMany in Hw. apply filter_In in Hw as [Hw Hkeep].
    assert (w = user) by (apply (same_id_same_document users); auto). subst w.
    assert (Hm := proj2 (expired_unverified_spec (Date_now env) user) (conj Hv Hexp)).
    rewrite Hm in Hkeep. discriminate.
Qed.

(** X14. The cookie set by a successful login opens the session: when the
    token in that cookie decodes to the identifier it was signed for, a
    check-auth request carrying it is answered 200 with the same user object
    the login answered with. *)
Theorem login_cookie_opens_the_session
  (env env' : Env) (email password : option string)
  (users : User.Collection) (user : User.Document) :
  submitted email password ->
  User.findOne [User.EmailIs email] users = Some user ->
  User.isVerified user = true ->
  bcrypt_compare (field_string password) (User.password user) = true ->
  let token := jwt_sign (User._id user) (Date_now env) in
  token <> "" ->
  jwt_verify token (Date_now env') = Decoded (User._id user) ->
  let logged := run (login bcrypt_compare jwt_sign env email password) users in
  (exists options, cookies_of logged = [SetCookie "token" token options]) /\
  (exists o,
     reply_of logged
       = Normal (mkReply 200 (mkJson true "Logged in successfully" (UserPayload o))) /\
     reply_of (run (verifyToken jwt_verify env' (Some token) checkAuth)
                   (users_after logged))
       = Normal (mkReply 200 (mkJson true "User is authenticated" (UserPayload o)))).
Proof.
  intros Hs Hsome Hv Hc token Hne Hd logged. subst logged.
  rewrite (login_accepted bcrypt_compare jwt_sign env email password users user
             Hs Hsome Hv Hc).
  split; [eexists; reflexivity|].
  eexists. split; [reflexivity|].
  assert (Ht : truthy (Some token) = true).
  { unfold truthy. destruct (String.eqb_spec token ""); [contradiction|reflexivity]. }
  rewrite (checkAuth_decoded env' (Some token) (User._id user) _ Ht Hd).
  unfold users_after. simpl.
  assert (Hf : User.findById (User._id user)
                 (User.save (logged_in_document (Date_now env) user) users)
               = Some (logged_in_document (Date_now env) user)).
  { apply (findById_save (logged_in_document (Date_now env) user) users).
    simpl. apply In_ids. exact (proj1 (findOne_Some _ _ _ Hsome)). }
  rewrite Hf. reflexivity.
Qed.

End CheckAuth.

Lemma checkAuth_reports_the_stored_record_witness :
  let env := Sample.env_at Sample.t0 0%N 9%N true in
  let r user_id :=
    run (verifyToken Sample.jwt_verify env
           (Some (Sample.jwt_sign user_id (Sample.t0 - Sample.one_hour))) checkAuth)
        Sample.users in
  reply_of (r 7%N) = Normal (failure 401 "Unauthorized. Please login to continue.") /\
  exists o,
    reply_of (r 1%N)
      = Normal (mkReply 200 (mkJson true "User is authenticated" (UserPayload o))) /\
    js_get "email" (JSON_stringify o) = JsString "alice@x.com" /\
    has_own_property "password" (JSON_stringify o) = false.
Proof.
  intros env r. split.
  - destruct (checkAuth_reports_the_stored_record Sample.jwt_verify env
                (Some (Sample.jwt_sign 7%N (Sample.t0 - Sample.one_hour))) 7%N
                Sample.users) as (_ & _ & _ & Hnone & _).
    + vm_compute. reflexivity.
    + vm_compute. reflexivity.
    + exact (proj2 (Hnone eq_refl)).
  - destruct (checkAuth_reports_the_stored_record Sample.jwt_verify env
                (Some (Sample.jwt_sign 1%N (Sample.t0 - Sample.one_hour))) 1%N
                Sample.users) as (_ & _ & _ & _ & Hsome).
    + vm_compute. reflexivity.
    + vm_compute. reflexivity.
    + destruct (Hsome Sample.alice eq_refl) as (o & Hr & _ & _ & He & _ & _ & Hp).
      exists o. split; [exact Hr|]. split; [exact He | exact Hp].
Defined.

Lemma swept_account_token_is_refused_witness :
  let env := Sample.env_at (Sample.t0 + 24 * Sample.one_hour) 0%N 9%N true in
  let token := Some (Sample.jwt_sign 2%N Sample.t0) in
  status_of (run (verifyToken Sample.jwt_verify env token checkAuth) Sample.users)
    = Some 200 /\
  reply_of (run (verifyToken Sample.jwt_verify env token checkAuth)
                (users_after (run (sweep env) Sample.users)))
    = Normal (failure 401 "Unauthorized. Please login to continue.").
Proof.
  apply (swept_account_token_is_refused Sample.jwt_verify
           (Sample.env_at (Sample.t0 + 24 * Sample.one_hour) 0%N 9%N true)
           (Sample.env_at (Sample.t0 + 24 * Sample.one_hour) 0%N 9%N true)
           (Some (Sample.jwt_sign 2%N Sample.t0)) Sample.users Sample.bob
           sample_users_have_unique_ids).
  - right. left. reflexivity.
  - reflexivity.
  - exists (Sample.t0 + 23 * Sample.one_hour). split; [reflexivity|].
    vm_compute. reflexivity.
  - vm_compute. reflexivity.
  - vm_compute. reflexivity.
Defined.

Lemma login_cookie_opens_the_session_witness :
  let env := Sample.env_at Sample.t0 0%N 9%N true in
  let later := Sample.env_at (Sample.t0 + Sample.one_hour) 0%N 9%N true in
  let logged := run (login Sample.bcrypt_compare Sample.jwt_sign env
                       (Some "alice@x.com") (Some "Passw0rd!")) Sample.users in
  exists o,
    reply_of logged
      = Normal (mkReply 200 (mkJson true "Logged in successfully" (UserPayload o))) /\
    reply_of (run (verifyToken Sample.jwt_verify later
                     (Some (Sample.jwt_sign 1%N Sample.t0)) checkAuth)
                  (users_after logged))
      = Normal (mkReply 200 (mkJson true "User is authenticated" (UserPayload o))).
Proof.
  refine (proj2 (login_cookie_opens_the_session Sample.bcrypt_compare
                   Sample.jwt_sign Sample.jwt_verify
                   (Sample.env_at Sample.t0 0%N 9%N true)
                   (Sample.env_at (Sample.t0 + Sample.one_hour) 0%N 9%N true)
                   (Some "alice@x.com") (Some "Passw0rd!") Sample.users Sample.alice
                   _ eq_refl eq_refl _ _ _)).
  - split; reflexivity.
  - vm_compute. reflexivity.
  - vm_compute. discriminate.
  - vm_compute. reflexivity.
Defined.

(** ** Properties of every route *)

Section EveryRoute.

Variable bcrypt_hash : string -> string -> string.
Variable bcrypt_compare : string -> string -> bool.
Variable jwt_sign : ObjectId -> Z -> string.
Variable jwt_verify : string -> Z -> JwtVerdict.


(** X16. Whatever the route and the request, a response sets or clears at
    most one cookie, and that cookie is always named [token], is [httpOnly]
    and [sameSite=strict], and is [secure] exactly when the server runs in
    production; a cookie that is set always lives 7 days. *)
Theorem cookies_are_always_hardened
  (env : Env) (req : Request) (handler : Async Reply) (users : User.Collection) :
  router bcrypt_hash bcrypt_compare jwt_sign jwt_verify env req = Some handler ->
  let cookies := cookies_of (run handler users) in
  (List.length cookies <= 1)%nat /\
  forall c, In c cookies ->
    match c with
    | SetCookie name _ options =>
        name = "token" /\ maxAge options = Some 604800000 /\
        httpOnly options = true /\ sameSite options = "strict" /\
        secure options = String.eqb (NODE_ENV env) "production"
    | ClearCookie name options =>
        name = "token" /\ maxAge options = None /\
        httpOnly options = true /\ sameSite options = "strict" /\
        secure options = String.eqb (NODE_ENV env) "production"
    end.
Proof.
  intros Hr.
  destruct req; simpl in Hr;
    try (destruct (String.eqb (NODE_ENV env) "production"); [discriminate|]);
    injection Hr as <-;
    unfold_controllers; exec; split_branches;
    (split; [simpl; lia|]); intros a_cookie Hcookie; simpl in Hcookie;
    try contradiction;
    destruct Hcookie as [<-|[]]; repeat split; reflexivity.
Qed.

End EveryRoute.


Lemma cookies_are_always_hardened_witness :
  let env := Sample.env_at Sample.t0 0%N 9%N true in
  match session_cookie Sample.jwt_sign env 1%N with
  | SetCookie name _ options =>
      name = "token" /\ maxAge options = Some 604800000 /\
      httpOnly options = true /\ sameSite options = "strict" /\
      secure options = false
  | ClearCookie name options =>
      name = "token" /\ maxAge options = None /\
      httpOnly options = true /\ sameSite options = "strict" /\
      secure options = false
  end.
Proof.
  refine (proj2 (cookies_are_always_hardened Sample.bcrypt_hash Sample.bcrypt_compare
                   Sample.jwt_sign Sample.jwt_verify
                   (Sample.env_at Sample.t0 0%N 9%N true)
                   (POST_login (Some "alice@x.com") (Some "Passw0rd!"))
                   (loginLimiter (Sample.env_at Sample.t0 0%N 9%N true)
                      (login Sample.bcrypt_compare Sample.jwt_sign
                         (Sample.env_at Sample.t0 0%N 9%N true)
                         (Some "alice@x.com") (Some "Passw0rd!")))
                   Sample.users eq_refl)
                (session_cookie Sample.jwt_sign
                   (Sample.env_at Sample.t0 0%N 9%N true) 1%N) _).
  vm_compute. left. reflexivity.
Defined.

(** ** What an operation does to the collection *)

Lemma valid_signup_intro (email password name : option string) :
  negb (truthy email) || negb (truthy password) || negb (truthy name) = false ->
  (String.length (field_string password) <? 8)%nat = false ->
  valid_signup email password name.
Proof.
  intros H Hlen. apply orb_false_elim in H as [H Hn].
  apply orb_false_elim in H as [He Hp].
  apply negb_false_iff in He, Hp, Hn. apply Nat.ltb_ge in Hlen.
  repeat split; assumption.
Qed.

Lemma valid_password_intro (password : option string) :
  negb (truthy password) = false ->
  (String.length (field_string password) <? 8)%nat = false ->
  valid_password password.
Proof.
  intros Hp Hlen. apply negb_false_iff in Hp. apply Nat.ltb_ge in Hlen.
  split; assumption.
Qed.

Section Effects.

Variable bcrypt_hash : string -> string -> string.
Variable bcrypt_compare : string -> string -> bool.
Variable jwt_sign : ObjectId -> Z -> string.
Variable jwt_verify : string -> Z -> JwtVerdict.

(** The five things a request can do to the collection. *)
Lemma request_effect (env : Env) (req : Request) (handler : Async Reply)
  (users : User.Collection) :
  router bcrypt_hash bcrypt_compare jwt_sign jwt_verify env req = Some handler ->
  let users' := users_after (run handler users) in
  users' = users \/
  (exists u, In u users /\
     (users' = User.save (logged_in_document (Date_now env) u) users \/
      users' = User.save (verified_document u) users \/
      users' = User.save (forgot_document (crypto_randomBytes env)
                            (Date_now env + 3600000) u) users \/
      exists token password,
        req = POST_reset_password token password /\
        valid_password password /\
        users' = User.save (reset_document
                              (bcrypt_hash (field_string password) (bcrypt_salt env))
                              u) users)) \/
  (exists email password name,
     req = POST_signup email password name /\
     valid_signup email password name /\
     User.findOne [User.EmailIs email] users = None /\
     ~ In (new_ObjectId env) (ids users) /\
     users' = users ++ [signup_document bcrypt_hash env (field_string email)
                          (field_string password) (field_string name)]).
Proof.
  intros Hr.
  destruct req; simpl in Hr;
    try (destruct (String.eqb (NODE_ENV env) "production"); [discriminate|]);
    injection Hr as <-;
    unfold_controllers; exec; split_branches;
    try (left; reflexivity).
  all: try (right; left;
      match goal with
      | H : User.findOne _ _ = Some ?u |- _ =>
          exists u; split; [exact (proj1 (findOne_Some _ _ _ H))|];
          first [ left; reflexivity
                | right; left; reflexivity
                | right; right; left; reflexivity
                | right; right; right; do 2 eexists;
                  split; [reflexivity|];
                  split; [apply valid_password_intro; assumption | reflexivity] ]
      end).
  all: right; right; do 3 eexists; split; [reflexivity|];
    match goal with
    | H : User.create ?d _ = Some _ |- _ =>
        destruct (create_Some _ _ _ H) as [-> Hfresh]
    end;
    split; [apply valid_signup_intro; assumption|];
    split; [assumption|]; split; [exact Hfresh | reflexivity].
Qed.

End Effects.

(** ** Invariants of the collection *)

Lemma save_emails (u u' : User.Document) (users : User.Collection) :
  NoDup (ids users) ->
  In u users ->
  User._id u' = User._id u ->
  User.email u' = User.email u ->
  emails (User.save u' users) = emails users.
Proof.
  unfold emails. intros Hnd Hin Hid Hemail.
  induction users as [|v users IH]; [reflexivity|].
  inversion Hnd as [|? ? Hv Hnd']; subst.
  unfold User.save. fold User.save.
  destruct (N.eqb_spec (User._id v) (User._id u')) as [E|E]; simpl.
  - f_equal. rewrite Hemail. f_equal.
    apply (same_id_same_document (v :: users)); auto; [now left | congruence].
  - f_equal. destruct Hin as [->|Hin]; [congruence|]. now apply IH.
Qed.

Lemma save_Forall (P : User.Document -> Prop) (u : User.Document)
  (users : User.Collection) :
  Forall P users -> P u -> Forall P (User.save u users).
Proof.
  intros Hall Hu. apply Forall_forall. intros w Hw.
  destruct (save_In _ _ _ Hw) as [->|Hold]; [assumption|].
  rewrite Forall_forall in Hall. now apply Hall.
Qed.

Lemma email_free (email : option string) (users : User.Collection) :
  truthy email = true ->
  User.findOne [User.EmailIs email] users = None ->
  ~ In (field_string email) (emails users).
Proof.
  intros Ht Hnone Hin. destruct (truthy_Some _ Ht) as [e [-> _]]. simpl in Hin.
  unfold emails in Hin. apply in_map_iff in Hin as [v [He Hv]].
  rewrite findOne_None in Hnone. specialize (Hnone v Hv).
  unfold User.matches in Hnone. simpl in Hnone.
  rewrite He, String.eqb_refl in Hnone. discriminate.
Qed.

Section Invariants.

Variable bcrypt_hash : string -> string -> string.
Variable bcrypt_compare : string -> string -> bool.
Variable jwt_sign : ObjectId -> Z -> string.
Variable jwt_verify : string -> Z -> JwtVerdict.

Let run_step := step bcrypt_hash bcrypt_compare jwt_sign jwt_verify.
Let run_steps := steps bcrypt_hash bcrypt_compare jwt_sign jwt_verify.

Lemma wellformed_logged_in (now : Z) (u : User.Document) :
  wellformed bcrypt_hash u -> wellformed bcrypt_hash (logged_in_document now u).
Proof. intros H. exact H. Qed.

Lemma wellformed_verified (u : User.Document) :
  wellformed bcrypt_hash u -> wellformed bcrypt_hash (verified_document u).
Proof.
  intros (_ & _ & _ & Hr & Hp). unfold wellformed. simpl.
  intuition (try discriminate; auto).
Qed.

Lemma wellformed_forgot (token : string) (expiry : Z) (u : User.Document) :
  wellformed bcrypt_hash u ->
  wellformed bcrypt_hash (forgot_document token expiry u).
Proof.
  intros (Hv & Hc & He & _ & Hp). unfold wellformed. simpl.
  intuition (try discriminate; auto).
Qed.

Lemma wellformed_reset (env : Env) (password : option string) (u : User.Document) :
  valid_password password ->
  wellformed bcrypt_hash u ->
  wellformed bcrypt_hash
    (reset_document (bcrypt_hash (field_string password) (bcrypt_salt env)) u).
Proof.
  intros [_ Hlen] (Hv & Hc & He & _ & _). unfold wellformed. simpl.
  assert (exists p salt,
            bcrypt_hash (field_string password) (bcrypt_salt env) = bcrypt_hash p salt /\
            (8 <= String.length p)%nat)
    by (exists (field_string password), (bcrypt_salt env); auto).
  intuition (try discriminate; auto).
Qed.

Lemma wellformed_signup (env : Env) (email password name : option string) :
  valid_signup email password name ->
  wellformed bcrypt_hash
    (signup_document bcrypt_hash env (field_string email) (field_string password)
       (field_string name)).
Proof.
  intros (_ & _ & _ & Hlen). unfold wellformed. simpl.
  assert (exists p salt,
            bcrypt_hash (field_string password) (bcrypt_salt env) = bcrypt_hash p salt /\
            (8 <= String.length p)%nat)
    by (exists (field_string password), (bcrypt_salt env); auto).
  change (24 * 60 * 60 * 1000) with 86400000.
  intuition (try discriminate; auto).
Qed.

Lemma step_keeps_consistent (env : Env) (op : Operation) (users : User.Collection) :
  consistent bcrypt_hash users -> consistent bcrypt_hash (run_step env op users).
Proof.
  intros (Hids & Hemails & Hwf).
  destruct op as [req|]; unfold run_step, step.
  - destruct (router _ _ _ _ env req) as [handler|] eqn:Hr;
      [|repeat split; assumption].
    destruct (request_effect bcrypt_hash bcrypt_compare jwt_sign jwt_verify
                env req handler users Hr)
      as [->|[(u & Hin & Hsave)|(e & p & n & _ & Hvalid & Hfree & Hfresh & ->)]].
    + repeat split; assumption.
    + assert (Hu : wellformed bcrypt_hash u)
        by (rewrite Forall_forall in Hwf; now apply Hwf).
      destruct Hsave as [->|[->|[->|(token & pw & _ & Hvalid & ->)]]];
        (split; [now rewrite save_ids|]);
        (split; [now rewrite (save_emails u)|]);
        (apply save_Forall; [assumption|]);
        first [ exact (wellformed_logged_in (Date_now env) u Hu)
              | exact (wellformed_verified u Hu)
              | exact (wellformed_forgot _ _ u Hu)
              | exact (wellformed_reset env _ u Hvalid Hu) ].
    + split; [now apply NoDup_ids_app|]. split.
      * unfold emails. rewrite map_app. simpl.
        apply NoDup_app; [assumption | repeat constructor; simpl; tauto|].
        intros x Hx [<-|[]]. revert Hx.
        apply (email_free e users); [exact (proj1 Hvalid) | exact Hfree].
      * apply Forall_app. split; [assumption|]. constructor; [|constructor].
        now apply wellformed_signup.
  - rewrite sweep_deletes. unfold User.deleteMany. split; [|split].
    + now apply NoDup_ids_filter.
    + unfold emails. clear Hids Hwf.
      induction users as [|v users IH]; simpl; [constructor|].
      inversion Hemails as [|? ? Hv Hnd]; subst.
      destruct (negb _); simpl; [|auto].
      constructor; [|auto]. intros Hin. apply Hv.
      apply in_map_iff in Hin as [w [Hw Hin]]. apply filter_In in Hin as [Hin _].
      rewrite <- Hw. now apply in_map.
    + rewrite Forall_forall in *. intros w Hw. apply filter_In in Hw as [Hw _].
      now apply Hwf.
Qed.

Lemma reachable_consistent (trace : list (Env * Operation)) (users : User.Collection) :
  consistent bcrypt_hash users -> consistent bcrypt_hash (run_steps trace users).
Proof.
  revert users. induction trace as [|[env op] trace IH]; intros users H; simpl.
  - exact H.
  - apply IH. now apply step_keeps_consistent.
Qed.

Lemma empty_consistent : consistent bcrypt_hash [].
Proof. repeat split; constructor. Qed.

End Invariants.

Section ReachableCollections.

Variable bcrypt_hash : string -> string -> string.
Variable bcrypt_compare : string -> string -> bool.
Variable jwt_sign : ObjectId -> Z -> string.
Variable jwt_verify : string -> Z -> JwtVerdict.

Let run_step := step bcrypt_hash bcrypt_compare jwt_sign jwt_verify.
Let run_steps := steps bcrypt_hash bcrypt_compare jwt_sign jwt_verify.

(** X17. In every collection the system can reach from the empty one, by
    any sequence of requests and sweeps, no two records share an email and
    no two share an identifier; and one more operation on a consistent
    collection keeps both unique. *)
Theorem emails_and_ids_stay_unique :
  (forall (trace : list (Env * Operation)) (u v : User.Document),
     In u (run_steps trace []) -> In v (run_steps trace []) ->
     User.email u = User.email v \/ User._id u = User._id v -> u = v) /\
  (forall (env : Env) (op : Operation) (users : User.Collection),
     consistent bcrypt_hash users ->
     NoDup (emails (run_step env op users)) /\ NoDup (ids (run_step env op users))).
Proof.
  split.
  - intros trace u v Hu Hv Hsame.
    destruct (reachable_consistent bcrypt_hash bcrypt_compare jwt_sign jwt_verify
                trace [] (empty_consistent bcrypt_hash)) as (Hids & Hemails & _).
    fold run_steps in Hids, Hemails.
    destruct Hsame as [He|Hi].
    + clear Hids. unfold emails in Hemails.
      induction (run_steps trace []) as [|w l IH]; [contradiction|].
      simpl in Hemails. inversion Hemails as [|? ? Hw Hnd]; subst.
      destruct Hu as [->|Hu], Hv as [->|Hv]; auto.
      * exfalso. apply Hw. rewrite He. now apply in_map.
      * exfalso. apply Hw. rewrite <- He. now apply in_map.
    + now apply (same_id_same_document (run_steps trace [])).
  - intros env op users Hc.
    destruct (step_keeps_consistent bcrypt_hash bcrypt_compare jwt_sign jwt_verify
                env op users Hc) as (Hids & Hemails & _).
    split; assumption.
Qed.



(** X20. No request deletes a record or changes its identifier, email, name
    or creation time, and only a reset-password request changes a stored
    password hash: after any request every record of the collection is
    still there under the same identifier with these fields as before. *)
Theorem requests_keep_identity_fields
  (env : Env) (req : Request) (handler : Async Reply) (users : User.Collection)
  (u : User.Document) :
  NoDup (ids users) ->
  router bcrypt_hash bcrypt_compare jwt_sign jwt_verify env req = Some handler ->
  In u users ->
  exists u',
    In u' (users_after (run handler users)) /\
    User._id u' = User._id u /\
    User.email u' = User.email u /\
    User.name u' = User.name u /\
    User.createdAt u' = User.createdAt u /\
    (User.password u' = User.password u \/
     exists token password, req = POST_reset_password token password).
Proof.
  intros Hnd Hr Hin.
  assert (Hsaved : forall u0 f,
            In u0 users ->
            User._id (f u0) = User._id u0 -> User.email (f u0) = User.email u0 ->
            User.name (f u0) = User.name u0 ->
            User.createdAt (f u0) = User.createdAt u0 ->
            (User.password (f u0) = User.password u0 \/
             exists token password, req = POST_reset_password token password) ->
            exists u',
              In u' (User.save (f u0) users) /\
              User._id u' = User._id u /\ User.email u' = User.email u /\
              User.name u' = User.name u /\ User.createdAt u' = User.createdAt u /\
              (User.password u' = User.password u \/
               exists token password, req = POST_reset_password token password)).
  { intros u0 f Hin0 Hid He Hn Hc Hp.
    destruct (N.eq_dec (User._id u) (User._id u0)) as [E|E].
    - assert (u = u0) by (apply (same_id_same_document users); auto). subst u0.
      exists (f u). split; [|auto 6].
      apply save_In_self. rewrite Hid. now apply In_ids.
    - exists u. split; [|auto 6].
      apply save_In_other; [assumption | congruence]. }
  destruct (request_effect bcrypt_hash bcrypt_compare jwt_sign jwt_verify
              env req handler users Hr)
    as [->|[(u0 & Hin0 & Hsave)|(e & p & n & _ & _ & _ & _ & ->)]].
  - exists u. auto 7.
  - destruct Hsave as [->|[->|[->|(token & pw & Hreq & _ & ->)]]].
    + apply (Hsaved u0 (logged_in_document (Date_now env))); auto.
    + apply (Hsaved u0 verified_document); auto.
    + apply (Hsaved u0 (forgot_document (crypto_randomBytes env)
                          (Date_now env + 3600000))); auto.
    + apply (Hsaved u0 (reset_document
                          (bcrypt_hash (field_string pw) (bcrypt_salt env))));
        auto.
      right. eauto.
  - exists u. split; [apply in_or_app; now left | auto 6].
Qed.

End ReachableCollections.

Lemma sample_trace_result :
  steps Sample.bcrypt_hash Sample.bcrypt_compare Sample.jwt_sign Sample.jwt_verify
        sample_trace [] = [sample_dave].
Proof. vm_compute. reflexivity. Qed.

Lemma sample_dave_reached :
  In sample_dave
     (steps Sample.bcrypt_hash Sample.bcrypt_compare Sample.jwt_sign
            Sample.jwt_verify sample_trace []).
Proof. rewrite sample_trace_result. now left. Qed.

Lemma sample_users_consistent : consistent Sample.bcrypt_hash Sample.users.
Proof.
  split; [exact sample_users_have_unique_ids|]. split.
  - repeat constructor; simpl; intuition discriminate.
  - repeat constructor; simpl; try (intuition discriminate).
    + exists "Passw0rd!", "saltsaltsaltsaltsalt22". split; [reflexivity|simpl; lia].
    + exists "hunter2hunter2", "pepperpepperpepper4422".
      split; [reflexivity|simpl; lia].
    + exists "correct horse", "gingergingerginger2222".
      split; [reflexivity|simpl; lia].
Qed.

Lemma emails_and_ids_stay_unique_witness :
  sample_dave = sample_dave /\
  NoDup (emails (step Sample.bcrypt_hash Sample.bcrypt_compare Sample.jwt_sign
                      Sample.jwt_verify
                      (Sample.env_at Sample.t0 23456%N 4%N true)
                      (Handle (POST_signup (Some "dave@x.com") (Some "Passw0rd!")
                                           (Some "Dave")))
                      Sample.users)).
Proof.
  destruct (emails_and_ids_stay_unique Sample.bcrypt_hash Sample.bcrypt_compare
              Sample.jwt_sign Sample.jwt_verify) as [Hreach Hstep].
  split.
  - exact (Hreach sample_trace sample_dave sample_dave sample_dave_reached
             sample_dave_reached (or_introl eq_refl)).
  - exact (proj1 (Hstep (Sample.env_at Sample.t0 23456%N 4%N true)
                    (Handle (POST_signup (Some "dave@x.com") (Some "Passw0rd!")
                                         (Some "Dave")))
                    Sample.users sample_users_consistent)).
Defined.



Lemma requests_keep_identity_fields_witness :
  let env := Sample.env_at Sample.t0 0%N 9%N true in
  exists u',
    In u' (users_after (run (verifyEmail Sample.jwt_sign env (Some "482913"))
                            Sample.users)) /\
    User._id u' = 2%N /\ User.email u' = "bob@x.com" /\ User.name u' = "Bob" /\
    User.createdAt u' = User.createdAt Sample.bob /\
    (User.password u' = User.password Sample.bob \/
     exists token password,
       POST_verify_email (Some "482913") = POST_reset_password token password).
Proof.
  apply (requests_keep_identity_fields Sample.bcrypt_hash Sample.bcrypt_compare
           Sample.jwt_sign Sample.jwt_verify
           (Sample.env_at Sample.t0 0%N 9%N true)
           (POST_verify_email (Some "482913"))
           (verifyEmail Sample.jwt_sign (Sample.env_at Sample.t0 0%N 9%N true)
              (Some "482913"))
           Sample.users Sample.bob sample_users_have_unique_ids eq_refl).
  right. left. reflexivity.
Defined.

(** * Properties of the client *)

(** ** The password strength meter *)

Lemma test_app (class : ascii -> bool) (p q : string) :
  PasswordStrengthMeter.test class (p ++ q)
    = PasswordStrengthMeter.test class p || PasswordStrengthMeter.test class q.
Proof.
  induction p as [|c p IH]; simpl; [reflexivity|].
  now rewrite IH, orb_assoc.
Qed.

Lemma length_app_string (p q : string) :
  String.length (p ++ q) = (String.length p + String.length q)%nat.
Proof.
  induction p as [|c p IH]; simpl; [reflexivity|]. now rewrite IH.
Qed.

Lemma test_ext (class class' : ascii -> bool) (p : string) :
  (forall c, class c = class' c) ->
  PasswordStrengthMeter.test class p = PasswordStrengthMeter.test class' p.
Proof.
  intros H. induction p as [|c p IH]; simpl; [reflexivity|].
  now rewrite H, IH.
Qed.

Lemma special_classes_agree (p : string) :
  PasswordStrengthMeter.test PasswordStrengthMeter.not_A_Za_z0_9 p
    = PasswordStrengthMeter.test PasswordStrengthMeter.not_a_zA_Z_d p.
Proof.
  apply test_ext. intros c.
  unfold PasswordStrengthMeter.not_A_Za_z0_9, PasswordStrengthMeter.not_a_zA_Z_d.
  now rewrite (orb_comm (PasswordStrengthMeter.upper c)).
Qed.

(** X21. The strength of a password is at most 4, and the bar always has
    four segments of which exactly the first [strength] carry the colour of
    that strength while the others are grey. *)
Theorem meter_fills_strength_segments (password : string) :
  let strength := PasswordStrengthMeter.getStrength password in
  (strength <= 4)%nat /\
  PasswordStrengthMeter.segments password
    = repeat (PasswordStrengthMeter.getColor strength) strength
      ++ repeat "bg-gray-600" (4 - strength).
Proof.
  unfold PasswordStrengthMeter.segments, PasswordStrengthMeter.getStrength.
  destruct (8 <=? String.length password)%nat,
    (PasswordStrengthMeter.test PasswordStrengthMeter.lower password
     && PasswordStrengthMeter.test PasswordStrengthMeter.upper password),
    (PasswordStrengthMeter.test PasswordStrengthMeter.digit password),
    (PasswordStrengthMeter.test PasswordStrengthMeter.not_a_zA_Z_d password);
    simpl; split; (lia || reflexivity).
Qed.

(** X22. The meter shows "Strong", that is the strength is 4, exactly when
    all five rules listed under the bar are met. *)
Theorem strong_iff_all_criteria_met (password : string) :
  (PasswordStrengthMeter.getStrength password = 4%nat <->
   forallb snd (PasswordStrengthMeter.criteria password) = true) /\
  (PasswordStrengthMeter.label password = "Strong" <->
   forallb snd (PasswordStrengthMeter.criteria password) = true).
Proof.
  unfold PasswordStrengthMeter.label, PasswordStrengthMeter.getStrength,
    PasswordStrengthMeter.criteria.
  rewrite (special_classes_agree password).
  destruct (8 <=? String.length password)%nat,
    (PasswordStrengthMeter.test PasswordStrengthMeter.lower password),
    (PasswordStrengthMeter.test PasswordStrengthMeter.upper password),
    (PasswordStrengthMeter.test PasswordStrengthMeter.digit password),
    (PasswordStrengthMeter.test PasswordStrengthMeter.not_a_zA_Z_d password);
    simpl; split; split; intros H; try reflexivity; discriminate H.
Qed.

(** X23. Typing more never lowers the strength: the strength of a password
    is at most that of the password with any text added after or before
    it. *)
Theorem strength_grows_with_the_password (password more : string) :
  (PasswordStrengthMeter.getStrength password
   <= PasswordStrengthMeter.getStrength (password ++ more))%nat /\
  (PasswordStrengthMeter.getStrength password
   <= PasswordStrengthMeter.getStrength (more ++ password))%nat.
Proof.
  unfold PasswordStrengthMeter.getStrength.
  rewrite !test_app, !length_app_string.
  destruct (Nat.leb_spec 8 (String.length password)) as [Hl|Hl];
    destruct (Nat.leb_spec 8 (String.length password + String.length more));
    destruct (Nat.leb_spec 8 (String.length more + String.length password));
    try lia;
    destruct (PasswordStrengthMeter.test PasswordStrengthMeter.lower password),
      (PasswordStrengthMeter.test PasswordStrengthMeter.upper password),
      (PasswordStrengthMeter.test PasswordStrengthMeter.digit password),
      (PasswordStrengthMeter.test PasswordStrengthMeter.not_a_zA_Z_d password);
    simpl;
    destruct (PasswordStrengthMeter.test PasswordStrengthMeter.lower more),
      (PasswordStrengthMeter.test PasswordStrengthMeter.upper more),
      (PasswordStrengthMeter.test PasswordStrengthMeter.digit more),
      (PasswordStrengthMeter.test PasswordStrengthMeter.not_a_zA_Z_d more);
    simpl; lia.
Qed.

Section MeterAndServer.

Variable bcrypt_hash : string -> string -> string.
Variable jwt_sign : ObjectId -> Z -> string.

(** X24. A password that the meter rates "Very Weak" (strength 0) is never
    accepted by the server: signup and reset-password both answer 400 for it
    and write nothing. Conversely a signup answered 201 carries a password
    of strength at least 1. *)
Theorem very_weak_passwords_are_refused
  (env : Env) (email name : option string) (token password : string)
  (users : User.Collection) :
  let registering :=
    run (signup bcrypt_hash jwt_sign env email (Some password) name) users in
  let resetting := run (resetPassword bcrypt_hash env token (Some password)) users in
  (PasswordStrengthMeter.getStrength password = 0%nat ->
   PasswordStrengthMeter.label password = "Very Weak" /\
   status_of registering = Some 400 /\ users_after registering = users /\
   status_of resetting = Some 400 /\ users_after resetting = users) /\
  (status_of registering = Some 201 ->
   (1 <= PasswordStrengthMeter.getStrength password)%nat).
Proof.
  intros registering resetting.
  assert (Hshort : (String.length password <? 8)%nat = true ->
                   status_of registering = Some 400 /\
                   users_after registering = users /\
                   status_of resetting = Some 400 /\
                   users_after resetting = users).
  { intros Hlen. subst registering resetting.
    unfold status_of, signup, resetPassword. exec. rewrite Hlen.
    destruct (negb (truthy email) || negb (truthy (Some password))
              || negb (truthy name));
      destruct (negb (truthy (Some password))); simpl; repeat split. }
  unfold PasswordStrengthMeter.label, PasswordStrengthMeter.getStrength.
  destruct (Nat.leb_spec 8 (String.length password)) as [Hl|Hl].
  - split.
    + destruct (_ && _), (PasswordStrengthMeter.test _ _),
        (PasswordStrengthMeter.test _ _); simpl; discriminate.
    + intros _.
      destruct (_ && _), (PasswordStrengthMeter.test _ _),
        (PasswordStrengthMeter.test _ _); simpl; lia.
  - assert (Hlen : (String.length password <? 8)%nat = true)
      by (apply Nat.ltb_lt; lia).
    destruct (Hshort Hlen) as (H1 & H2 & H3 & H4).
    split.
    + intros H0. split; [|auto].
      destruct (_ && _), (PasswordStrengthMeter.test _ _),
        (PasswordStrengthMeter.test _ _); simpl in *; try discriminate.
      reflexivity.
    + intros H201. rewrite H1 in H201. discriminate.
Qed.

End MeterAndServer.

Lemma very_weak_passwords_are_refused_witness :
  let env := Sample.env_at Sample.t0 23456%N 4%N true in
  PasswordStrengthMeter.label "abcdefg" = "Very Weak" /\
  status_of (run (signup Sample.bcrypt_hash Sample.jwt_sign env
                    (Some "dave@x.com") (Some "abcdefg") (Some "Dave")) Sample.users)
    = Some 400.
Proof.
  destruct (proj1 (very_weak_passwords_are_refused Sample.bcrypt_hash
                     Sample.jwt_sign (Sample.env_at Sample.t0 23456%N 4%N true)
                     (Some "dave@x.com") (Some "Dave") "token" "abcdefg"
                     Sample.users) eq_refl) as (Hlabel & Hstatus & _).
  split; [exact Hlabel | exact Hstatus].
Defined.

(** ** The store *)

Lemma or_else_not_empty (message : option string) (fallback : string) :
  fallback <> "" -> AuthStore.or_else message fallback <> "".
Proof.
  intros Hf. unfold AuthStore.or_else.
  destruct (truthy message) eqn:Ht; [|assumption].
  destruct (truthy_Some _ Ht) as [s [-> Hs]]. exact Hs.
Qed.

(** X25. Every action of the store ends its own waiting state whatever the
    server answered: the six request actions leave [isLoading] false, and
    [checkAuth] leaves [isCheckingAuth] false without touching [isLoading].
    An action returns true exactly when the request resolved, and then the
    stored error is cleared. *)
Theorem actions_always_stop_loading
  (a : AuthStore.Action) (s : AuthStore.State) (response : AuthStore.Axios) :
  let o := AuthStore.dispatch a s response in
  AuthStore.returned o
    = match response with
      | AuthStore.Resolved _ => true
      | AuthStore.Rejected _ => false
      end /\
  (AuthStore.returned o = true -> AuthStore.error (AuthStore.state_of o) = None) /\
  match a with
  | AuthStore.CheckAuth =>
      AuthStore.isCheckingAuth (AuthStore.state_of o) = false /\
      AuthStore.isLoading (AuthStore.state_of o) = AuthStore.isLoading s
  | _ =>
      AuthStore.isLoading (AuthStore.state_of o) = false /\
      AuthStore.isCheckingAuth (AuthStore.state_of o) = AuthStore.isCheckingAuth s
  end.
Proof.
  destruct a, response as [data|m]; simpl;
    unfold AuthStore.signUp, AuthStore.checkAuth; simpl;
    try destruct (String.eqb _ _);
    repeat split; intros; try reflexivity; discriminate.
Qed.

(** X26. A rejected request never signs the user in and never replaces the
    stored user: after any action whose request failed, the store is
    authenticated only if it was before, the user object is the one it had,
    [success] is false, and either nothing is shown and no error is stored
    (the "Unauthorized" answer in [signUp] and [checkAuth]) or exactly one
    error toast is shown whose non-empty text is also the stored error. *)
Theorem rejected_requests_never_authenticate
  (a : AuthStore.Action) (s : AuthStore.State) (message : option string) :
  let o := AuthStore.dispatch a s (AuthStore.Rejected message) in
  let s' := AuthStore.state_of o in
  (AuthStore.isAuthenticated s' = true -> AuthStore.isAuthenticated s = true) /\
  AuthStore.user s' = AuthStore.user s /\
  AuthStore.success s' = Some false /\
  ((AuthStore.error s' = None /\ AuthStore.toasts_of o = [] /\
    AuthStore.isAuthenticated s' = false /\
    (a = AuthStore.SignUp \/ a = AuthStore.CheckAuth)) \/
   (exists text,
      text <> "" /\ AuthStore.error s' = Some text /\
      AuthStore.toasts_of o = [AuthStore.toast_error text])).
Proof.
  destruct a; simpl;
    unfold AuthStore.signUp, AuthStore.checkAuth; simpl;
    try destruct (String.eqb _ _) eqn:E; simpl;
    (split; [auto; try discriminate|]);
    (split; [reflexivity|]); (split; [reflexivity|]);
    try (left; repeat split; auto; fail);
    right; eexists; (split; [|split; reflexivity]);
    apply or_else_not_empty; discriminate.
Qed.

Lemma actions_always_stop_loading_witness :
  AuthStore.error
    (AuthStore.state_of
       (AuthStore.login AuthStore.initial
          (AuthStore.Resolved (AuthStore.mkResponseData true "Logged in successfully"
                                 None)))) = None.
Proof.
  apply (proj1 (proj2 (actions_always_stop_loading AuthStore.Login AuthStore.initial
                         (AuthStore.Resolved
                            (AuthStore.mkResponseData true "Logged in successfully"
                               None))))).
  reflexivity.
Defined.

Lemma rejected_requests_never_authenticate_witness :
  let s := AuthStore.mkState None None None true false false in
  AuthStore.isAuthenticated s = true.
Proof.
  apply (proj1 (rejected_requests_never_authenticate AuthStore.Login
                  (AuthStore.mkState None None None true false false)
                  (Some "Invalid email or password."))).
  reflexivity.
Defined.

(** ** The route guards *)

(** X27. Once the session check is over, every path either shows its page
    or redirects to a path that shows its page, so the guards never
    redirect twice and never loop. The home page is shown exactly to an
    authenticated user whose user object is verified; every other page is
    shown exactly to the others. While the session check runs, every path
    shows the spinner. *)
Theorem guards_settle_in_one_redirect (s : AuthStore.State) (path : App.Path) :
  (AuthStore.isCheckingAuth s = true -> App.App s path = App.LoadingSpinner) /\
  (AuthStore.isCheckingAuth s = false ->
   (App.App s path = App.Page path \/
    exists target, App.App s path = App.Navigate target /\
                   App.App s target = App.Page target) /\
   (App.App s App.Home = App.Page App.Home <->
    AuthStore.isAuthenticated s = true /\ App.user_isVerified s = true) /\
   (path <> App.Home ->
    (App.App s path = App.Page path <->
     ~ (AuthStore.isAuthenticated s = true /\ App.user_isVerified s = true)))).
Proof.
  unfold App.App, App.ProtectedRoute, App.RedirectAuthenticatedUser.
  split; intros Hc; rewrite Hc; [reflexivity|].
  destruct (AuthStore.isAuthenticated s), (App.user_isVerified s); simpl.
  - split; [|split].
    + destruct path; [left; reflexivity|..];
        right; exists App.Home; split; reflexivity.
    + split; auto.
    + intros Hp. destruct path; try contradiction;
        (split; [discriminate | intros H; exfalso; apply H; auto]).
  - split; [|split].
    + destruct path; [right; exists App.EmailVerificationPage; split; reflexivity|..];
        left; reflexivity.
    + split; [discriminate | intros [_ H]; discriminate].
    + intros Hp. destruct path; try contradiction;
        (split; [intros _ [_ H]; discriminate | reflexivity]).
  - split; [|split].
    + destruct path; [right; exists App.LoginPage; split; reflexivity|..];
        left; reflexivity.
    + split; [discriminate | intros [H _]; discriminate].
    + intros Hp. destruct path; try contradiction;
        (split; [intros _ [H _]; discriminate | reflexivity]).
  - split; [|split].
    + destruct path; [right; exists App.LoginPage; split; reflexivity|..];
        left; reflexivity.
    + split; [discriminate | intros [H _]; discriminate].
    + intros Hp. destruct path; try contradiction;
        (split; [intros _ [H _]; discriminate | reflexivity]).
Qed.

Lemma guards_settle_in_one_redirect_witness :
  App.App (AuthStore.mkState None None None false false false) App.Home
    = App.Navigate App.LoginPage /\
  App.App (AuthStore.mkState None None None false false false) App.LoginPage
    = App.Page App.LoginPage.
Proof.
  destruct (proj2 (guards_settle_in_one_redirect
                     (AuthStore.mkState None None None false false false)
                     App.LoginPage) eq_refl) as (_ & _ & Hother).
  split; [reflexivity|].
  apply Hother; [discriminate|]. intros [H _]. discriminate.
Defined.

(** ** Client and server together *)

Lemma sanitized_isVerified (u : User.Document) :
  js_get "isVerified"
    (JSON_stringify (js_set "password" JsUndefined (User._doc u)))
  = JsBoolean (User.isVerified u).
Proof. reflexivity. Qed.

Section ClientAndServer.

Variable bcrypt_hash : string -> string -> string.
Variable jwt_sign : ObjectId -> Z -> string.
Variable jwt_verify : string -> Z -> JwtVerdict.

(** X28. When a signup is answered 201 the store marks the visitor as
    authenticated, but the user object it received is unverified, so the
    home path redirects to the verification page, which is shown. When a
    verify-email request is answered 200 the store holds a verified user and
    the home page is shown. *)
Theorem new_account_is_led_to_verification :
  (forall (env : Env) (email password name : option string)
          (users : User.Collection) (s : AuthStore.State) (reply : Reply),
     valid_signup email password name ->
     User.findOne [User.EmailIs email] users = None ->
     ~ In (new_ObjectId env) (ids users) ->
     mailtrap_up env = true ->
     AuthStore.isCheckingAuth s = false ->
     reply_of (run (signup bcrypt_hash jwt_sign env email password name) users)
       = Normal reply ->
     let o := AuthStore.signUp s (axios reply) in
     AuthStore.returned o = true /\
     AuthStore.isAuthenticated (AuthStore.state_of o) = true /\
     AuthStore.toasts_of o
       = [AuthStore.toast_success "Signup successful. Please check your email."] /\
     App.App (AuthStore.state_of o) App.Home
       = App.Navigate App.EmailVerificationPage /\
     App.App (AuthStore.state_of o) App.EmailVerificationPage
       = App.Page App.EmailVerificationPage)
  /\
  (forall (env : Env) (code : option string) (users : User.Collection)
          (user : User.Document) (s : AuthStore.State) (reply : Reply),
     User.findOne [User.VerificationTokenIs code;
                   User.VerificationTokenExpiresAt_gt (Date_now env)] users
       = Some user ->
     mailtrap_up env = true ->
     AuthStore.isCheckingAuth s = false ->
     reply_of (run (verifyEmail jwt_sign env code) users) = Normal reply ->
     let o := AuthStore.verifyEmail s (axios reply) in
     AuthStore.returned o = true /\
     App.App (AuthStore.state_of o) App.Home = App.Page App.Home /\
     App.App (AuthStore.state_of o) App.EmailVerificationPage
       = App.Navigate App.Home).
Proof.
  split.
  - intros env email password name users s reply Hv Hfree Hid Hup Hc Hreply o.
    destruct (signup_creates bcrypt_hash jwt_sign env email password name users
                Hv Hfree Hid) as (_ & _ & Hr).
    rewrite Hup, Hreply in Hr. injection Hr as ->. subst o.
    unfold AuthStore.signUp, axios, App.App, App.ProtectedRoute,
      App.RedirectAuthenticatedUser, App.user_isVerified. simpl.
    rewrite Hc. simpl. repeat split.
  - intros env code users user s reply Hsome Hup Hc Hreply o.
    rewrite (verifyEmail_found jwt_sign env code users user Hsome), Hup in Hreply.
    injection Hreply as <-. subst o.
    unfold AuthStore.verifyEmail, axios, App.App, App.ProtectedRoute,
      App.RedirectAuthenticatedUser, App.user_isVerified. simpl.
    rewrite Hc. simpl. repeat split.
Qed.

(** X29. On application load the store checks the session. Without a token
    the server's "Unauthorized" answer is taken silently: no error is
    stored and no toast shown. With a token that does not verify, the error
    "Invalid or expired token. Please login again." is stored and shown in
    one toast. In both cases the visitor is not authenticated and the home
    path redirects to the login page. With a token of an existing account
    the visitor is authenticated, and the home page is shown exactly when
    that account is verified. *)
Theorem session_check_on_load
  (env : Env) (cookie_token : option string) (users : User.Collection)
  (s : AuthStore.State) (reply : Reply) :
  reply_of (run (verifyToken jwt_verify env cookie_token checkAuth) users)
    = Normal reply ->
  let o := AuthStore.checkAuth s (axios reply) in
  let s' := AuthStore.state_of o in
  AuthStore.isCheckingAuth s' = false /\
  (truthy cookie_token = false ->
   AuthStore.error s' = None /\ AuthStore.toasts_of o = [] /\
   AuthStore.isAuthenticated s' = false /\
   App.App s' App.Home = App.Navigate App.LoginPage) /\
  (truthy cookie_token = true ->
   (forall userId,
      jwt_verify (field_string cookie_token) (Date_now env) <> Decoded userId) ->
   AuthStore.error s' = Some "Invalid or expired token. Please login again." /\
   AuthStore.toasts_of o
     = [AuthStore.toast_error "Invalid or expired token. Please login again."] /\
   AuthStore.isAuthenticated s' = false /\
   App.App s' App.Home = App.Navigate App.LoginPage) /\
  (forall userId user,
     truthy cookie_token = true ->
     jwt_verify (field_string cookie_token) (Date_now env) = Decoded userId ->
     User.findById userId users = Some user ->
     AuthStore.isAuthenticated s' = true /\
     AuthStore.toasts_of o = [] /\
     App.App s' App.Home
       = if User.isVerified user then App.Page App.Home
         else App.Navigate App.EmailVerificationPage).
Proof.
  intros Hreply o s'. subst s' o.
  split; [|split; [|split]].
  - unfold AuthStore.checkAuth.
    destruct (axios reply); [reflexivity|].
    destruct (String.eqb _ _); reflexivity.
  - intros Ht. revert Hreply. unfold verifyToken, run. rewrite Ht. exec.
    intros [= <-]. repeat split.
  - intros Ht Hbad. revert Hreply. unfold verifyToken, run. rewrite Ht. exec.
    destruct (jwt_verify _ _) as [userId| |] eqn:E;
      [exfalso; exact (Hbad userId eq_refl)|..]; exec; intros [= <-]; repeat split.
  - intros userId user Ht Hd Hfound. revert Hreply.
    unfold verifyToken, checkAuth, run. rewrite Ht, Hd. exec. rewrite Hfound. exec.
    intros [= <-].
    unfold AuthStore.checkAuth, axios, App.App, App.ProtectedRoute,
      App.user_isVerified. simpl.
    destruct (User.isVerified user); repeat split.
Qed.

End ClientAndServer.

Lemma new_account_is_led_to_verification_witness :
  let env := Sample.env_at Sample.t0 23456%N 4%N true in
  let s := AuthStore.mkState None None None false false false in
  let reply :=
    answer (run (signup Sample.bcrypt_hash Sample.jwt_sign env
                   (Some "dave@x.com") (Some "Passw0rd!") (Some "Dave"))
                Sample.users) in
  App.App (AuthStore.state_of (AuthStore.signUp s (axios reply))) App.Home
    = App.Navigate App.EmailVerificationPage.
Proof.
  intros env s reply.
  destruct (proj1 (new_account_is_led_to_verification Sample.bcrypt_hash
                     Sample.jwt_sign)
              env (Some "dave@x.com") (Some "Passw0rd!") (Some "Dave")
              Sample.users s reply) as (_ & _ & _ & Hhome & _).
  - repeat split. simpl. lia.
  - reflexivity.
  - apply sample_free_id. reflexivity.
  - reflexivity.
  - reflexivity.
  - vm_compute. reflexivity.
  - exact Hhome.
Defined.

Lemma session_check_on_load_witness :
  let env := Sample.env_at Sample.t0 0%N 9%N true in
  let reply :=
    answer (run (verifyToken Sample.jwt_verify env None checkAuth) Sample.users) in
  AuthStore.isCheckingAuth
    (AuthStore.state_of (AuthStore.checkAuth AuthStore.initial (axios reply)))
    = false /\
  AuthStore.toasts_of (AuthStore.checkAuth AuthStore.initial (axios reply)) = [].
Proof.
  intros env reply.
  destruct (session_check_on_load Sample.jwt_verify env None Sample.users
              AuthStore.initial reply eq_refl) as (Hdone & Habsent & _).
  split; [exact Hdone|]. exact (proj1 (proj2 (Habsent eq_refl))).
Defined.

(** * The verification page's code boxes *)

Section CodeBoxes.

Import EmailVerificationPage.

Let slot_ok (d : Slot) : Prop :=
  d = Some "" \/
  exists c, PasswordStrengthMeter.digit c = true /\ d = Some (String c EmptyString).

Lemma six_boxes_inv (code : list Slot) :
  six_boxes code ->
  exists d0 d1 d2 d3 d4 d5,
    code = [d0; d1; d2; d3; d4; d5] /\
    slot_ok d0 /\ slot_ok d1 /\ slot_ok d2 /\ slot_ok d3 /\ slot_ok d4 /\ slot_ok d5.
Proof.
  intros [Hlen Hall].
  destruct code as [|d0 [|d1 [|d2 [|d3 [|d4 [|d5 [|d6 code]]]]]]]; try discriminate Hlen.
  exists d0, d1, d2, d3, d4, d5. split; [reflexivity|].
  repeat match goal with
         | H : Forall _ (_ :: _) |- _ => inversion H; subst; clear H
         end.
  repeat split; assumption.
Qed.

Lemma six_boxes_intro (d0 d1 d2 d3 d4 d5 : Slot) :
  slot_ok d0 -> slot_ok d1 -> slot_ok d2 -> slot_ok d3 -> slot_ok d4 -> slot_ok d5 ->
  six_boxes [d0; d1; d2; d3; d4; d5].
Proof.
  intros. split; [reflexivity|].
  repeat (apply Forall_cons; [assumption|]). apply Forall_nil.
Qed.

Lemma slot_ok_empty : slot_ok (Some "").
Proof. left. reflexivity. Qed.

Lemma slot_ok_digit (c : ascii) :
  PasswordStrengthMeter.digit c = true -> slot_ok (Some (String c EmptyString)).
Proof. intros H. right. exists c. split; [exact H | reflexivity]. Qed.

(** A value of at most one character that passes the digit test is empty or
    one digit. *)
Lemma one_character (value : string) :
  all_digits value = true ->
  (1 <? String.length value)%nat = false ->
  slot_ok (Some value).
Proof.
  intros Hd Hl. destruct value as [|c [|c' value]].
  - apply slot_ok_empty.
  - simpl in Hd. apply andb_prop in Hd. apply slot_ok_digit. exact (proj1 Hd).
  - discriminate Hl.
Qed.

Lemma handleChange_keeps_six_boxes (index : nat) (value : string) (s : State) :
  six_boxes (code s) -> (index < 6)%nat ->
  six_boxes (code (fst (handleChange index value s))).
Proof.
  intros Hs Hi. unfold handleChange.
  destruct (all_digits value) eqn:Hd; [|exact Hs]. cbn [negb].
  destruct (six_boxes_inv _ Hs) as (d0 & d1 & d2 & d3 & d4 & d5 & E & H0 & H1 & H2 & H3 & H4 & H5).
  rewrite E.
  destruct (1 <? String.length value)%nat eqn:Hl.
  - destruct value as [|c0 [|c1 [|c2 [|c3 [|c4 [|c5 rest]]]]]];
      simpl in Hd;
      repeat match goal with
             | H : (_ && _)%bool = true |- _ =>
                 let Ha := fresh "Hc" in
                 apply andb_prop in H; destruct H as [Ha H]
             end;
      cbn; apply six_boxes_intro;
      first [apply slot_ok_empty | apply slot_ok_digit; assumption].
  - pose proof (one_character value Hd Hl) as Hv.
    do 6 (destruct index as [|index];
          [cbn; apply six_boxes_intro; assumption|]).
    exfalso. lia.
Qed.

Lemma six_digits_inv (value : string) :
  six_digits value = true ->
  exists c0 c1 c2 c3 c4 c5,
    value = String c0 (String c1 (String c2 (String c3 (String c4 (String c5 ""))))) /\
    PasswordStrengthMeter.digit c0 = true /\ PasswordStrengthMeter.digit c1 = true /\
    PasswordStrengthMeter.digit c2 = true /\ PasswordStrengthMeter.digit c3 = true /\
    PasswordStrengthMeter.digit c4 = true /\ PasswordStrengthMeter.digit c5 = true.
Proof.
  unfold six_digits. intros H. apply andb_prop in H. destruct H as [Hl Hd].
  apply Nat.eqb_eq in Hl.
  destruct value as [|c0 [|c1 [|c2 [|c3 [|c4 [|c5 [|c6 rest]]]]]]]; try discriminate Hl.
  exists c0, c1, c2, c3, c4, c5. split; [reflexivity|].
  simpl in Hd.
  repeat match goal with
         | H : (_ && _)%bool = true |- _ =>
             let Ha := fresh "Hc" in
             apply andb_prop in H; destruct H as [Ha H]
         end.
  repeat split; assumption.
Qed.

Lemma handlePaste_keeps_six_boxes (clipboard : string) (s : State) :
  six_boxes (code s) ->
  six_boxes (code (fst (handlePaste clipboard s))).
Proof.
  intros Hs. unfold handlePaste.
  destruct (six_digits (substring 0 6 clipboard)) eqn:H6; [|exact Hs]. cbn [negb fst code].
  destruct (six_digits_inv _ H6) as (c0 & c1 & c2 & c3 & c4 & c5 & E & ?).
  rewrite E. cbn. apply six_boxes_intro; apply slot_ok_digit; tauto.
Qed.

Lemma complete_code_is_six_digits (s : State) :
  six_boxes (code s) -> complete s = true ->
  six_digits (verificationCode s) = true.
Proof.
  intros Hs Hc. unfold complete, verificationCode in *.
  destruct (six_boxes_inv _ Hs) as (d0 & d1 & d2 & d3 & d4 & d5 & E & H0 & H1 & H2 & H3 & H4 & H5).
  rewrite E in *. clear E Hs.
  unfold truthy in Hc.
  destruct H0 as [->|(c0 & Hc0 & ->)]; [discriminate Hc|].
  destruct H1 as [->|(c1 & Hc1 & ->)]; [discriminate Hc|].
  destruct H2 as [->|(c2 & Hc2 & ->)]; [discriminate Hc|].
  destruct H3 as [->|(c3 & Hc3 & ->)]; [discriminate Hc|].
  destruct H4 as [->|(c4 & Hc4 & ->)]; [discriminate Hc|].
  destruct H5 as [->|(c5 & Hc5 & ->)]; [discriminate Hc|].
  unfold six_digits. cbn. rewrite Hc0, Hc1, Hc2, Hc3, Hc4, Hc5. reflexivity.
Qed.

(** X30. The six boxes of the verification page. Starting from six boxes
    that are each empty or hold one digit, typing into a box and pasting
    leave six such boxes, and every focus request names one of the six
    boxes. A clipboard text that starts with six digits fills the boxes with
    exactly these digits and completes the code; text of several digits
    arriving in one box replaces all six boxes by its first six digits and
    moves the focus behind the last of them. Once every box is filled, the
    code the page submits is six digits. *)
Theorem code_boxes_hold_the_typed_digits
  (s : State) (index : nat) (value clipboard : string) :
  six_boxes (code s) ->
  (index < 6)%nat ->
  let typed := handleChange index value s in
  let pasted := handlePaste clipboard s in
  six_boxes (code (fst typed)) /\
  six_boxes (code (fst pasted)) /\
  (forall i, snd typed = Some i \/ snd pasted = Some i \/
             handleKeyDown_Backspace index s = Some i -> (i < 6)%nat) /\
  (six_digits (substring 0 6 clipboard) = true ->
   verificationCode (fst pasted) = substring 0 6 clipboard /\
   complete (fst pasted) = true) /\
  (all_digits value = true -> (1 < String.length value)%nat ->
   verificationCode (fst typed) = substring 0 6 value /\
   snd typed = Some (Nat.min (String.length value) 5)) /\
  (complete (fst typed) = true -> six_digits (verificationCode (fst typed)) = true) /\
  (complete (fst pasted) = true -> six_digits (verificationCode (fst pasted)) = true).
Proof.
  intros Hs Hi typed pasted.
  assert (Ht : six_boxes (code (fst typed)))
    by (apply handleChange_keeps_six_boxes; assumption).
  assert (Hp : six_boxes (code (fst pasted)))
    by (apply handlePaste_keeps_six_boxes; assumption).
  split; [exact Ht|]. split; [exact Hp|].
  split; [|split; [|split; [|split]]].
  - intros i [H|[H|H]].
    + subst typed. unfold handleChange in H.
      destruct (all_digits value); [|discriminate H]. cbn [negb] in H.
      destruct (1 <? String.length value)%nat.
      * cbn [snd] in H. injection H as <-.
        destruct (findLastIndex _ _) as [l|]; [|lia].
        destruct (l <? 5)%nat eqn:E; [apply Nat.ltb_lt in E|]; lia.
      * cbn [snd] in H.
        destruct (negb _ && (index <? 5)%nat)%bool eqn:E; [|discriminate H].
        apply andb_prop in E. destruct E as [_ E]. apply Nat.ltb_lt in E.
        injection H as <-. lia.
    + subst pasted. unfold handlePaste in H.
      destruct (six_digits _); cbn in H; [injection H as <-; lia | discriminate H].
    + unfold handleKeyDown_Backspace in H.
      destruct (_ && _)%bool; [injection H as <-; lia | discriminate H].
  - intros H6. subst pasted. unfold handlePaste. rewrite H6. cbn [negb fst].
    destruct (six_digits_inv _ H6) as (c0 & c1 & c2 & c3 & c4 & c5 & E & _).
    rewrite E. split; reflexivity.
  - intros Hd Hl. subst typed. unfold handleChange. rewrite Hd. cbn [negb].
    apply Nat.ltb_lt in Hl. rewrite Hl.
    destruct (six_boxes_inv _ Hs) as (d0 & d1 & d2 & d3 & d4 & d5 & E & _).
    rewrite E.
    destruct value as [|c0 [|c1 [|c2 [|c3 [|c4 [|c5 rest]]]]]];
      try discriminate Hl; try (destruct rest); split; reflexivity.
  - intros Hc. apply complete_code_is_six_digits; assumption.
  - intros Hc. apply complete_code_is_six_digits; assumption.
Qed.

End CodeBoxes.

Lemma code_boxes_hold_the_typed_digits_witness :
  EmailVerificationPage.verificationCode
    (fst (EmailVerificationPage.handlePaste "482913 is your code"
            EmailVerificationPage.initial))
    = "482913" /\
  EmailVerificationPage.verificationCode
    (fst (EmailVerificationPage.handleChange 2 "4829"
            EmailVerificationPage.initial))
    = "4829".
Proof.
  destruct (code_boxes_hold_the_typed_digits EmailVerificationPage.initial 2
              "4829" "482913 is your code")
    as (_ & _ & _ & Hpaste & Htyped & _).
  - split; [reflexivity|].
    repeat (apply Forall_cons; [left; reflexivity|]). apply Forall_nil.
  - lia.
  - split.
    + exact (proj1 (Hpaste eq_refl)).
    + apply Htyped; [reflexivity | simpl; lia].
Defined.
